(** * LoadImageMetadata: the image loader node and the metadata reporter node

    A shallow embedding of the two ComfyUI custom nodes of the repository,
    [LoadImageWithMetadata] (load_image_with_metadata.py) and
    [FinalMetadataReporter] (final_metadata_reporter.py), followed by the
    properties their specification states about them.

    Python objects are modelled by the JSON-shaped type [value]; a [dict] is
    an association list in insertion order, which is the order Python
    iterates it in.  A call that can raise returns an [outcome].  The
    libraries the nodes call into are interfaces, one field per function
    called: [Runtime] (json, and the text of an exception), [Imaging] (PIL)
    and [Host] (folder_paths, hashlib); the file system a call runs in is a
    record of what [os], [open] and [Image.open] answer. *)

From Stdlib Require Import ZArith List String Ascii Bool Lia Permutation.
From Stdlib Require Import DecimalString.
Import ListNotations.
Open Scope string_scope.
Open Scope Z_scope.

(** ** Python values *)

#[local] Set Warnings "-register-all".

Inductive value : Type :=
| VNone
| VBool (b : bool)
| VInt (n : Z)
| VFloat (repr : string)          (* a float, carried by its repr() *)
| VStr (s : string)
| VList (items : list value)
| VDict (items : list (string * value)).

Inductive pytype : Type :=
| TNoneType | TBool | TInt | TFloat | TStr | TList | TDict.

Definition type_of (v : value) : pytype :=
  match v with
  | VNone => TNoneType
  | VBool _ => TBool
  | VInt _ => TInt
  | VFloat _ => TFloat
  | VStr _ => TStr
  | VList _ => TList
  | VDict _ => TDict
  end.

(** ** Exceptions *)

Inductive exn : Type :=
| AttributeError (t : pytype) (attr : string)  (* 't' object has no attribute 'attr' *)
| TypeError_not_iterable (t : pytype)          (* k in x, x not a container *)
| TypeError_not_subscriptable (t : pytype)     (* x[k], x has no [] *)
| TypeError_bad_index (t : pytype)             (* x['k'], x a list or a str *)
| TypeError_unhashable (t : pytype)            (* d.get(x), x a list or a dict *)
| KeyError (k : string)
| JSONDecodeError (msg : string)
| FileNotFoundError (path : string)
| PermissionError (path : string)
| IsADirectoryError (path : string)
| OtherException (cls msg : string).           (* any other subclass of Exception *)

Inductive outcome (A : Type) : Type :=
| Returned (a : A)
| Raised (e : exn).

Arguments Returned {A} a.
Arguments Raised {A} e.

Definition bind {A B : Type} (m : outcome A) (k : A -> outcome B) : outcome B :=
  match m with
  | Returned a => k a
  | Raised e => Raised e
  end.

Declare Scope py_scope.
Delimit Scope py_scope with py.
Notation "x <- m ;; k" := (bind m (fun x => k))
  (at level 100, m at next level, right associativity) : py_scope.
Notation "' p <- m ;; k" := (bind m (fun p => k))
  (at level 100, p pattern, m at next level, right associativity) : py_scope.
Open Scope py_scope.

(** ** Characters and strings *)

Definition is_upper (c : ascii) : bool :=
  let n := nat_of_ascii c in (Nat.leb 65 n && Nat.leb n 90)%bool.

Definition is_lower (c : ascii) : bool :=
  let n := nat_of_ascii c in (Nat.leb 97 n && Nat.leb n 122)%bool.

Definition to_lower (c : ascii) : ascii :=
  if is_upper c then ascii_of_nat (nat_of_ascii c + 32) else c.

Definition to_upper (c : ascii) : ascii :=
  if is_lower c then ascii_of_nat (nat_of_ascii c - 32) else c.

Fixpoint string_map (f : ascii -> ascii) (s : string) : string :=
  match s with
  | EmptyString => EmptyString
  | String c s' => String (f c) (string_map f s')
  end.

(** [s.lower()], on the ASCII letters. *)
Definition lower (s : string) : string := string_map to_lower s.

(** [s.replace(a, b)] for one-character [a] and [b]. *)
Definition replace_char (a b : ascii) (s : string) : string :=
  string_map (fun c => if Ascii.eqb c a then b else c) s.

(** [s.title()], on the ASCII letters: a letter that follows a letter is
    lowered, any other letter is raised. *)
Fixpoint title_from (previous_is_cased : bool) (s : string) : string :=
  match s with
  | EmptyString => EmptyString
  | String c s' =>
      let cased := (is_upper c || is_lower c)%bool in
      String (if previous_is_cased then to_lower c else to_upper c)
             (title_from cased s')
  end.

Definition title (s : string) : string := title_from false s.

(** [s.startswith(p)] *)
Definition startswith (s p : string) : bool := String.prefix p s.

Fixpoint string_rev_onto (s acc : string) : string :=
  match s with
  | EmptyString => acc
  | String c s' => string_rev_onto s' (String c acc)
  end.

Definition string_rev (s : string) : string := string_rev_onto s EmptyString.

(** [s.endswith(p)] *)
Definition endswith (s p : string) : bool :=
  String.prefix (string_rev p) (string_rev s).

(** [p in s] for two strings. *)
Definition is_substring (p s : string) : bool :=
  match String.index 0 p s with
  | Some _ => true
  | None => false
  end.

(** [sep.join(l)] *)
Definition join (sep : string) (l : list string) : string := String.concat sep l.

(** [s[:-1]] *)
Fixpoint drop_last (s : string) : string :=
  match s with
  | EmptyString => EmptyString
  | String c EmptyString => EmptyString
  | String c s' => String c (drop_last s')
  end.

Definition str_of_Z (n : Z) : string := NilZero.string_of_int (Z.to_int n).

Definition char (n : nat) : string := String (ascii_of_nat n) EmptyString.

Definition squote : string := char 39.
Definition backslash : string := char 92.
Definition newline : string := char 10.

Definition hex_digit (n : nat) : string :=
  char (if Nat.ltb n 10 then 48 + n else 87 + n).

Definition hex_byte (n : nat) : string :=
  hex_digit (Nat.div n 16) ++ hex_digit (Nat.modulo n 16).

Fixpoint has_char (a : ascii) (s : string) : bool :=
  match s with
  | EmptyString => false
  | String c s' => (Ascii.eqb c a || has_char a s')%bool
  end.

(** [repr(s)] of a str: single quotes unless the text holds one and no
    double quote; backslash, the quote and the control characters are
    escaped.  Bytes above 127 stand for printable characters and are kept. *)
Definition repr_char (quote : ascii) (c : ascii) : string :=
  let n := nat_of_ascii c in
  if (Ascii.eqb c quote || Nat.eqb n 92)%bool then backslash ++ String c EmptyString
  else if Nat.eqb n 9 then backslash ++ "t"
  else if Nat.eqb n 10 then backslash ++ "n"
  else if Nat.eqb n 13 then backslash ++ "r"
  else if (Nat.ltb n 32 || Nat.eqb n 127)%bool then backslash ++ "x" ++ hex_byte n
  else String c EmptyString.

Fixpoint repr_chars (quote : ascii) (s : string) : string :=
  match s with
  | EmptyString => EmptyString
  | String c s' => repr_char quote c ++ repr_chars quote s'
  end.

Definition repr_str (s : string) : string :=
  let quote :=
    if (has_char (ascii_of_nat 39) s && negb (has_char (ascii_of_nat 34) s))%bool
    then ascii_of_nat 34 else ascii_of_nat 39 in
  String quote (repr_chars quote s) ++ String quote EmptyString.

(** [repr(v)] *)
Fixpoint py_repr (v : value) : string :=
  match v with
  | VNone => "None"
  | VBool true => "True"
  | VBool false => "False"
  | VInt n => str_of_Z n
  | VFloat r => r
  | VStr s => repr_str s
  | VList l => "[" ++ join ", " (map py_repr l) ++ "]"
  | VDict d =>
      "{" ++ join ", " (map (fun kv => repr_str (fst kv) ++ ": " ++ py_repr (snd kv)) d) ++ "}"
  end.

(** [str(v)], which is what an f-string field [{v}] prints. *)
Definition py_str (v : value) : string :=
  match v with
  | VStr s => s
  | _ => py_repr v
  end.

(** ** Truth, equality with a literal, and dict access *)

(** [bool(v)] *)
Definition truthy (v : value) : bool :=
  match v with
  | VNone => false
  | VBool b => b
  | VInt n => negb (n =? 0)
  | VFloat r => negb (String.eqb r "0.0" || String.eqb r "-0.0")
  | VStr s => negb (String.eqb s EmptyString)
  | VList l => match l with [] => false | _ => true end
  | VDict d => match d with [] => false | _ => true end
  end.

Definition is_dict (v : value) : bool :=
  match v with VDict _ => true | _ => false end.

Definition is_list (v : value) : bool :=
  match v with VList _ => true | _ => false end.

(** [v == s] for a str [s] *)
Definition eq_str (v : value) (s : string) : bool :=
  match v with
  | VStr t => String.eqb t s
  | _ => false
  end.

Definition dict := list (string * value).

(** [d.get(k)], [None] when the key is missing *)
Fixpoint dict_get (k : string) (d : dict) : option value :=
  match d with
  | [] => None
  | (k', v) :: d' => if String.eqb k' k then Some v else dict_get k d'
  end.

(** [k in d] *)
Definition dict_mem (k : string) (d : dict) : bool :=
  match dict_get k d with Some _ => true | None => false end.

(** [d.get(k, default)] *)
Definition dict_get_or (k : string) (default : value) (d : dict) : value :=
  match dict_get k d with Some v => v | None => default end.

(** [d[k] = v]: an existing key keeps its place, a new key goes last. *)
Fixpoint dict_set (k : string) (v : value) (d : dict) : dict :=
  match d with
  | [] => [(k, v)]
  | (k', v') :: d' =>
      if String.eqb k' k then (k', v) :: d' else (k', v') :: dict_set k v d'
  end.

(** [x.get(k, default)] on an arbitrary object: only a dict has [get]. *)
Definition get_or (x : value) (k : string) (default : value) : outcome value :=
  match x with
  | VDict d => Returned (dict_get_or k default d)
  | _ => Raised (AttributeError (type_of x) "get")
  end.

(** [x.items()] *)
Definition items (x : value) : outcome dict :=
  match x with
  | VDict d => Returned d
  | _ => Raised (AttributeError (type_of x) "items")
  end.

(** [k in x] for a str [k] and an arbitrary object [x] *)
Definition contains (k : string) (x : value) : outcome bool :=
  match x with
  | VDict d => Returned (dict_mem k d)
  | VList l => Returned (existsb (fun y => eq_str y k) l)
  | VStr s => Returned (is_substring k s)
  | _ => Raised (TypeError_not_iterable (type_of x))
  end.

(** [x[k]] for a str [k] and an arbitrary object [x] *)
Definition subscript (x : value) (k : string) : outcome value :=
  match x with
  | VDict d =>
      match dict_get k d with
      | Some v => Returned v
      | None => Raised (KeyError k)
      end
  | VList _ | VStr _ => Raised (TypeError_bad_index (type_of x))
  | _ => Raised (TypeError_not_subscriptable (type_of x))
  end.

(** [d.get(k)] for an arbitrary key object [k] and a dict with str keys:
    hashing a list or a dict raises, any other non-str key is absent. *)
Definition get_by_value (d : dict) (k : value) : outcome value :=
  match k with
  | VStr s => Returned (dict_get_or s VNone d)
  | VList _ | VDict _ => Raised (TypeError_unhashable (type_of k))
  | _ => Returned VNone
  end.

(** [isinstance(node, dict) and node.get('class_type') == class_type] *)
Definition class_is (node : value) (class_type : string) : bool :=
  match node with
  | VDict n => eq_str (dict_get_or "class_type" VNone n) class_type
  | _ => false
  end.

(** ** The libraries behind the reporter

    [json.loads] (which raises on malformed text), [json.dumps(_, indent=2)]
    and the text [str(e)] of an exception. *)

Class Runtime : Type := {
  json_loads : string -> outcome value;
  json_dumps_indent2 : value -> string;
  exn_str : exn -> string
}.

Definition is_JSONDecodeError (e : exn) : bool :=
  match e with
  | JSONDecodeError _ => true
  | _ => false
  end.

(** The stages of [report_metadata] a call entered, in order. *)
Inductive stage : Type :=
| Stage_get_nodes_dict
| Stage_format_direct_image_metadata
| Stage_parse_and_format.

(** A LoRA entry, the dict [{'name': ..., 'strength': ...}]. *)
Record lora : Type := { name : value; strength : value }.

(** ** Calls that change a state and may raise

    The state changed so far stays changed when the call raises: the lines a
    report has collected, the accesses a loader has made. *)
Definition st (S A : Type) : Type := S -> outcome A * S.

Definition sret {S A : Type} (a : A) : st S A := fun s => (Returned a, s).

Definition sbind {S A B : Type} (m : st S A) (k : A -> st S B) : st S B :=
  fun s =>
    match m s with
    | (Returned a, s') => k a s'
    | (Raised e, s') => (Raised e, s')
    end.

Definition lift {S A : Type} (m : outcome A) : st S A := fun s => (m, s).

Fixpoint for_each {S A : Type} (l : list A) (body : A -> st S unit) : st S unit :=
  match l with
  | [] => sret tt
  | a :: l' => sbind (body a) (fun _ => for_each l' body)
  end.

Notation "x <~ m ;; k" := (sbind m (fun x => k))
  (at level 100, m at next level, right associativity) : py_scope.
Notation "m ;;; k" := (sbind m (fun _ => k))
  (at level 100, right associativity) : py_scope.

(** The body of the [try] of [_parse_and_format] runs over [output_lines]. *)
Definition lines_m (A : Type) : Type := st (list string) A.

(** [output_lines.append(line)] *)
Definition append_line (line : string) : lines_m unit :=
  fun output_lines => (Returned tt, (output_lines ++ [line])%list).

(** * FinalMetadataReporter (final_metadata_reporter.py) *)

Section Reporter.

Context {rt : Runtime}.

Definition no_metadata_message : string :=
  "Metadata report: No valid metadata was provided." ++ newline ++ newline
  ++ "If this is unexpected, check that:" ++ newline
  ++ "1. The image has embedded metadata" ++ newline
  ++ "2. The LoadImageWithMetadata node is connected correctly" ++ newline
  ++ "3. The workflow has completed at least one execution".

(** One turn of the loop of [_format_direct_image_metadata]. *)
Definition format_direct_entry (entry : string * value) : string :=
  let (key, value) := entry in
  let display_key := title (replace_char "_" " " key) in
  match value with
  | VDict _ => display_key ++ ":" ++ newline ++ json_dumps_indent2 value
  | VList l =>
      let formatted_value :=
        if (5 <? Z.of_nat (List.length l))
        then drop_last (py_str (VList (firstn 5 l))) ++ ", ... ]"
        else py_str value in
      display_key ++ ": " ++ formatted_value
  | _ => display_key ++ ": " ++ py_str value
  end.

Definition _format_direct_image_metadata (metadata : value) : outcome string :=
  entries <- items metadata;;
  Returned (join newline ("--- Image Metadata ---" :: map format_direct_entry entries)).

(** [workflow['nodes']] when the key is there, else the workflow itself. *)
Definition nodes_or_self (workflow : dict) : value :=
  match dict_get "nodes" workflow with
  | Some nodes => nodes
  | None => VDict workflow
  end.

(** The [try] block of [_get_nodes_dict]: [Some v] when a [return v] was
    reached, [None] when control fell off its end, [Raised] for what the
    outer [except Exception] catches.  A [JSONDecodeError] of [json.loads]
    is caught on the spot and the next key is tried. *)
Definition _get_nodes_dict_try (metadata_dict : value) : outcome (option value) :=
  has_prompt <- contains "prompt" metadata_dict;;
  from_prompt <-
    (if has_prompt : bool then
       prompt <- subscript metadata_dict "prompt";;
       match prompt with
       | VDict _ => Returned (Some prompt)
       | VStr s =>
           match json_loads s with
           | Returned v => Returned (Some v)
           | Raised e => if is_JSONDecodeError e then Returned None else Raised e
           end
       | _ => Returned None
       end
     else Returned None);;
  match from_prompt with
  | Some v => Returned (Some v)
  | None =>
      has_workflow <- contains "workflow" metadata_dict;;
      from_workflow <-
        (if has_workflow : bool then
           workflow <- subscript metadata_dict "workflow";;
           match workflow with
           | VDict w => Returned (Some (nodes_or_self w))
           | VStr s =>
               match json_loads s with
               | Returned (VDict w) => Returned (Some (nodes_or_self w))
               | Returned _ => Returned None
               | Raised e => if is_JSONDecodeError e then Returned None else Raised e
               end
           | _ => Returned None
           end
         else Returned None);;
      match from_workflow with
      | Some v => Returned (Some v)
      | None =>
          has_nodes <- contains "nodes" metadata_dict;;
          if has_nodes : bool then
            nodes <- subscript metadata_dict "nodes";;
            Returned (if (is_dict nodes || is_list nodes)%bool then Some nodes else None)
          else Returned None
      end
  end.

Definition _get_nodes_dict (metadata_dict : value) : value :=
  match _get_nodes_dict_try metadata_dict with
  | Returned (Some v) => v
  | Returned None => VNone
  | Raised _ => VNone
  end.

(** The loop of [_extract_model_name] *)
Fixpoint model_name_loop (nodes : dict) : outcome value :=
  match nodes with
  | [] => Returned (VStr "N/A")
  | (node_id, node) :: rest =>
      if class_is node "CheckpointLoaderSimple" then
        has_inputs <- contains "inputs" node;;
        if has_inputs : bool then
          inputs <- subscript node "inputs";;
          has_ckpt <- contains "ckpt_name" inputs;;
          if has_ckpt : bool then subscript inputs "ckpt_name"
          else model_name_loop rest
        else model_name_loop rest
      else model_name_loop rest
  end.

Definition _extract_model_name (nodes_dict : value) : outcome value :=
  nodes <- items nodes_dict;;
  model_name_loop nodes.

(** The inner loop of [_extract_loras], over the inputs of the loader node *)
Fixpoint lora_entries (inputs : dict) : list lora :=
  match inputs with
  | [] => []
  | (key, value) :: rest =>
      match value with
      | VDict v =>
          if (startswith key "lora_" && truthy (dict_get_or "on" (VBool false) v))%bool
          then {| name := dict_get_or "lora" (VStr "N/A") v;
                  strength := dict_get_or "strength" (VStr "N/A") v |} :: lora_entries rest
          else lora_entries rest
      | _ => lora_entries rest
      end
  end.

(** The outer loop of [_extract_loras]: it breaks at the first loader node. *)
Fixpoint loras_loop (nodes : dict) : outcome (list lora) :=
  match nodes with
  | [] => Returned []
  | (node_id, node) :: rest =>
      if class_is node "Power Lora Loader (rgthree)" then
        inputs <- get_or node "inputs" (VDict []);;
        entries <- items inputs;;
        Returned (lora_entries entries)
      else loras_loop rest
  end.

Definition _extract_loras (nodes_dict : value) : outcome (list lora) :=
  nodes <- items nodes_dict;;
  loras_loop nodes.

(** The two loops of [_extract_resolution]; [None] when a loop ends without
    a [return]. *)
Fixpoint cascade_loop (nodes : dict) : outcome (option value) :=
  match nodes with
  | [] => Returned None
  | (node_id, node) :: rest =>
      if class_is node "CascadeResolutions" then
        has_inputs <- contains "inputs" node;;
        if has_inputs : bool then
          inputs <- subscript node "inputs";;
          has_size <- contains "size_selected" inputs;;
          if has_size : bool then
            size_selected <- subscript inputs "size_selected";;
            Returned (Some size_selected)
          else cascade_loop rest
        else cascade_loop rest
      else cascade_loop rest
  end.

Fixpoint image_scale_loop (nodes : dict) : outcome (option value) :=
  match nodes with
  | [] => Returned None
  | (node_id, node) :: rest =>
      if class_is node "ImageScale" then
        inputs <- get_or node "inputs" (VDict []);;
        width <- get_or inputs "width" VNone;;
        height <- get_or inputs "height" VNone;;
        if (truthy width && truthy height)%bool
        then Returned (Some (VStr (py_str width ++ "x" ++ py_str height)))
        else image_scale_loop rest
      else image_scale_loop rest
  end.

Definition _extract_resolution (nodes_dict : value) : outcome value :=
  nodes <- items nodes_dict;;
  cascade <- cascade_loop nodes;;
  match cascade with
  | Some size_selected => Returned size_selected
  | None =>
      nodes <- items nodes_dict;;
      scaled <- image_scale_loop nodes;;
      match scaled with
      | Some resolution => Returned resolution
      | None => Returned VNone
      end
  end.

(** The loop of [_extract_prompts]; it yields [(pos_prompt, t5xxl_prompt)]. *)
Fixpoint prompts_loop (nodes : dict) : outcome (value * value) :=
  match nodes with
  | [] => Returned (VStr "N/A", VNone)
  | (node_id, node) :: rest =>
      if class_is node "CLIPTextEncodeFlux" then
        inputs <- get_or node "inputs" (VDict []);;
        clip_l <- get_or inputs "clip_l" VNone;;
        if eq_str clip_l EmptyString then prompts_loop rest
        else
          has_clip_l <- contains "clip_l" inputs;;
          if has_clip_l : bool then
            pos_prompt <- subscript inputs "clip_l";;
            has_t5xxl <- contains "t5xxl" inputs;;
            if has_t5xxl : bool then
              t5xxl_prompt <- subscript inputs "t5xxl";;
              Returned (pos_prompt, t5xxl_prompt)
            else Returned (pos_prompt, VNone)
          else prompts_loop rest
      else prompts_loop rest
  end.

Definition _extract_prompts (nodes_dict : value) : outcome (value * value) :=
  nodes <- items nodes_dict;;
  prompts_loop nodes.

(** The seed of a KSampler node: a list is a link [node_id, output_index],
    followed one hop to a "Seed Everywhere" node; anything else is the seed
    itself. *)
Definition sampler_seed (nodes_dict : dict) (inputs : value) : outcome value :=
  seed_link <- get_or inputs "seed" VNone;;
  match seed_link with
  | VList (seed_node_id :: _) =>
      seed_node <- get_by_value nodes_dict seed_node_id;;
      if truthy seed_node then
        class_type <- get_or seed_node "class_type" VNone;;
        if eq_str class_type "Seed Everywhere" then
          seed_inputs <- get_or seed_node "inputs" (VDict []);;
          get_or seed_inputs "seed" (VStr "N/A")
        else Returned (VStr "N/A")
      else Returned (VStr "N/A")
  | _ => get_or inputs "seed" (VStr "N/A")
  end.

(** The two loops of [_extract_sampler_info]; [None] when a loop ends
    without a [return]. *)
Fixpoint ksampler_loop (nodes_dict : dict) (nodes : dict) : outcome (option dict) :=
  match nodes with
  | [] => Returned None
  | (node_id, node) :: rest =>
      if class_is node "KSampler" then
        inputs <- get_or node "inputs" (VDict []);;
        seed_value <- sampler_seed nodes_dict inputs;;
        steps <- get_or inputs "steps" (VStr "N/A");;
        cfg <- get_or inputs "cfg" (VStr "N/A");;
        sampler_name <- get_or inputs "sampler_name" (VStr "N/A");;
        scheduler <- get_or inputs "scheduler" (VStr "N/A");;
        denoise <- get_or inputs "denoise" (VStr "N/A");;
        Returned (Some [("seed", seed_value); ("steps", steps); ("cfg", cfg);
                        ("sampler_name", sampler_name); ("scheduler", scheduler);
                        ("denoise", denoise)])
      else ksampler_loop nodes_dict rest
  end.

Fixpoint xlabs_sampler_loop (nodes : dict) : outcome (option dict) :=
  match nodes with
  | [] => Returned None
  | (node_id, node) :: rest =>
      if class_is node "XlabsSampler" then
        inputs <- get_or node "inputs" (VDict []);;
        seed <- get_or inputs "noise_seed" (VStr "N/A");;
        steps <- get_or inputs "steps" (VStr "N/A");;
        true_gs <- get_or inputs "true_gs" (VStr "N/A");;
        timestep <- get_or inputs "timestep_to_start_cfg" (VStr "N/A");;
        i2i <- get_or inputs "image_to_image_strength" (VStr "N/A");;
        denoise <- get_or inputs "denoise_strength" (VStr "N/A");;
        Returned (Some [("seed", seed); ("steps", steps); ("true_gs", true_gs);
                        ("timestep_to_start_cfg", timestep);
                        ("image_to_image_strength", i2i); ("denoise", denoise)])
      else xlabs_sampler_loop rest
  end.

Definition _extract_sampler_info (nodes_dict : value) : outcome (option dict) :=
  nodes <- items nodes_dict;;
  ksampler <- ksampler_loop nodes nodes;;
  match ksampler with
  | Some sampler_info => Returned (Some sampler_info)
  | None =>
      nodes <- items nodes_dict;;
      xlabs_sampler_loop nodes
  end.

(** The two accumulating loops of [_extract_additional_components] *)
Fixpoint controlnet_loop (nodes : dict) (controlnet_info : dict) : outcome dict :=
  match nodes with
  | [] => Returned controlnet_info
  | (node_id, node) :: rest =>
      if class_is node "LoadFluxControlNet" then
        inputs <- get_or node "inputs" (VDict []);;
        model_name <- get_or inputs "model_name" (VStr "N/A");;
        controlnet_path <- get_or inputs "controlnet_path" (VStr "N/A");;
        controlnet_loop rest
          (dict_set "controlnet_path" controlnet_path
             (dict_set "model_name" model_name controlnet_info))
      else if class_is node "ApplyFluxControlNet" then
        inputs <- get_or node "inputs" (VDict []);;
        strength <- get_or inputs "strength" (VStr "N/A");;
        controlnet_loop rest (dict_set "strength" strength controlnet_info)
      else if class_is node "CannyEdgePreprocessor" then
        inputs <- get_or node "inputs" (VDict []);;
        low_threshold <- get_or inputs "low_threshold" (VStr "N/A");;
        high_threshold <- get_or inputs "high_threshold" (VStr "N/A");;
        resolution <- get_or inputs "resolution" (VStr "N/A");;
        controlnet_loop rest
          (dict_set "resolution" resolution
             (dict_set "high_threshold" high_threshold
                (dict_set "low_threshold" low_threshold controlnet_info)))
      else controlnet_loop rest controlnet_info
  end.

Fixpoint ipadapter_loop (nodes : dict) (ipadapter_info : dict) : outcome dict :=
  match nodes with
  | [] => Returned ipadapter_info
  | (node_id, node) :: rest =>
      if class_is node "LoadFluxIPAdapter" then
        inputs <- get_or node "inputs" (VDict []);;
        adapter <- get_or inputs "ipadatper" (VStr "N/A");;
        clip_vision <- get_or inputs "clip_vision" (VStr "N/A");;
        provider <- get_or inputs "provider" (VStr "N/A");;
        ipadapter_loop rest
          (dict_set "provider" provider
             (dict_set "clip_vision" clip_vision
                (dict_set "adapter" adapter ipadapter_info)))
      else if class_is node "ApplyFluxIPAdapter" then
        inputs <- get_or node "inputs" (VDict []);;
        ip_scale <- get_or inputs "ip_scale" (VStr "N/A");;
        ipadapter_loop rest (dict_set "ip_scale" ip_scale ipadapter_info)
      else ipadapter_loop rest ipadapter_info
  end.

Definition nonempty {A : Type} (l : list A) : bool :=
  match l with
  | [] => false
  | _ => true
  end.

Definition _extract_additional_components (nodes_dict : value)
  : outcome (list (string * dict)) :=
  nodes <- items nodes_dict;;
  controlnet_info <- controlnet_loop nodes [];;
  let components :=
    if nonempty controlnet_info then [("ControlNet Details", controlnet_info)] else [] in
  nodes <- items nodes_dict;;
  ipadapter_info <- ipadapter_loop nodes [];;
  Returned (if nonempty ipadapter_info
            then (components ++ [("IPAdapter Details", ipadapter_info)])%list
            else components).

(** The report line of one LoRA: the one strength fills both places. *)
Definition lora_line (l : lora) : string :=
  "  - " ++ py_str (name l) ++ " (Model: " ++ py_str (strength l)
  ++ ", CLIP: " ++ py_str (strength l) ++ ")".

(** The line of one [key, value] pair of a details section *)
Definition detail_line (entry : string * value) : string :=
  title (replace_char "_" " " (fst entry)) ++ ": " ++ py_str (snd entry).

(** Step 2 of [_parse_and_format]: the LoRA lines *)
Definition lora_section (loras : list lora) : lines_m unit :=
  if nonempty loras
  then append_line "LoRAs:";;; for_each loras (fun l => append_line (lora_line l))
  else sret tt.

(** Step 6 of [_parse_and_format]: the sampler lines *)
Definition sampler_section (sampler_info : option dict) : lines_m unit :=
  match sampler_info with
  | Some ((_ :: _) as info) =>
      append_line (newline ++ "--- Sampler Details ---");;;
      for_each info (fun entry => append_line (detail_line entry))
  | _ => sret tt
  end.

(** Step 7 of [_parse_and_format]: the lines of one additional component *)
Definition component_section (component : string * dict) : lines_m unit :=
  if nonempty (snd component)
  then append_line (newline ++ "--- " ++ fst component ++ " ---");;;
       for_each (snd component) (fun entry => append_line (detail_line entry))
  else sret tt.

(** The body of the [try] of [_parse_and_format] *)
Definition _parse_and_format_try (nodes_dict : value) : lines_m unit :=
  (* 1. Find model checkpoint *)
  model_name <~ lift (_extract_model_name nodes_dict);;
  append_line ("Model: " ++ py_str model_name);;;
  (* 2. Find LoRA information *)
  loras <~ lift (_extract_loras nodes_dict);;
  lora_section loras;;;
  (* 3. Find resolution *)
  resolution <~ lift (_extract_resolution nodes_dict);;
  (if truthy resolution
   then append_line ("Resolution: " ++ py_str resolution)
   else sret tt);;;
  (* 4. Find positive prompt *)
  prompts <~ lift (_extract_prompts nodes_dict);;
  append_line (newline ++ "Positive Prompt:" ++ newline ++ "  " ++ py_str (fst prompts));;;
  (if truthy (snd prompts)
   then append_line (newline ++ "T5XXL Prompt:" ++ newline ++ "  " ++ py_str (snd prompts))
   else sret tt);;;
  (* 5. Negative prompt *)
  append_line (newline ++ "Negative Prompt:" ++ newline ++ "  (Empty)");;;
  (* 6. Find Sampler info *)
  sampler_info <~ lift (_extract_sampler_info nodes_dict);;
  sampler_section sampler_info;;;
  (* 7. Find additional components like ControlNet and IPAdapter *)
  additional_components <~ lift (_extract_additional_components nodes_dict);;
  for_each additional_components component_section.

Definition _parse_and_format (nodes_dict : value) : string :=
  let output_lines := ["--- Workflow Metadata Report ---"] in
  match _parse_and_format_try nodes_dict output_lines with
  | (Returned _, output_lines) => join newline output_lines
  | (Raised e, output_lines) =>
      join newline
        (output_lines
           ++ [(newline ++ "Error during metadata parsing: " ++ exn_str e)%string])%list
  end.

(** [report_metadata]: the text of the returned 1-tuple, and the stages the
    call went through. *)
Definition report_metadata (metadata : value) : outcome string * list stage :=
  if (negb (truthy metadata) || negb (is_dict metadata))%bool then
    (Returned no_metadata_message, [])
  else
    let nodes_dict := _get_nodes_dict metadata in
    if negb (truthy nodes_dict) then
      if (is_dict metadata
          && match metadata with VDict d => nonempty d | _ => false end)%bool
      then (_format_direct_image_metadata metadata,
            [Stage_get_nodes_dict; Stage_format_direct_image_metadata])
      else
        (match metadata with
         | VDict d =>
             Returned ("Could not find workflow node structure in metadata."
                       ++ newline ++ newline ++ "Available metadata keys: "
                       ++ join ", " (firstn 10 (map fst d)))
         | _ => Returned "None"
         end, [Stage_get_nodes_dict])
    else (Returned (_parse_and_format nodes_dict),
          [Stage_get_nodes_dict; Stage_parse_and_format]).

End Reporter.

(** * LoadImageWithMetadata (load_image_with_metadata.py) *)

(** ** Paths (posixpath) *)

Fixpoint rfind_from (c : ascii) (s : string) (i : nat) (found : option nat) : option nat :=
  match s with
  | EmptyString => found
  | String c' s' => rfind_from c s' (S i) (if Ascii.eqb c' c then Some i else found)
  end.

(** [s.rfind(c)], [None] for -1 *)
Definition rfind (c : ascii) (s : string) : option nat := rfind_from c s 0%nat None.

(** [s[i:]] *)
Fixpoint string_from (i : nat) (s : string) : string :=
  match i, s with
  | O, _ => s
  | S i', String _ s' => string_from i' s'
  | S _, EmptyString => EmptyString
  end.

(** [os.path.join(a, b)] *)
Definition path_join (a b : string) : string :=
  if startswith b "/" then b
  else if (String.eqb a EmptyString || endswith a "/")%bool then a ++ b
  else a ++ "/" ++ b.

(** [os.path.basename(p)] *)
Definition basename (p : string) : string :=
  match rfind "/" p with
  | Some i => string_from (S i) p
  | None => p
  end.

(** Is some character of [s] in positions [from, to) not a dot? *)
Fixpoint has_non_dot (s : string) (from to : nat) : bool :=
  match to with
  | O => false
  | S to' =>
      match s with
      | EmptyString => false
      | String c s' =>
          match from with
          | O => (negb (Ascii.eqb c ".") || has_non_dot s' O to')%bool
          | S from' => has_non_dot s' from' to'
          end
      end
  end.

(** [os.path.splitext(p)[0]]: the path up to the last dot of its last
    component, leading dots of that component not counting. *)
Definition splitext_root (p : string) : string :=
  match rfind "." p with
  | None => p
  | Some dotIndex =>
      let filenameIndex := match rfind "/" p with Some i => S i | None => O end in
      if (Nat.leb filenameIndex dotIndex && has_non_dot p filenameIndex dotIndex)%bool
      then String.substring 0 dotIndex p
      else p
  end.

(** ** The output directory tree and [os.walk] *)

Inductive dirtree : Type :=
| Dir (files : list string) (subdirs : list (string * dirtree)).

(** [os.walk(top)], top-down: [(root, dirs, files)] of a directory, then
    the walks of its sub-directories in order. *)
Fixpoint os_walk (top : string) (t : dirtree) : list (string * list string * list string) :=
  match t with
  | Dir files subdirs =>
      (top, map fst subdirs, files)
      :: flat_map (fun sub => os_walk (path_join top (fst sub)) (snd sub)) subdirs
  end.

(** ** Images, tensors and the libraries behind the loader *)

(** PIL: the frames of an opened image and the operations applied to them. *)
Class Imaging : Type := {
  frame : Type;                             (* a frame of an opened image *)
  rgb : Type;                               (* a frame converted to RGB *)
  exif_transpose : frame -> outcome frame;  (* ImageOps.exif_transpose *)
  mode : frame -> string;                   (* i.mode *)
  point_scale : frame -> outcome frame;     (* i.point(lambda i: i * (1 / 255)) *)
  convert_rgb : frame -> outcome rgb;       (* i.convert("RGB") *)
  size : rgb -> Z * Z                       (* image_rgb.size *)
}.

(** folder_paths and hashlib *)
Class Host : Type := {
  get_output_directory : string;
  get_annotated_filepath : string -> string;
  sha256_digest : list Byte.byte -> list Byte.byte
}.

(** What the loader did to the file system, in order. *)
Inductive event : Type :=
| Ev_getmtime (path : string)
| Ev_image_open (path : string)
| Ev_exists (path : string)
| Ev_json_load (path : string).

(** The change signal of [IS_CHANGED]: [float("nan")] or a hex digest. *)
Inductive signal : Type :=
| NaN
| HexDigest (hex : string).

(** [bytes.hex()] *)
Definition bytes_hex (b : list Byte.byte) : string :=
  String.concat EmptyString (map (fun x => hex_byte (Byte.to_nat x)) b).

Section Loader.

Context {rt : Runtime} {im : Imaging} {host : Host}.

(** An opened image: [img.info], [img.format], and what seeking to each of
    its frames in turn gives. *)
Record image : Type := {
  info : dict;
  format : option string;
  frames : list (outcome frame)
}.

(** A tensor: [torch.zeros(shape)], or a batch of frames, each the H x W x 3
    array of an RGB frame divided by 255. *)
Inductive tensor : Type :=
| Zeros (shape : list nat)
| Batch (images : list rgb).

(** The state of the file system a call runs in. *)
Record filesystem : Type := {
  output_tree : dirtree;                          (* under the output directory *)
  getmtime : string -> outcome Z;                 (* os.path.getmtime *)
  image_open : string -> outcome image;           (* Image.open *)
  path_exists : string -> bool;                   (* os.path.exists *)
  json_load_file : string -> outcome value;       (* open(path, 'r'), json.load *)
  read_bytes : string -> outcome (list Byte.byte) (* open(path, 'rb'), f.read() *)
}.

Definition io (A : Type) : Type := st (list event) A.

Definition log (ev : event) : io unit :=
  fun events => (Returned tt, (events ++ [ev])%list).

Definition _create_error_output (error_message : string) : tensor * value :=
  (Zeros [1; 3; 64; 64]%nat, VDict [("error", VStr error_message)]).

(** The loop of [_parse_png_metadata] over the keys of [raw_metadata] *)
Fixpoint parse_png_loop (raw_metadata : dict) (metadata : dict) : dict :=
  match raw_metadata with
  | [] => metadata
  | (key, raw) :: rest =>
      if (String.eqb key "prompt" || String.eqb key "workflow")%bool then
        let parsed :=
          match raw with
          | VStr s =>
              match json_loads s with
              | Returned v => v
              | Raised _ => raw
              end
          | _ => raw
          end in
        parse_png_loop rest (dict_set key parsed metadata)
      else if String.eqb key "parameters" then
        parse_png_loop rest (dict_set "parameters" raw metadata)
      else parse_png_loop rest metadata
  end.

Definition _parse_png_metadata (raw_metadata : dict) : value :=
  let metadata := parse_png_loop raw_metadata [] in
  if negb (nonempty metadata)
  then VDict [("info", VStr "No workflow metadata found")]
  else VDict metadata.

(** What one turn of the loop does to reach [image_rgb]: take the next
    frame, transpose it by its orientation tag, rescale a mode "I" frame,
    convert to RGB. *)
Definition decode_frame (next : outcome frame) : outcome rgb :=
  i <- next;;
  i <- exif_transpose i;;
  i <- (if String.eqb (mode i) "I" then point_scale i else Returned i);;
  convert_rgb i.

(** [a != b] where [b] may still be [None] *)
Definition differs (a : Z) (b : option Z) : bool :=
  match b with
  | Some b => negb (a =? b)
  | None => true
  end.

(** The loop over [ImageSequence.Iterator(img)]: [output_images] collects
    the frames kept, [w] and [h] are set while nothing is kept yet. *)
Fixpoint frames_loop (seq : list (outcome frame)) (output_images : list rgb)
    (w h : option Z) : outcome (list rgb) :=
  match seq with
  | [] => Returned output_images
  | next :: rest =>
      image_rgb <- decode_frame next;;
      let (w, h) :=
        if negb (nonempty output_images)
        then (Some (fst (size image_rgb)), Some (snd (size image_rgb)))
        else (w, h) in
      if (differs (fst (size image_rgb)) w || differs (snd (size image_rgb)) h)%bool
      then frames_loop rest output_images w h
      else frames_loop rest (output_images ++ [image_rgb])%list w h
  end.

Definition excluded_formats : list string := ["MPO"].

Definition format_excluded (f : option string) : bool :=
  match f with
  | Some f => existsb (String.eqb f) excluded_formats
  | None => false
  end.

(** [len(output_images) > 1 and img.format not in excluded_formats], with
    [torch.cat] of the frames kept, else the first of them. *)
Definition select_output (img : image) (first : rgb) (others : list rgb) : tensor :=
  match others with
  | _ :: _ => if negb (format_excluded (format img))
              then Batch (first :: others) else Batch [first]
  | [] => Batch [first]
  end.

(** The parallel JSON file: read when no workflow metadata was found and a
    file of the same name with extension ".json" exists; what it holds then
    replaces the metadata, and a failure to read it changes nothing. *)
Definition sidecar_fallback (fs : filesystem) (image_path : string) (metadata : value)
  : io value :=
  if (negb (truthy metadata)
      || match metadata with
         | VDict d => eq_str (dict_get_or "info" VNone d) "No workflow metadata found"
         | _ => false
         end)%bool
  then
    let metadata_path := splitext_root image_path ++ ".json" in
    log (Ev_exists metadata_path);;;
    if path_exists fs metadata_path then
      log (Ev_json_load metadata_path);;;
      match json_load_file fs metadata_path with
      | Returned loaded => sret loaded
      | Raised _ => sret metadata
      end
    else sret metadata
  else sret metadata.

(** [if isinstance(metadata, dict)]: add the image path, for reference. *)
Definition add_image_path (image_path : string) (metadata : value) : value :=
  match metadata with
  | VDict d =>
      VDict (dict_set "image_filename" (VStr (basename image_path))
               (dict_set "image_path" (VStr image_path) d))
  | _ => metadata
  end.

(** The [try] block of [_process_image_file]; [Returned] holds the pair it
    returns, be it the loaded image or the placeholder of "no frames". *)
Definition _process_image_file_try (fs : filesystem) (image_path : string)
  : io (tensor * value) :=
  log (Ev_image_open image_path);;;
  img <~ lift (image_open fs image_path);;
  let raw_metadata := info img in
  let metadata := _parse_png_metadata raw_metadata in
  output_images <~ lift (frames_loop (frames img) [] None None);;
  match output_images with
  | [] => sret (_create_error_output "Failed to load image frames")
  | first :: others =>
      let output_image := select_output img first others in
      metadata <~ sidecar_fallback fs image_path metadata;;
      sret (output_image, add_image_path image_path metadata)
  end.

Definition _process_image_file (fs : filesystem) (image_path : string)
  : io (tensor * value) :=
  fun events =>
    match _process_image_file_try fs image_path events with
    | (Returned result, events') => (Returned result, events')
    | (Raised e, events') =>
        (Returned (_create_error_output ("Error processing image: " ++ exn_str e)), events')
    end.

(** The two nested loops over [os.walk(output_path)] *)
Fixpoint scan_files (fs : filesystem) (root : string) (files : list string)
  : io (list (string * Z)) :=
  match files with
  | [] => sret []
  | file :: rest =>
      if endswith (lower file) ".png" then
        let full_path := path_join root file in
        log (Ev_getmtime full_path);;;
        mtime <~ lift (getmtime fs full_path);;
        found <~ scan_files fs root rest;;
        sret ((full_path, mtime) :: found)
      else scan_files fs root rest
  end.

Fixpoint scan_walk (fs : filesystem) (walk : list (string * list string * list string))
  : io (list (string * Z)) :=
  match walk with
  | [] => sret []
  | (root, dirs, files) :: rest =>
      here <~ scan_files fs root files;;
      below <~ scan_walk fs rest;;
      sret (here ++ below)%list
  end.

(** [png_files.sort(key=lambda x: x[1], reverse=True)]: newest first, and
    files of equal time stay in the order they were found (the sort is
    stable). *)
Fixpoint insert_newest_first (x : string * Z) (sorted : list (string * Z))
  : list (string * Z) :=
  match sorted with
  | [] => [x]
  | y :: sorted' =>
      if snd y <=? snd x then x :: y :: sorted'
      else y :: insert_newest_first x sorted'
  end.

Definition sort_newest_first (png_files : list (string * Z)) : list (string * Z) :=
  fold_right insert_newest_first [] png_files.

(** [load_image_with_metadata(source_type, image_file)]; the arguments
    [image_input] and [metadata_input] are never read. *)
Definition load_image_with_metadata (fs : filesystem) (source_type : string)
    (image_file : option string) : io (tensor * value) :=
  if String.eqb source_type "direct_input" then
    let output_path := get_output_directory in
    png_files <~ scan_walk fs (os_walk output_path (output_tree fs));;
    if negb (nonempty png_files) then
      sret (_create_error_output "No PNG files found in output directory")
    else
      match sort_newest_first png_files with
      | (most_recent_file, _) :: _ => _process_image_file fs most_recent_file
      | [] => lift (Raised (OtherException "IndexError" "list index out of range"))
      end
  else
    match image_file with
    | None => sret (_create_error_output "No image file specified")
    | Some image_file =>
        let image_path := get_annotated_filepath image_file in
        _process_image_file fs image_path
    end.

(** [IS_CHANGED(source_type, image_file)] *)
Definition IS_CHANGED (fs : filesystem) (source_type : string)
    (image_file : option string) : outcome signal :=
  if String.eqb source_type "direct_input" then Returned NaN
  else
    match String.eqb source_type "file", image_file with
    | true, Some image_file =>
        let image_path := get_annotated_filepath image_file in
        match read_bytes fs image_path with
        | Returned content => Returned (HexDigest (bytes_hex (sha256_digest content)))
        | Raised (FileNotFoundError _) => Returned NaN
        | Raised e => Raised e
        end
    | _, _ => Returned NaN
    end.

End Loader.

(** * What the statements below speak of *)

Section Vocabulary.

Context {rt : Runtime} {im : Imaging} {host : Host}.

(** The full paths of the files of a walk whose name ends in ".png", in any
    letter case, in the order the walk lists them. *)
Definition png_candidates (walk : list (string * list string * list string))
  : list string :=
  flat_map (fun entry =>
              map (path_join (fst (fst entry)))
                  (filter (fun file => endswith (lower file) ".png") (snd entry)))
           walk.

(** All the frames of a sequence, decoded in order. *)
Fixpoint decode_all (seq : list (outcome frame)) : outcome (list rgb) :=
  match seq with
  | [] => Returned []
  | next :: rest =>
      image_rgb <- decode_frame next;;
      others <- decode_all rest;;
      Returned (image_rgb :: others)
  end.

(** Two frames of equal width and equal height *)
Definition same_size (a b : rgb) : bool :=
  ((fst (size b) =? fst (size a)) && (snd (size b) =? snd (size a)))%bool.

(** An input of a LoRA loader node that yields an entry: the key starts with
    "lora_" and the value is a dict whose [on] is true in Python's sense of
    truth. *)
Definition lora_input_on (entry : string * value) : bool :=
  (startswith (fst entry) "lora_"
   && match snd entry with
      | VDict v => truthy (dict_get_or "on" (VBool false) v)
      | _ => false
      end)%bool.

Definition lora_of_input (entry : string * value) : lora :=
  match snd entry with
  | VDict v => {| name := dict_get_or "lora" (VStr "N/A") v;
                  strength := dict_get_or "strength" (VStr "N/A") v |}
  | _ => {| name := VStr "N/A"; strength := VStr "N/A" |}
  end.

(** [v == True]: the bool, and the numbers equal to one. *)
Definition py_eq_true (v : value) : bool :=
  match v with
  | VBool b => b
  | VInt n => n =? 1
  | VFloat r => String.eqb r "1.0"
  | _ => false
  end.

(** The selection of LoRA inputs in the words of the specification: the key
    starts with "lora_" and the value is a mapping with [on == true]. *)
Definition lora_input_on_true (entry : string * value) : bool :=
  (startswith (fst entry) "lora_"
   && match snd entry with
      | VDict v => py_eq_true (dict_get_or "on" (VBool false) v)
      | _ => false
      end)%bool.

(** The first node of a class in iteration order: nothing before it is of
    that class. *)
Definition first_of_class (class_type : string) (before : dict) (node : value) : Prop :=
  (forall entry, In entry before -> class_is (snd entry) class_type = false)
  /\ class_is node class_type = true.


(** [d] without the key [k] *)
Definition dict_remove (k : string) (d : dict) : dict :=
  filter (fun entry => negb (String.eqb (fst entry) k)) d.

(** A value under the key prompt that [_get_nodes_dict] cannot use: neither
    a dict nor a str, or a str that [json.loads] rejects with a
    [JSONDecodeError]. *)
Definition unusable_prompt (prompt : value) : bool :=
  match prompt with
  | VDict _ => false
  | VStr s =>
      match json_loads s with
      | Raised (JSONDecodeError _) => true
      | _ => false
      end
  | _ => true
  end.

(** A node that a loop looking for the input [key] of the first node of
    class [class_type] passes over: it is of another class, or has no
    inputs, or its inputs are a dict without [key]. *)
Definition passed_over (class_type key : string) (node : value) : bool :=
  (negb (class_is node class_type)
   || match node with
      | VDict n =>
          match dict_get "inputs" n with
          | None => true
          | Some (VDict inputs) => negb (dict_mem key inputs)
          | Some _ => false
          end
      | _ => true
      end)%bool.

(** A node the loop of [_extract_prompts] passes over: not a
    "CLIPTextEncodeFlux" node, or one whose inputs have no clip_l or an
    empty one. *)
Definition no_prompt (node : value) : bool :=
  (negb (class_is node "CLIPTextEncodeFlux")
   || match node with
      | VDict n =>
          match dict_get_or "inputs" (VDict []) n with
          | VDict inputs =>
              match dict_get "clip_l" inputs with
              | None => true
              | Some clip_l => eq_str clip_l EmptyString
              end
          | _ => false
          end
      | _ => true
      end)%bool.

(** A node the second loop of [_extract_resolution] passes over: not an
    "ImageScale" node, or one whose width or height is missing or false in
    Python's sense (zero, empty). *)
Definition no_scale (node : value) : bool :=
  (negb (class_is node "ImageScale")
   || match node with
      | VDict n =>
          match dict_get_or "inputs" (VDict []) n with
          | VDict inputs =>
              negb (truthy (dict_get_or "width" VNone inputs)
                    && truthy (dict_get_or "height" VNone inputs))
          | _ => false
          end
      | _ => true
      end)%bool.

(** A node in the shape of the data model: a dict whose inputs, when it has
    any, are a dict, and whose seed input, when it is a link, names its
    target by something that can be a key (not a list, not a dict). *)
Definition node_ok (node : value) : bool :=
  match node with
  | VDict n =>
      match dict_get "inputs" n with
      | None => true
      | Some (VDict inputs) =>
          match dict_get "seed" inputs with
          | Some (VList (VList _ :: _)) | Some (VList (VDict _ :: _)) => false
          | _ => true
          end
      | Some _ => false
      end
  | _ => false
  end.

(** What [_parse_png_metadata] stores for a prompt or workflow value: the
    decoded JSON of a str that decodes, else the value as it is. *)
Definition parsed_embedded (raw : value) : value :=
  match raw with
  | VStr s =>
      match json_loads s with
      | Returned v => v
      | Raised _ => raw
      end
  | _ => raw
  end.

(** The six lines of an XlabsSampler record, after the section header *)
Definition xlabs_lines (inputs : dict) : list string :=
  ["Seed: " ++ py_str (dict_get_or "noise_seed" (VStr "N/A") inputs);
   "Steps: " ++ py_str (dict_get_or "steps" (VStr "N/A") inputs);
   "True Gs: " ++ py_str (dict_get_or "true_gs" (VStr "N/A") inputs);
   "Timestep To Start Cfg: "
     ++ py_str (dict_get_or "timestep_to_start_cfg" (VStr "N/A") inputs);
   "Image To Image Strength: "
     ++ py_str (dict_get_or "image_to_image_strength" (VStr "N/A") inputs);
   "Denoise: " ++ py_str (dict_get_or "denoise_strength" (VStr "N/A") inputs)].

(** A node of none of the five classes of the additional components *)
Definition no_component (node : value) : bool :=
  negb (class_is node "LoadFluxControlNet" || class_is node "ApplyFluxControlNet"
        || class_is node "CannyEdgePreprocessor" || class_is node "LoadFluxIPAdapter"
        || class_is node "ApplyFluxIPAdapter").

(** A computation over [output_lines] that only ever appends: it leaves the
    lines it was given in place and adds [produced] after them, whether it
    returns or raises. *)
Definition appends {A : Type} (m : lines_m A) (r : outcome A) (produced : list string)
  : Prop :=
  forall output_lines, m output_lines = (r, (output_lines ++ produced)%list).

(** A node of none of the classes the report knows *)
Definition unrecognised (node : value) : bool :=
  (negb (class_is node "CheckpointLoaderSimple"
         || class_is node "Power Lora Loader (rgthree)"
         || class_is node "CascadeResolutions" || class_is node "ImageScale"
         || class_is node "CLIPTextEncodeFlux"
         || class_is node "KSampler" || class_is node "XlabsSampler")
   && no_component node)%bool.

(** A computation over [output_lines] that never raises. *)
Definition completes {A : Type} (m : lines_m A) : Prop :=
  forall output_lines, exists a output_lines', m output_lines = (Returned a, output_lines').

(** The line [_parse_and_format] adds when its [try] block raised. *)
Definition error_lines {A : Type} (r : outcome A) : list string :=
  match r with
  | Returned _ => []
  | Raised e => [newline ++ "Error during metadata parsing: " ++ exn_str e]
  end.

End Vocabulary.

(** * Sample libraries, graphs and file systems *)

Definition pytype_name (t : pytype) : string :=
  match t with
  | TNoneType => "NoneType"
  | TBool => "bool"
  | TInt => "int"
  | TFloat => "float"
  | TStr => "str"
  | TList => "list"
  | TDict => "dict"
  end.

(** A runtime whose json reads three texts, and whose [str(e)] words the
    exceptions as CPython 3.12 does. *)
Definition sample_runtime : Runtime := {|
  json_loads := fun s =>
    if String.eqb s "[1]" then Returned (VList [VInt 1])
    else if String.eqb s "null" then Returned VNone
    else if String.eqb s "{}" then Returned (VDict [])
    else Raised (JSONDecodeError "Expecting value");
  json_dumps_indent2 := py_repr;
  exn_str := fun e =>
    match e with
    | AttributeError t attr =>
        squote ++ pytype_name t ++ "' object has no attribute '" ++ attr ++ squote
    | TypeError_not_iterable t =>
        "argument of type '" ++ pytype_name t ++ "' is not iterable"
    | TypeError_not_subscriptable t =>
        squote ++ pytype_name t ++ "' object is not subscriptable"
    | TypeError_bad_index t => pytype_name t ++ " indices must be integers"
    | TypeError_unhashable t => "unhashable type: '" ++ pytype_name t ++ squote
    | KeyError k => repr_str k
    | JSONDecodeError msg => msg
    | FileNotFoundError path => "[Errno 2] No such file or directory: " ++ repr_str path
    | PermissionError path => "[Errno 13] Permission denied: " ++ repr_str path
    | IsADirectoryError path => "[Errno 21] Is a directory: " ++ repr_str path
    | OtherException _ msg => msg
    end
|}.

(** Frames given by their mode and size; a frame of mode "broken" cannot be
    converted. *)
Definition sample_imaging : Imaging := {|
  frame := string * (Z * Z);
  rgb := Z * Z;
  exif_transpose := fun i => Returned i;
  mode := fun i => fst i;
  point_scale := fun i => Returned i;
  convert_rgb := fun i =>
    if String.eqb (fst i) "broken"
    then Raised (OtherException "OSError" "image file is truncated")
    else Returned (snd i);
  size := fun image_rgb => image_rgb
|}.

(** Inputs under "/in", outputs under "/out"; the digest is a stand-in. *)
Definition sample_host : Host := {|
  get_output_directory := "/out";
  get_annotated_filepath := fun image_file => path_join "/in" image_file;
  sha256_digest := fun content => firstn 32 content
|}.

Definition sample_image (raw : dict) (sizes : list (Z * Z))
  : @image sample_imaging :=
  @Build_image sample_imaging raw (Some "PNG")
    (map (fun wh => Returned ("RGB", wh)) sizes).

(** A file system holding one image "/in/a.png", with the given embedded
    metadata and frame sizes, and next to it "/in/a.json" when [sidecar]
    holds its parsed content. *)
Definition one_image_fs (raw : dict) (sizes : list (Z * Z)) (sidecar : option value)
  : @filesystem sample_imaging :=
  {| output_tree := Dir [] [];
     getmtime := fun path => Raised (FileNotFoundError path);
     image_open := fun path =>
       if String.eqb path "/in/a.png" then Returned (sample_image raw sizes)
       else Raised (FileNotFoundError path);
     path_exists := fun path =>
       (String.eqb path "/in/a.png"
        || (String.eqb path "/in/a.json" && nonempty (match sidecar with Some v => [v] | None => [] end)))%bool;
     json_load_file := fun path =>
       match sidecar with
       | Some v => if String.eqb path "/in/a.json" then Returned v
                   else Raised (FileNotFoundError path)
       | None => Raised (FileNotFoundError path)
       end;
     read_bytes := fun path =>
       if String.eqb path "/in/a.png" then Returned [Byte.x89; Byte.x50; Byte.x4e; Byte.x47]
       else if String.eqb path "/in/locked.png" then Raised (PermissionError path)
       else Raised (FileNotFoundError path) |}.

(** An output directory with three images, the newest in a sub-directory. *)
Definition three_outputs_fs : @filesystem sample_imaging :=
  {| output_tree := Dir ["old.png"; "notes.txt"] [("batch", Dir ["new.PNG"; "mid.png"] [])];
     getmtime := fun path =>
       if String.eqb path "/out/old.png" then Returned 100
       else if String.eqb path "/out/batch/new.PNG" then Returned 300
       else if String.eqb path "/out/batch/mid.png" then Returned 200
       else Raised (FileNotFoundError path);
     image_open := fun path => Returned (sample_image [] [(8, 8)]);
     path_exists := fun path => false;
     json_load_file := fun path => Raised (FileNotFoundError path);
     read_bytes := fun path => Raised (FileNotFoundError path) |}.

(** An output directory whose only entry "latest.png" is a symbolic link to
    a file that is gone: the walk lists it, and it has no modification
    time. *)
Definition dangling_link_fs : @filesystem sample_imaging :=
  {| output_tree := Dir ["latest.png"] [];
     getmtime := fun path => Raised (FileNotFoundError path);
     image_open := fun path => Raised (FileNotFoundError path);
     path_exists := fun path => false;
     json_load_file := fun path => Raised (FileNotFoundError path);
     read_bytes := fun path => Raised (FileNotFoundError path) |}.

(** The graph of the specification's seed example: KSampler "3" takes its
    seed from node "5", a "Seed Everywhere" node with seed 42. *)
Definition seed_link_graph : dict :=
  [("3", VDict [("class_type", VStr "KSampler");
                ("inputs", VDict [("seed", VList [VStr "5"; VInt 0]);
                                  ("steps", VInt 20); ("cfg", VFloat "7.5")])]);
   ("5", VDict [("class_type", VStr "Seed Everywhere");
                ("inputs", VDict [("seed", VInt 42)])])].

(** Two LoRA loader nodes; the first has one LoRA switched on, one switched
    off, and an input that is not a LoRA. *)
Definition two_loaders_graph : dict :=
  [("8", VDict [("class_type", VStr "Power Lora Loader (rgthree)");
                ("inputs", VDict [("lora_1", VDict [("on", VBool true);
                                                    ("lora", VStr "a.safetensors");
                                                    ("strength", VFloat "0.8")]);
                                  ("lora_2", VDict [("on", VBool false);
                                                    ("lora", VStr "b.safetensors");
                                                    ("strength", VInt 1)]);
                                  ("model", VList [VStr "7"; VInt 0])])]);
   ("9", VDict [("class_type", VStr "Power Lora Loader (rgthree)");
                ("inputs", VDict [("lora_1", VDict [("on", VBool true);
                                                    ("lora", VStr "c.safetensors");
                                                    ("strength", VInt 1)])])])].

(** A loader node whose LoRA has [on] set to a text, which is true in
    Python's sense of truth but is not equal to [True]. *)
Definition on_text_graph : dict :=
  [("8", VDict [("class_type", VStr "Power Lora Loader (rgthree)");
                ("inputs", VDict [("lora_1", VDict [("on", VStr "yes");
                                                    ("lora", VStr "a.safetensors");
                                                    ("strength", VInt 1)])])])].

(** A runtime whose json gives up on one deeply nested text with a
    [RecursionError], and reads nothing else. *)
Definition recursion_runtime : Runtime := {|
  json_loads := fun s =>
    if String.eqb s "[[[[[[[[ ... ]]]]]]]]"
    then Raised (OtherException "RecursionError"
                   "maximum recursion depth exceeded while decoding a JSON array")
    else Raised (JSONDecodeError "Expecting value");
  json_dumps_indent2 := py_repr;
  exn_str := fun e =>
    match e with
    | OtherException _ msg => msg
    | JSONDecodeError msg => msg
    | _ => "error"
    end
|}.

(** Metadata whose prompt is not JSON, with the graph under nodes. *)
Definition bad_prompt_metadata : dict :=
  [("prompt", VStr "not json"); ("nodes", VDict seed_link_graph)].

(** Metadata whose prompt is nested too deeply to decode, with a graph
    under workflow. *)
Definition deep_prompt_metadata : dict :=
  [("prompt", VStr "[[[[[[[[ ... ]]]]]]]]"); ("workflow", VDict seed_link_graph)].

(** Metadata in the layout of a saved workflow: the nodes are a list. *)
Definition saved_workflow_metadata : dict :=
  [("workflow", VDict [("last_node_id", VInt 9);
                       ("nodes", VList [VDict [("id", VInt 1);
                                               ("type", VStr "KSampler")]])])].

(** Two checkpoint loaders, the first without a ckpt_name. *)
Definition two_checkpoints_graph : dict :=
  [("1", VDict [("class_type", VStr "CheckpointLoaderSimple"); ("inputs", VDict [])]);
   ("2", VDict [("class_type", VStr "CheckpointLoaderSimple");
                ("inputs", VDict [("ckpt_name", VStr "foo.safetensors")])])].

(** Two text encoders, the first with an empty clip_l. *)
Definition two_encoders_graph : dict :=
  [("6", VDict [("class_type", VStr "CLIPTextEncodeFlux");
                ("inputs", VDict [("clip_l", VStr EmptyString);
                                  ("t5xxl", VStr EmptyString)])]);
   ("7", VDict [("class_type", VStr "CLIPTextEncodeFlux");
                ("inputs", VDict [("clip_l", VStr "a cat");
                                  ("t5xxl", VStr "a photo of a cat")])])].

(** An "ImageScale" node followed by a "CascadeResolutions" node. *)
Definition scale_then_cascade_graph : dict :=
  [("1", VDict [("class_type", VStr "ImageScale");
                ("inputs", VDict [("width", VInt 768); ("height", VInt 512)])]);
   ("2", VDict [("class_type", VStr "CascadeResolutions");
                ("inputs", VDict [("size_selected", VStr "1024x1024")])])].

(** Two "ImageScale" nodes, the first with a width of zero. *)
Definition two_scales_graph : dict :=
  [("1", VDict [("class_type", VStr "ImageScale");
                ("inputs", VDict [("width", VInt 0); ("height", VInt 512)])]);
   ("2", VDict [("class_type", VStr "ImageScale");
                ("inputs", VDict [("width", VInt 768); ("height", VInt 512)])])].

(** A graph whose only sampler is an "XlabsSampler". *)
Definition xlabs_graph : dict :=
  [("4", VDict [("class_type", VStr "XlabsSampler");
                ("inputs", VDict [("noise_seed", VInt 7); ("steps", VInt 25);
                                  ("true_gs", VFloat "3.5")])])].


(** A graph of one node of a class the report does not know, with inputs
    that are not even a dict. *)
Definition unknown_node_graph : dict :=
  [("1", VDict [("class_type", VStr "SaveImage"); ("inputs", VInt 3)])].

(** A file system holding the image "/in/a.png" without embedded metadata,
    and next to it a file "/in/a.json" that is not JSON. *)
Definition broken_sidecar_fs : @filesystem sample_imaging :=
  {| output_tree := Dir [] [];
     getmtime := fun path => Raised (FileNotFoundError path);
     image_open := fun path =>
       if String.eqb path "/in/a.png" then Returned (sample_image [] [(8, 8)])
       else Raised (FileNotFoundError path);
     path_exists := fun path =>
       (String.eqb path "/in/a.png" || String.eqb path "/in/a.json")%bool;
     json_load_file := fun path => Raised (JSONDecodeError "Expecting value");
     read_bytes := fun path => Raised (FileNotFoundError path) |}.

(** An output directory with three images, the two listed last of the same
    time. *)
Definition tied_outputs_fs : @filesystem sample_imaging :=
  {| output_tree := Dir ["a.png"; "b.png"; "c.png"] [];
     getmtime := fun path =>
       if String.eqb path "/out/a.png" then Returned 100
       else if String.eqb path "/out/b.png" then Returned 300
       else if String.eqb path "/out/c.png" then Returned 300
       else Raised (FileNotFoundError path);
     image_open := fun path => Returned (sample_image [] [(8, 8)]);
     path_exists := fun path => false;
     json_load_file := fun path => Raised (FileNotFoundError path);
     read_bytes := fun path => Raised (FileNotFoundError path) |}.


(** * Properties of the reporter *)

Section ReporterProperties.

Context {rt : Runtime}.

(** ** Computations that only append *)

Lemma appends_sret {A : Type} (a : A) : appends (sret a) (Returned a) [].
Proof. intros l. unfold sret. now rewrite app_nil_r. Qed.

Lemma appends_lift {A : Type} (m : outcome A) : @appends A (lift m) m [].
Proof. intros l. unfold lift. now rewrite app_nil_r. Qed.

Lemma appends_append_line (line : string) :
  appends (append_line line) (Returned tt) [line].
Proof. intros l. reflexivity. Qed.

Lemma appends_sbind {A B : Type} (m : lines_m A) (k : A -> lines_m B) :
  (exists r p, appends m r p) ->
  (forall a, exists r p, appends (k a) r p) ->
  exists r p, appends (sbind m k) r p.
Proof.
  intros (r1 & p1 & H1) Hk.
  destruct r1 as [a | e].
  - destruct (Hk a) as (r2 & p2 & H2).
    exists r2, (p1 ++ p2)%list. intros l. unfold sbind.
    rewrite H1, H2. now rewrite app_assoc.
  - exists (Raised e), p1. intros l. unfold sbind. now rewrite H1.
Qed.

Lemma for_each_append_lines {A : Type} (f : A -> string) (l : list A) :
  appends (for_each l (fun a => append_line (f a))) (Returned tt) (map f l).
Proof.
  induction l as [| a l IH]; intros lines; simpl.
  - unfold sret. now rewrite app_nil_r.
  - unfold sbind, append_line at 1. rewrite IH.
    now rewrite <- app_assoc.
Qed.

Lemma appends_for_each {A : Type} (body : A -> lines_m unit) (l : list A) :
  (forall a, exists r p, appends (body a) r p) ->
  exists r p, appends (for_each l body) r p.
Proof.
  intros Hbody. induction l as [| a l IH]; simpl.
  - eexists _, _. apply appends_sret.
  - apply appends_sbind; [apply Hbody | intros _; exact IH].
Qed.

Lemma lora_section_lines (loras : list lora) :
  appends (lora_section loras) (Returned tt)
    (if nonempty loras then "LoRAs:" :: map lora_line loras else []).
Proof.
  intros lines. unfold lora_section.
  destruct loras as [| l loras]; cbn [nonempty].
  - unfold sret. now rewrite app_nil_r.
  - unfold sbind, append_line at 1.
    rewrite (for_each_append_lines lora_line (l :: loras)).
    now rewrite <- app_assoc.
Qed.

Lemma sampler_section_lines (info : dict) :
  appends (sampler_section (Some info)) (Returned tt)
    (if nonempty info
     then (newline ++ "--- Sampler Details ---")%string :: map detail_line info
     else []).
Proof.
  intros lines. unfold sampler_section.
  destruct info as [| entry info]; cbn [nonempty].
  - unfold sret. now rewrite app_nil_r.
  - unfold sbind, append_line at 1.
    rewrite (for_each_append_lines detail_line (entry :: info)).
    now rewrite <- app_assoc.
Qed.

Lemma component_section_appends (component : string * dict) :
  exists r p, appends (component_section component) r p.
Proof.
  unfold component_section. destruct (nonempty (snd component)).
  - apply appends_sbind.
    + eexists _, _. apply appends_append_line.
    + intros _. eexists _, _. apply for_each_append_lines.
  - eexists _, _. apply appends_sret.
Qed.

Lemma parse_and_format_try_appends (nodes_dict : value) :
  exists r produced, appends (_parse_and_format_try nodes_dict) r produced.
Proof.
  unfold _parse_and_format_try.
  repeat first
    [ apply appends_sbind; [| intros ?]
    | apply component_section_appends
    | apply appends_for_each; intros ?
    | match goal with
      | |- exists r p, appends (lift _) r p => eexists _, _; apply appends_lift
      | |- exists r p, appends (append_line _) r p =>
          eexists _, _; apply appends_append_line
      | |- exists r p, appends (lora_section _) r p =>
          eexists _, _; apply lora_section_lines
      | |- exists r p, appends (sret _) r p => eexists _, _; apply appends_sret
      | |- exists r p, appends (if ?b then _ else _) r p => destruct b
      | |- exists r p, appends (sampler_section ?i) r p =>
          destruct i as [?info |];
          [ eexists _, _; apply sampler_section_lines
          | eexists _, _; apply (appends_sret tt) ]
      end ].
Qed.

(** ** The report of a call *)

Lemma format_direct_returns (d : dict) :
  exists text, _format_direct_image_metadata (VDict d) = Returned text.
Proof. unfold _format_direct_image_metadata. simpl. eauto. Qed.

(** C3. [report_metadata] never raises, whatever metadata it is given: each
    of its three ways out returns a text.  In the graph-formatting step an
    exception of the [try] block is caught: the block only ever appends to
    the lines collected so far, so the text returned is the header line, the
    lines [produced] up to the point of failure, and then the error line,
    joined by newlines. *)
Theorem report_never_raises_and_keeps_lines :
  (forall metadata : value,
      exists text, fst (report_metadata metadata) = Returned text)
  /\ (forall nodes_dict : value,
        exists (r : outcome unit) (produced : list string),
          appends (_parse_and_format_try nodes_dict) r produced
          /\ _parse_and_format nodes_dict
             = join newline
                 ("--- Workflow Metadata Report ---" :: produced ++ error_lines r)%list).
Proof.
  split.
  - intros metadata. unfold report_metadata.
    destruct (negb (truthy metadata) || negb (is_dict metadata))%bool eqn:Hbad.
    + simpl. eauto.
    + destruct (negb (truthy (_get_nodes_dict metadata))).
      * destruct metadata as [| b | n | r | s | l | d];
          cbn [is_dict negb] in Hbad; rewrite ?orb_true_r in Hbad; try discriminate Hbad.
        cbn [is_dict andb]. destruct (nonempty d); cbn [fst].
        -- apply format_direct_returns.
        -- eauto.
      * simpl. eauto.
  - intros nodes_dict.
    destruct (parse_and_format_try_appends nodes_dict) as (r & produced & Happ).
    exists r, produced. split; [exact Happ |].
    unfold _parse_and_format. rewrite Happ.
    destruct r as [[] | e]; cbn [error_lines].
    + now rewrite app_nil_r.
    + reflexivity.
Qed.

(** The error path is taken, for instance, by a [nodes] list (the layout of
    a saved workflow): the first extractor calls [items] on it. *)
Example report_of_node_list :
  fst (report_metadata (rt := sample_runtime)
         (VDict [("nodes", VList [VDict [("id", VInt 1)]])]))
  = Returned ("--- Workflow Metadata Report ---" ++ newline ++ newline
              ++ "Error during metadata parsing: 'list' object has no attribute 'items'").
Proof. reflexivity. Qed.

(** C10. Metadata that is empty (false in Python's sense) or is not a dict
    gets the fixed message, and the call enters no further stage: neither
    [_get_nodes_dict] nor [_parse_and_format] nor the direct formatting. *)
Theorem degenerate_metadata_fixed_message (metadata : value) :
  truthy metadata = false \/ is_dict metadata = false ->
  report_metadata metadata = (Returned no_metadata_message, []).
Proof.
  intros H. unfold report_metadata.
  destruct H as [H | H]; rewrite H; cbn [negb orb].
  - reflexivity.
  - now rewrite orb_true_r.
Qed.

(** ** Looking nodes up by class *)



Lemma ksampler_loop_skip (nodes_dict before rest : dict) :
  (forall entry, In entry before -> class_is (snd entry) "KSampler" = false) ->
  ksampler_loop nodes_dict (before ++ rest)%list = ksampler_loop nodes_dict rest.
Proof.
  induction before as [| [node_id node] before IH]; intros Hskip; [reflexivity |].
  cbn [app ksampler_loop].
  pose proof (Hskip (node_id, node) (or_introl eq_refl)) as Hnode.
  cbn [snd] in Hnode. rewrite Hnode.
  apply IH. intros entry Hin. apply Hskip. now right.
Qed.

Lemma loras_loop_skip (before rest : dict) :
  (forall entry, In entry before
                 -> class_is (snd entry) "Power Lora Loader (rgthree)" = false) ->
  loras_loop (before ++ rest)%list = loras_loop rest.
Proof.
  induction before as [| [node_id node] before IH]; intros Hskip; [reflexivity |].
  cbn [app loras_loop].
  pose proof (Hskip (node_id, node) (or_introl eq_refl)) as Hnode.
  cbn [snd] in Hnode. rewrite Hnode.
  apply IH. intros entry Hin. apply Hskip. now right.
Qed.




(** The specification's example, through the whole report. *)
Example seed_42_report :
  _parse_and_format (rt := sample_runtime) (VDict seed_link_graph)
  = join newline
      ["--- Workflow Metadata Report ---"; "Model: N/A";
       newline ++ "Positive Prompt:" ++ newline ++ "  N/A";
       newline ++ "Negative Prompt:" ++ newline ++ "  (Empty)";
       newline ++ "--- Sampler Details ---";
       "Seed: 42"; "Steps: 20"; "Cfg: 7.5"; "Sampler Name: N/A";
       "Scheduler: N/A"; "Denoise: N/A"].
Proof. reflexivity. Qed.

Lemma lora_entries_filter (inputs : dict) :
  lora_entries inputs = map lora_of_input (filter lora_input_on inputs).
Proof.
  induction inputs as [| [key value] rest IH]; [reflexivity |].
  cbn [lora_entries filter]. unfold lora_input_on at 1. cbn [fst snd].
  destruct value as [| b | z | r | s | l | v];
    rewrite ?andb_false_r; trivial.
  destruct (startswith key "lora_" && truthy (dict_get_or "on" (VBool false) v))%bool;
    [| exact IH].
  cbn [map]. now rewrite IH.
Qed.

(** C9, as the code has it.  Of the nodes of class "Power Lora Loader
    (rgthree)" only the first in iteration order is read, whatever follows
    it: the entries are those of its inputs whose key starts with "lora_"
    and whose value is a dict with [on] true in Python's sense of truth, in
    order.  In the report each entry is one line, and the line shows the one
    strength of the entry after "Model:" and again after "CLIP:". *)
Theorem first_lora_loader_entries (before after : dict) (node_id : string)
    (n inputs : dict) :
  first_of_class "Power Lora Loader (rgthree)" before (VDict n) ->
  dict_get_or "inputs" (VDict []) n = VDict inputs ->
  _extract_loras (VDict (before ++ (node_id, VDict n) :: after)%list)
  = Returned (map lora_of_input (filter lora_input_on inputs))
  /\ forall loras : list lora,
       appends (lora_section loras) (Returned tt)
         (if nonempty loras
          then "LoRAs:"
               :: map (fun l => "  - " ++ py_str (name l)
                                ++ " (Model: " ++ py_str (strength l)
                                ++ ", CLIP: " ++ py_str (strength l) ++ ")") loras
          else []).
Proof.
  intros [Hskip Hclass] Hinputs. split.
  - unfold _extract_loras. cbn [items bind].
    rewrite (loras_loop_skip _ _ Hskip).
    cbn [loras_loop]. rewrite Hclass.
    cbn [get_or bind]. rewrite Hinputs. cbn [items bind].
    now rewrite lora_entries_filter.
  - intros loras. apply lora_section_lines.
Qed.

End ReporterProperties.

(** * Properties of the loader *)

Section LoaderProperties.

Context {rt : Runtime} {im : Imaging} {host : Host}.

(** ** The scan of the output directory *)

Lemma scan_files_timed (fs : filesystem) (mtime : string -> Z) (root : string)
    (files : list string) (events : list event) :
  let found := map (path_join root)
                   (filter (fun file => endswith (lower file) ".png") files) in
  (forall p, In p found -> getmtime fs p = Returned (mtime p)) ->
  scan_files fs root files events
  = (Returned (map (fun p => (p, mtime p)) found), (events ++ map Ev_getmtime found)%list).
Proof.
  revert events. induction files as [| file rest IH]; intros events found Htimed.
  - subst found. cbn. unfold sret. now rewrite app_nil_r.
  - subst found. cbn [scan_files filter] in *.
    destruct (endswith (lower file) ".png").
    + cbn [map] in *. unfold sbind at 1, log at 1.
      unfold sbind at 1, lift at 1.
      rewrite (Htimed _ (or_introl eq_refl)).
      unfold sbind at 1. rewrite IH by (intros p Hp; apply Htimed; now right).
      unfold sret. now rewrite <- app_assoc.
    + apply IH. exact Htimed.
Qed.

Lemma scan_walk_timed (fs : filesystem) (mtime : string -> Z)
    (walk : list (string * list string * list string)) (events : list event) :
  (forall p, In p (png_candidates walk) -> getmtime fs p = Returned (mtime p)) ->
  scan_walk fs walk events
  = (Returned (map (fun p => (p, mtime p)) (png_candidates walk)),
     (events ++ map Ev_getmtime (png_candidates walk))%list).
Proof.
  revert events. induction walk as [| [[root dirs] files] rest IH]; intros events Htimed.
  - cbn. unfold sret. now rewrite app_nil_r.
  - cbn [scan_walk png_candidates flat_map fst snd] in *.
    unfold sbind at 1.
    rewrite (scan_files_timed fs mtime root files)
      by (intros p Hp; apply Htimed, in_or_app; now left).
    unfold sbind at 1.
    rewrite IH by (intros p Hp; apply Htimed, in_or_app; now right).
    unfold sret. now rewrite !map_app, <- app_assoc.
Qed.

(** ** The newest file comes first *)

Lemma sort_newest_first_head (png_files : list (string * Z)) :
  png_files <> [] ->
  exists newest rest,
    sort_newest_first png_files = newest :: rest
    /\ In newest png_files
    /\ forall x, In x png_files -> snd x <= snd newest.
Proof.
  induction png_files as [| x l IH]; intros Hne; [congruence |].
  destruct l as [| y l].
  - exists x, []. cbn. repeat split; [now left |].
    intros z [<- | []]. lia.
  - destruct IH as (best & rest & Hsort & Hin & Hmax); [discriminate |].
    change (sort_newest_first (x :: y :: l))
      with (insert_newest_first x (sort_newest_first (y :: l))).
    rewrite Hsort. cbn [insert_newest_first].
    destruct (snd best <=? snd x) eqn:Hcmp.
    + apply Z.leb_le in Hcmp. exists x, (best :: rest).
      repeat split; [now left |].
      intros z [<- | Hz]; [lia |]. specialize (Hmax z Hz). lia.
    + apply Z.leb_gt in Hcmp. exists best, (insert_newest_first x rest).
      repeat split; [now right |].
      intros z [<- | Hz]; [lia |]. now apply Hmax.
Qed.

Lemma NoDup_map_injective {A B : Type} (f : A -> B) (l : list A) (x y : A) :
  NoDup (map f l) -> In x l -> In y l -> f x = f y -> x = y.
Proof.
  induction l as [| a l IH]; intros Hnd Hx Hy Hxy; [contradiction |].
  cbn [map] in Hnd. inversion Hnd as [| ? ? Hnotin Hnd']; subst.
  destruct Hx as [-> | Hx], Hy as [-> | Hy]; trivial.
  - exfalso. apply Hnotin. rewrite Hxy. now apply in_map.
  - exfalso. apply Hnotin. rewrite <- Hxy. now apply in_map.
  - now apply IH.
Qed.

Lemma direct_input_selects (fs : filesystem) (image_file : option string)
    (mtime : string -> Z) :
  let candidates := png_candidates (os_walk get_output_directory (output_tree fs)) in
  (forall p, In p candidates -> getmtime fs p = Returned (mtime p)) ->
  NoDup (map mtime candidates) ->
  candidates <> [] ->
  exists newest,
    In newest candidates
    /\ (forall p, In p candidates -> p <> newest -> mtime p < mtime newest)
    /\ forall events,
         load_image_with_metadata fs "direct_input" image_file events
         = _process_image_file fs newest (events ++ map Ev_getmtime candidates)%list.
Proof.
  intros candidates Htimed Hdistinct Hne.
  destruct (sort_newest_first_head (map (fun p => (p, mtime p)) candidates))
    as ([newest t] & rest & Hsort & Hin & Hmax).
  { destruct candidates; [congruence | discriminate]. }
  apply in_map_iff in Hin. destruct Hin as (p0 & Heq & Hin). inversion Heq; subst p0 t.
  exists newest. repeat split; trivial.
  - intros p Hp Hneq.
    assert (Hle : mtime p <= mtime newest).
    { apply (Hmax (p, mtime p)). apply in_map_iff. eauto. }
    assert (mtime p <> mtime newest).
    { intros Heq'. apply Hneq.
      now apply (NoDup_map_injective mtime candidates). }
    lia.
  - intros events. unfold load_image_with_metadata. cbn [String.eqb Ascii.eqb Bool.eqb].
    unfold sbind at 1. fold candidates.
    rewrite (scan_walk_timed fs mtime) by exact Htimed. fold candidates.
    destruct candidates as [| c cs]; [congruence |].
    cbn [map nonempty negb]. cbn [map] in Hsort. now rewrite Hsort.
Qed.

(** C4. When the output tree holds files named *.png (in any letter case),
    each with a modification time and no two times alike, "direct_input"
    processes the one whose time is greater than every other's, after having
    asked for the times and nothing else.  The choice does not depend on the
    order of the walk: a tree that lists the same files in another order
    leads to the same file.  When the tree holds no such file the call
    returns the error pair and touches nothing, so no image is opened. *)
Theorem most_recent_png_selected (fs : filesystem) (image_file : option string)
    (mtime : string -> Z) :
  let candidates := png_candidates (os_walk get_output_directory (output_tree fs)) in
  (forall p, In p candidates -> getmtime fs p = Returned (mtime p)) ->
  NoDup (map mtime candidates) ->
  (candidates = [] ->
   forall events,
     load_image_with_metadata fs "direct_input" image_file events
     = (Returned (_create_error_output "No PNG files found in output directory"), events))
  /\ (candidates <> [] ->
      exists newest,
        In newest candidates
        /\ (forall p, In p candidates -> p <> newest -> mtime p < mtime newest)
        /\ (forall events,
              load_image_with_metadata fs "direct_input" image_file events
              = _process_image_file fs newest
                  (events ++ map Ev_getmtime candidates)%list)
        /\ (forall fs' : filesystem,
              let candidates' :=
                png_candidates (os_walk get_output_directory (output_tree fs')) in
              Permutation candidates candidates' ->
              (forall p, In p candidates -> getmtime fs' p = Returned (mtime p)) ->
              forall events,
                load_image_with_metadata fs' "direct_input" image_file events
                = _process_image_file fs' newest
                    (events ++ map Ev_getmtime candidates')%list)).
Proof.
  intros candidates Htimed Hdistinct. split.
  - intros Hempty events. unfold load_image_with_metadata.
    cbn [String.eqb Ascii.eqb Bool.eqb]. unfold sbind at 1. fold candidates.
    rewrite (scan_walk_timed fs mtime) by exact Htimed. fold candidates.
    rewrite Hempty. cbn. unfold sret. now rewrite app_nil_r.
  - intros Hne.
    destruct (direct_input_selects fs image_file mtime Htimed Hdistinct Hne)
      as (newest & Hin & Hmax & Hload).
    exists newest. repeat split; trivial.
    intros fs' candidates' Hperm Htimed' events.
    assert (Hne' : candidates' <> []).
    { intros Hnil. rewrite Hnil in Hperm.
      apply Permutation_sym, Permutation_nil in Hperm. contradiction. }
    destruct (direct_input_selects fs' image_file mtime) as (newest' & Hin' & Hmax' & Hload').
    + intros p Hp. apply Htimed'. now apply (Permutation_in _ (Permutation_sym Hperm)).
    + apply (Permutation_NoDup (l := map mtime candidates)); trivial.
      now apply Permutation_map.
    + exact Hne'.
    + rewrite Hload'. fold candidates'.
      destruct (string_dec newest' newest) as [-> | Hneq]; [reflexivity |].
      assert (mtime newest' < mtime newest).
      { apply Hmax; trivial.
        now apply (Permutation_in _ (Permutation_sym Hperm)). }
      assert (mtime newest < mtime newest').
      { apply Hmax'; [now apply (Permutation_in _ Hperm) | congruence]. }
      lia.
Qed.

(** ** The frames kept *)

Lemma differs_same_size (first f : rgb) :
  (differs (fst (size f)) (Some (fst (size first)))
   || differs (snd (size f)) (Some (snd (size first))))%bool
  = negb (same_size first f).
Proof. unfold differs, same_size. now rewrite negb_andb. Qed.

Lemma frames_loop_keeps (first : rgb) (seq : list (outcome frame)) :
  forall (rgbs kept : list rgb),
    decode_all seq = Returned rgbs ->
    frames_loop seq (first :: kept)
      (Some (fst (size first))) (Some (snd (size first)))
    = Returned (first :: kept ++ filter (same_size first) rgbs)%list.
Proof.
  induction seq as [| next rest IH]; intros rgbs kept Hdec.
  - cbn in Hdec. inversion Hdec; subst. cbn. now rewrite app_nil_r.
  - cbn [decode_all] in Hdec. cbn [frames_loop].
    destruct (decode_frame next) as [f |]; [| discriminate].
    cbn [bind] in *.
    destruct (decode_all rest) as [fs |]; [| discriminate].
    inversion Hdec; subst. cbn [nonempty negb filter].
    rewrite differs_same_size.
    destruct (same_size first f); cbn [negb].
    + change ((first :: kept) ++ [f])%list with (first :: (kept ++ [f]))%list.
      rewrite (IH fs (kept ++ [f])%list eq_refl).
      now rewrite <- app_assoc.
    + now apply IH.
Qed.

Lemma same_size_refl (f : rgb) : same_size f f = true.
Proof. unfold same_size. now rewrite !Z.eqb_refl. Qed.

Lemma frames_loop_decoded (seq : list (outcome frame)) (first : rgb)
    (others : list rgb) :
  decode_all seq = Returned (first :: others) ->
  frames_loop seq [] None None
  = Returned (first :: filter (same_size first) others).
Proof.
  destruct seq as [| next rest]; [discriminate |].
  cbn [decode_all frames_loop]. intros Hdec.
  destruct (decode_frame next) as [f |]; [| discriminate].
  cbn [bind] in *.
  destruct (decode_all rest) as [fs |] eqn:Hrest; [| discriminate].
  inversion Hdec; subst. cbn [nonempty negb].
  rewrite differs_same_size, same_size_refl. cbn [negb app].
  now rewrite (frames_loop_keeps first rest others [] Hrest).
Qed.

Lemma same_size_eq (first f : rgb) : same_size first f = true -> size f = size first.
Proof.
  unfold same_size. intros H. apply andb_prop in H. destruct H as [Hw Hh].
  apply Z.eqb_eq in Hw, Hh. destruct (size f), (size first). cbn in *. congruence.
Qed.

(** ** The metadata returned *)

Lemma sidecar_fallback_returns (fs : filesystem) (image_path : string)
    (metadata : value) (events : list event) :
  exists metadata' events',
    sidecar_fallback fs image_path metadata events = (Returned metadata', events')
    /\ (metadata' = metadata
        \/ exists path, json_load_file fs path = Returned metadata'
                        /\ In (Ev_json_load path) events').
Proof.
  unfold sidecar_fallback.
  destruct (_ || _)%bool; [| eexists _, _; split; [reflexivity | now left]].
  unfold sbind at 1, log at 1.
  destruct (path_exists fs _); [| eexists _, _; split; [reflexivity | now left]].
  unfold sbind at 1, log at 1.
  destruct (json_load_file fs _) as [loaded | e] eqn:Hload.
  - eexists _, _. split; [reflexivity |]. right. eexists. split; [exact Hload |].
    apply in_or_app. right. now left.
  - eexists _, _. split; [reflexivity | now left].
Qed.

Lemma sidecar_fallback_absent (fs : filesystem) (image_path : string)
    (metadata : value) (events : list event) :
  path_exists fs (splitext_root image_path ++ ".json") = false ->
  exists events', sidecar_fallback fs image_path metadata events = (Returned metadata, events').
Proof.
  intros Habsent. unfold sidecar_fallback.
  destruct (_ || _)%bool; [| eexists; reflexivity].
  unfold sbind at 1, log at 1. rewrite Habsent. eexists; reflexivity.
Qed.

Lemma process_decoded_image (fs : filesystem) (image_path : string) (img : image)
    (first : rgb) (others : list rgb) (events : list event) :
  image_open fs image_path = Returned img ->
  decode_all (frames img) = Returned (first :: others) ->
  exists metadata events',
    sidecar_fallback fs image_path (_parse_png_metadata (info img))
      (events ++ [Ev_image_open image_path])%list
    = (Returned metadata, events')
    /\ _process_image_file fs image_path events
       = (Returned (select_output img first (filter (same_size first) others),
                    add_image_path image_path metadata), events').
Proof.
  intros Hopen Hdec.
  destruct (sidecar_fallback_returns fs image_path (_parse_png_metadata (info img))
              (events ++ [Ev_image_open image_path])%list)
    as (metadata & events' & Hside & _).
  exists metadata, events'. split; [exact Hside |].
  unfold _process_image_file, _process_image_file_try.
  unfold sbind at 1, log at 1. unfold sbind at 1, lift at 1. rewrite Hopen.
  unfold sbind at 1, lift at 1. rewrite (frames_loop_decoded _ _ _ Hdec).
  unfold sbind at 1. now rewrite Hside.
Qed.

Lemma parse_png_loop_no_keys (raw_metadata metadata : dict) :
  dict_mem "prompt" raw_metadata = false ->
  dict_mem "workflow" raw_metadata = false ->
  dict_mem "parameters" raw_metadata = false ->
  parse_png_loop raw_metadata metadata = metadata.
Proof.
  unfold dict_mem. revert metadata.
  induction raw_metadata as [| [key raw] rest IH]; intros metadata Hp Hw Ha;
    [reflexivity |].
  cbn [dict_get parse_png_loop] in *.
  destruct (String.eqb key "prompt"); [discriminate |].
  destruct (String.eqb key "workflow"); [discriminate |].
  destruct (String.eqb key "parameters"); [discriminate |].
  cbn [orb]. now apply IH.
Qed.

(** C5. An image that opens and decodes, whose embedded key/value pairs hold
    none of the keys prompt, workflow and parameters, and next to which
    there is no file of the same name with extension ".json": the metadata
    returned has exactly the three keys info, image_path and image_filename,
    in this order, with the sentinel text, the path and the base name of the
    path. *)
Theorem no_metadata_no_sidecar (fs : filesystem) (image_path : string) (img : image)
    (first : rgb) (others : list rgb) (events : list event) :
  image_open fs image_path = Returned img ->
  decode_all (frames img) = Returned (first :: others) ->
  dict_mem "prompt" (info img) = false ->
  dict_mem "workflow" (info img) = false ->
  dict_mem "parameters" (info img) = false ->
  path_exists fs (splitext_root image_path ++ ".json") = false ->
  exists output_image events',
    _process_image_file fs image_path events
    = (Returned (output_image,
                 VDict [("info", VStr "No workflow metadata found");
                        ("image_path", VStr image_path);
                        ("image_filename", VStr (basename image_path))]),
       events').
Proof.
  intros Hopen Hdec Hp Hw Ha Habsent.
  destruct (process_decoded_image fs image_path img first others events Hopen Hdec)
    as (metadata & events' & Hside & Hproc).
  destruct (sidecar_fallback_absent fs image_path (_parse_png_metadata (info img))
              (events ++ [Ev_image_open image_path])%list Habsent) as (events'' & Hside').
  rewrite Hside' in Hside. inversion Hside; subst metadata events''.
  rewrite Hproc. unfold _parse_png_metadata.
  rewrite (parse_png_loop_no_keys _ _ Hp Hw Ha). cbn.
  eexists _, _. reflexivity.
Qed.

(** C6. For an image that opens and whose frames all decode, the batch
    returned holds the first frame and, unless the format is one of the
    excluded ones, the later frames of the same width and height, in order.
    Every frame of the batch has the size of the first; a frame of another
    size is left out and the call still returns the image.  With two frames
    of which the second has another width, the batch is the first frame
    alone. *)
Theorem batch_frames_uniform (fs : filesystem) (image_path : string) (img : image)
    (first : rgb) (others : list rgb) (events : list event) :
  image_open fs image_path = Returned img ->
  decode_all (frames img) = Returned (first :: others) ->
  exists kept metadata events',
    _process_image_file fs image_path events = (Returned (Batch kept, metadata), events')
    /\ kept = (if format_excluded (format img) then [first]
               else first :: filter (same_size first) others)
    /\ Forall (fun f => size f = size first) kept
    /\ (forall f, In f kept -> f = first \/ In f others)
    /\ (forall second, others = [second] ->
                       fst (size second) <> fst (size first) -> kept = [first]).
Proof.
  intros Hopen Hdec.
  destruct (process_decoded_image fs image_path img first others events Hopen Hdec)
    as (metadata & events' & _ & Hproc).
  exists (if format_excluded (format img) then [first]
          else first :: filter (same_size first) others),
    (add_image_path image_path metadata), events'.
  repeat split.
  - rewrite Hproc. unfold select_output.
    destruct (filter (same_size first) others), (format_excluded (format img));
      reflexivity.
  - destruct (format_excluded (format img)).
    + constructor; [reflexivity | constructor].
    + constructor; [reflexivity |].
      apply Forall_forall. intros f Hf. apply filter_In in Hf.
      now apply same_size_eq.
  - intros f Hf. destruct (format_excluded (format img)).
    + destruct Hf as [<- | []]. now left.
    + destruct Hf as [<- | Hf]; [now left |]. right.
      now apply filter_In in Hf.
  - intros second -> Hwidth. destruct (format_excluded (format img)); [reflexivity |].
    cbn [filter]. unfold same_size.
    destruct (fst (size second) =? fst (size first)) eqn:Hw.
    + apply Z.eqb_eq in Hw. contradiction.
    + reflexivity.
Qed.

Lemma parse_png_metadata_is_dict (raw_metadata : dict) :
  is_dict (_parse_png_metadata raw_metadata) = true.
Proof. unfold _parse_png_metadata. now destruct (negb _). Qed.

Lemma process_metadata_mapping_or_sidecar (fs : filesystem) (image_path : string)
    (events events' : list event) (result : tensor * value) :
  _process_image_file fs image_path events = (Returned result, events') ->
  is_dict (snd result) = true
  \/ exists path, json_load_file fs path = Returned (snd result)
                  /\ In (Ev_json_load path) events'.
Proof.
  unfold _process_image_file, _process_image_file_try.
  unfold sbind at 1, log at 1. unfold sbind at 1, lift at 1.
  destruct (image_open fs image_path) as [img | e].
  2: { intros H; inversion H; subst. now left. }
  unfold sbind at 1, lift at 1.
  destruct (frames_loop (frames img) [] None None) as [[| first others] | e].
  1, 3: intros H; inversion H; subst; now left.
  unfold sbind at 1.
  destruct (sidecar_fallback_returns fs image_path (_parse_png_metadata (info img))
              (events ++ [Ev_image_open image_path])%list)
    as (metadata & events'' & Hside & Hcases).
  rewrite Hside. unfold sret. intros H; inversion H; subst. cbn [snd].
  destruct Hcases as [-> | (path & Hload & Hin)].
  - left. pose proof (parse_png_metadata_is_dict (info img)) as Hd.
    destruct (_parse_png_metadata (info img)); try discriminate Hd. reflexivity.
  - destruct metadata as [| b | z | r | s | l | d];
      try (right; exists path; now split).
    now left.
Qed.

Lemma process_metadata_from_sidecar (fs : filesystem) (image_path : string)
    (img : image) (first : rgb) (others : list rgb) (events : list event)
    (loaded : value) :
  image_open fs image_path = Returned img ->
  decode_all (frames img) = Returned (first :: others) ->
  dict_mem "prompt" (info img) = false ->
  dict_mem "workflow" (info img) = false ->
  dict_mem "parameters" (info img) = false ->
  path_exists fs (splitext_root image_path ++ ".json") = true ->
  json_load_file fs (splitext_root image_path ++ ".json") = Returned loaded ->
  _process_image_file fs image_path events
  = (Returned (select_output img first (filter (same_size first) others),
               add_image_path image_path loaded),
     (events ++ [Ev_image_open image_path;
                 Ev_exists (splitext_root image_path ++ ".json");
                 Ev_json_load (splitext_root image_path ++ ".json")])%list).
Proof.
  intros Hopen Hdec Hp Hw Ha Hexists Hload.
  destruct (process_decoded_image fs image_path img first others events Hopen Hdec)
    as (metadata & events' & Hside & Hproc).
  unfold _parse_png_metadata in Hside.
  rewrite (parse_png_loop_no_keys _ _ Hp Hw Ha) in Hside. cbn [nonempty negb] in Hside.
  unfold sidecar_fallback in Hside. cbn [truthy negb orb] in Hside.
  unfold sbind at 1, log at 1 in Hside. rewrite Hexists in Hside.
  unfold sbind at 1, log at 1 in Hside. rewrite Hload in Hside.
  unfold sret in Hside. inversion Hside; subst metadata events'.
  rewrite Hproc. now rewrite <- !app_assoc.
Qed.

(** C1, as the code has it.  Whenever the loader returns, the metadata it
    returns is a dict, or else it is what the call read from the parallel
    ".json" file.  And a parallel file that holds a JSON value other than an
    object does replace the metadata: for an image that opens and decodes
    and holds none of the keys prompt, workflow and parameters, next to
    which the ".json" file exists and is read as [loaded], not a dict, the
    loader returns the image together with [loaded] itself, as it was read,
    without the image path added; so it does in "file" mode for the file
    named. *)
Theorem loader_metadata_mapping_or_sidecar (fs : filesystem) :
  (forall (source_type : string) (image_file : option string)
          (events events' : list event) (result : tensor * value),
      load_image_with_metadata fs source_type image_file events
      = (Returned result, events') ->
      is_dict (snd result) = true
      \/ exists path, json_load_file fs path = Returned (snd result)
                      /\ In (Ev_json_load path) events')
  /\ (forall (image_path : string) (img : image) (first : rgb) (others : list rgb)
             (events : list event) (loaded : value),
        image_open fs image_path = Returned img ->
        decode_all (frames img) = Returned (first :: others) ->
        dict_mem "prompt" (info img) = false ->
        dict_mem "workflow" (info img) = false ->
        dict_mem "parameters" (info img) = false ->
        path_exists fs (splitext_root image_path ++ ".json") = true ->
        json_load_file fs (splitext_root image_path ++ ".json") = Returned loaded ->
        is_dict loaded = false ->
        exists output_image,
          _process_image_file fs image_path events
          = (Returned (output_image, loaded),
             (events ++ [Ev_image_open image_path;
                         Ev_exists (splitext_root image_path ++ ".json");
                         Ev_json_load (splitext_root image_path ++ ".json")])%list)
          /\ forall (source_type image_file : string),
               String.eqb source_type "direct_input" = false ->
               get_annotated_filepath image_file = image_path ->
               load_image_with_metadata fs source_type (Some image_file) events
               = (Returned (output_image, loaded),
                  (events ++ [Ev_image_open image_path;
                              Ev_exists (splitext_root image_path ++ ".json");
                              Ev_json_load (splitext_root image_path ++ ".json")])%list)).
Proof.
  split.
  - intros source_type image_file events events' result.
    unfold load_image_with_metadata.
    destruct (String.eqb source_type "direct_input").
    + unfold sbind at 1.
      destruct (scan_walk fs _ events) as [[png_files | e] events1]; [| discriminate].
      destruct (negb (nonempty png_files)).
      * intros H; inversion H; subst. now left.
      * destruct (sort_newest_first png_files) as [| [most_recent_file t] rest].
        -- discriminate.
        -- apply process_metadata_mapping_or_sidecar.
    + destruct image_file as [image_file |].
      * apply process_metadata_mapping_or_sidecar.
      * intros H; inversion H; subst. now left.
  - intros image_path img first others events loaded
           Hopen Hdec Hp Hw Ha Hexists Hload Hshape.
    pose proof (process_metadata_from_sidecar fs image_path img first others events
                  loaded Hopen Hdec Hp Hw Ha Hexists Hload) as Hproc.
    assert (Hasis : add_image_path image_path loaded = loaded)
      by (destruct loaded; try reflexivity; discriminate Hshape).
    rewrite Hasis in Hproc.
    eexists. split; [exact Hproc |].
    intros source_type image_file Hmode Hpath.
    unfold load_image_with_metadata. rewrite Hmode, Hpath. exact Hproc.
Qed.

(** ** Failures *)

(** The failures the loader handles end in the placeholder,
    [torch.zeros((1, 3, 64, 64))], and a dict with the key error: no file
    named, a file that does not open, a frame that does not decode, no frame
    at all. *)
Lemma handled_failures_give_placeholder (fs : filesystem) (events : list event) :
  (forall source_type,
      String.eqb source_type "direct_input" = false ->
      load_image_with_metadata fs source_type None events
      = (Returned (_create_error_output "No image file specified"), events))
  /\ (forall image_path e,
        image_open fs image_path = Raised e ->
        _process_image_file fs image_path events
        = (Returned (_create_error_output ("Error processing image: " ++ exn_str e)),
           (events ++ [Ev_image_open image_path])%list))
  /\ (forall image_path img e,
        image_open fs image_path = Returned img ->
        frames_loop (frames img) [] None None = Raised e ->
        _process_image_file fs image_path events
        = (Returned (_create_error_output ("Error processing image: " ++ exn_str e)),
           (events ++ [Ev_image_open image_path])%list))
  /\ (forall image_path img,
        image_open fs image_path = Returned img ->
        frames img = [] ->
        _process_image_file fs image_path events
        = (Returned (_create_error_output "Failed to load image frames"),
           (events ++ [Ev_image_open image_path])%list)).
Proof.
  repeat split.
  - intros source_type Hmode. unfold load_image_with_metadata. now rewrite Hmode.
  - intros image_path e Hopen. unfold _process_image_file, _process_image_file_try.
    unfold sbind at 1, log at 1. unfold sbind at 1, lift at 1. now rewrite Hopen.
  - intros image_path img e Hopen Hframes.
    unfold _process_image_file, _process_image_file_try.
    unfold sbind at 1, log at 1. unfold sbind at 1, lift at 1. rewrite Hopen.
    unfold sbind at 1, lift at 1. now rewrite Hframes.
  - intros image_path img Hopen Hframes.
    unfold _process_image_file, _process_image_file_try.
    unfold sbind at 1, log at 1. unfold sbind at 1, lift at 1. rewrite Hopen.
    unfold sbind at 1, lift at 1. now rewrite Hframes.
Qed.

(** A file of the scan without a modification time is not handled: the
    exception of [os.path.getmtime] leaves [load_image_with_metadata]. *)
Lemma scan_files_raises (fs : filesystem) (root file : string) (rest : list string)
    (e : exn) (events : list event) :
  endswith (lower file) ".png" = true ->
  getmtime fs (path_join root file) = Raised e ->
  fst (scan_files fs root (file :: rest) events) = Raised e.
Proof.
  intros Hpng Hstat. cbn [scan_files]. rewrite Hpng.
  unfold sbind at 1, log at 1. unfold sbind at 1, lift at 1. now rewrite Hstat.
Qed.

(** ** The change signal *)

(** C7, as the code has it.  In "direct_input" mode the signal is always
    NaN.  In "file" mode with a file named, it is the SHA-256 digest of the
    bytes of the file, in hexadecimal, and it is NaN when the file does not
    exist: [FileNotFoundError] is the one failure to open that the code
    turns into NaN.  Any other exception of opening or reading the file is
    not turned into NaN: it leaves [IS_CHANGED] as it is. *)
Theorem is_changed_signal (fs : filesystem) (image_file : string) :
  (forall selected : option string,
      IS_CHANGED fs "direct_input" selected = Returned NaN)
  /\ (forall content : list Byte.byte,
        read_bytes fs (get_annotated_filepath image_file) = Returned content ->
        IS_CHANGED fs "file" (Some image_file)
        = Returned (HexDigest (bytes_hex (sha256_digest content))))
  /\ (forall path : string,
        read_bytes fs (get_annotated_filepath image_file)
        = Raised (FileNotFoundError path) ->
        IS_CHANGED fs "file" (Some image_file) = Returned NaN)
  /\ (forall e : exn,
        read_bytes fs (get_annotated_filepath image_file) = Raised e ->
        (forall path, e <> FileNotFoundError path) ->
        IS_CHANGED fs "file" (Some image_file) = Raised e).
Proof.
  repeat split.
  - intros content Hread. unfold IS_CHANGED. cbn. now rewrite Hread.
  - intros path Hread. unfold IS_CHANGED. cbn. now rewrite Hread.
  - intros e Hread Hother. unfold IS_CHANGED. cbn. rewrite Hread.
    destruct e; try reflexivity. exfalso. eapply Hother. reflexivity.
Qed.

End LoaderProperties.

(** * Further properties of the reporter *)

Section ReporterGraphProperties.

Context {rt : Runtime}.

(** ** Dicts *)

Lemma dict_get_set_same (k : string) (v : value) (d : dict) :
  dict_get k (dict_set k v d) = Some v.
Proof.
  induction d as [| [k' v'] d IH]; cbn [dict_set dict_get].
  - now rewrite String.eqb_refl.
  - destruct (String.eqb k' k) eqn:Hk; cbn [dict_get]; rewrite Hk; trivial.
Qed.

Lemma dict_get_set_other (k k' : string) (v : value) (d : dict) :
  k' <> k -> dict_get k' (dict_set k v d) = dict_get k' d.
Proof.
  intros Hneq. induction d as [| [k0 v0] d IH]; cbn [dict_set dict_get].
  - destruct (String.eqb k k') eqn:Hk; trivial.
    apply String.eqb_eq in Hk. congruence.
  - destruct (String.eqb k0 k) eqn:Hk; cbn [dict_get].
    + apply String.eqb_eq in Hk. subst k0.
      destruct (String.eqb k k') eqn:Hk'; trivial.
      apply String.eqb_eq in Hk'. congruence.
    + now rewrite IH.
Qed.

Lemma dict_get_remove_same (k : string) (d : dict) :
  dict_get k (dict_remove k d) = None.
Proof.
  induction d as [| [k' v'] d IH]; [reflexivity |].
  cbn [dict_remove filter fst]. destruct (String.eqb k' k) eqn:Hk; cbn [negb].
  - exact IH.
  - cbn [dict_get]. rewrite Hk. exact IH.
Qed.

Lemma dict_get_remove_other (k k' : string) (d : dict) :
  k' <> k -> dict_get k' (dict_remove k d) = dict_get k' d.
Proof.
  intros Hneq. unfold dict_remove.
  induction d as [| [k0 v0] d IH]; [reflexivity |].
  cbn [filter fst dict_get].
  destruct (String.eqb k0 k) eqn:Hk; cbn [negb dict_get].
  - apply String.eqb_eq in Hk. subst k0.
    destruct (String.eqb k k') eqn:Hk'; [| exact IH].
    apply String.eqb_eq in Hk'. congruence.
  - now rewrite IH.
Qed.

(** ** The ways out of [report_metadata] *)

(** X1. [report_metadata] has three ways out and no fourth: the fixed
    message, the direct listing of the metadata, or the graph report.  The
    branch that would answer "Could not find workflow node structure in
    metadata" is never taken, since metadata that passed the first test is a
    dict that is not empty. *)
Theorem report_three_ways_out (metadata : value) :
  report_metadata metadata = (Returned no_metadata_message, [])
  \/ report_metadata metadata
     = (_format_direct_image_metadata metadata,
        [Stage_get_nodes_dict; Stage_format_direct_image_metadata])
  \/ report_metadata metadata
     = (Returned (_parse_and_format (_get_nodes_dict metadata)),
        [Stage_get_nodes_dict; Stage_parse_and_format]).
Proof.
  unfold report_metadata.
  destruct (negb (truthy metadata) || negb (is_dict metadata))%bool eqn:Hbad;
    [now left | right].
  destruct (negb (truthy (_get_nodes_dict metadata))); [left | now right].
  destruct metadata as [| b | n | r | s | l | d];
    cbn [is_dict negb] in Hbad; rewrite ?orb_true_r in Hbad; try discriminate Hbad.
  destruct d; [discriminate Hbad | reflexivity].
Qed.

(** ** Where the graph is looked for *)

(** X2. A prompt that cannot be used (it is neither a dict nor a str, or it
    is a str that json rejects) counts for nothing: [_get_nodes_dict] gives
    what it gives for the same metadata without the key prompt, so the
    search goes on to workflow and then to nodes. *)
Theorem unusable_prompt_is_skipped (metadata : dict) (prompt : value) :
  dict_get "prompt" metadata = Some prompt ->
  unusable_prompt prompt = true ->
  _get_nodes_dict (VDict metadata) = _get_nodes_dict (VDict (dict_remove "prompt" metadata)).
Proof.
  intros Hprompt Hbad.
  unfold _get_nodes_dict, _get_nodes_dict_try.
  cbn [contains subscript]. unfold dict_mem.
  rewrite Hprompt, dict_get_remove_same.
  rewrite !(dict_get_remove_other "prompt") by discriminate.
  cbn [bind].
  destruct prompt as [| b | n | r | s | l | d]; try discriminate Hbad; try reflexivity.
  cbn [unusable_prompt] in Hbad.
  destruct (json_loads s) as [v | e]; [discriminate Hbad |].
  destruct e; try discriminate Hbad. reflexivity.
Qed.

(** X3. When [json.loads] of a str prompt fails with anything but a
    [JSONDecodeError], the outer [except] ends the search: no graph is
    found, whatever is under workflow or nodes, and the report is the direct
    listing of the metadata. *)
Theorem prompt_failure_ends_search (metadata : dict) (s : string) (e : exn) :
  dict_get "prompt" metadata = Some (VStr s) ->
  json_loads s = Raised e ->
  is_JSONDecodeError e = false ->
  _get_nodes_dict (VDict metadata) = VNone
  /\ report_metadata (VDict metadata)
     = (_format_direct_image_metadata (VDict metadata),
        [Stage_get_nodes_dict; Stage_format_direct_image_metadata]).
Proof.
  intros Hprompt Hloads Hother.
  assert (Hnone : _get_nodes_dict (VDict metadata) = VNone).
  { unfold _get_nodes_dict, _get_nodes_dict_try.
    cbn [contains subscript]. unfold dict_mem. rewrite Hprompt. cbn [bind].
    now rewrite Hloads, Hother. }
  split; [exact Hnone |].
  unfold report_metadata. rewrite Hnone.
  destruct metadata; [discriminate Hprompt | reflexivity].
Qed.

(** ** The first node that has what is looked for *)

Lemma class_is_dict (node : value) (class_type : string) :
  class_is node class_type = true -> exists n, node = VDict n.
Proof. destruct node; try discriminate. eauto. Qed.

Lemma class_is_other (node : value) (a b : string) :
  class_is node a = true -> a <> b -> class_is node b = false.
Proof.
  intros Ha Hneq. destruct node as [| | | | | | n]; try reflexivity.
  cbn [class_is] in *.
  destruct (dict_get_or "class_type" VNone n) as [| | | | t | |]; try discriminate Ha.
  cbn [eq_str] in *. apply String.eqb_eq in Ha. subst a.
  destruct (String.eqb t b) eqn:Hb; trivial.
  apply String.eqb_eq in Hb. congruence.
Qed.

Lemma model_name_loop_passed (before rest : dict) :
  (forall entry, In entry before ->
                 passed_over "CheckpointLoaderSimple" "ckpt_name" (snd entry) = true) ->
  model_name_loop (before ++ rest)%list = model_name_loop rest.
Proof.
  induction before as [| [node_id node] before IH]; intros Hpass; [reflexivity |].
  assert (Hrest : model_name_loop (before ++ rest)%list = model_name_loop rest)
    by (apply IH; intros entry Hin; apply Hpass; now right).
  pose proof (Hpass (node_id, node) (or_introl eq_refl)) as Hnode.
  cbn [snd] in Hnode. unfold passed_over in Hnode.
  cbn [app model_name_loop].
  destruct (class_is node "CheckpointLoaderSimple") eqn:Hclass; [| exact Hrest].
  destruct (class_is_dict _ _ Hclass) as [n ->]. cbn [negb orb] in Hnode.
  cbn [contains subscript bind]. unfold dict_mem in *.
  destruct (dict_get "inputs" n) as [[| | | | | | inputs] |]; try discriminate Hnode;
    [| exact Hrest].
  cbn [contains bind]. unfold dict_mem.
  destruct (dict_get "ckpt_name" inputs); [discriminate Hnode | exact Hrest].
Qed.

(** X4. [_extract_model_name] passes over the checkpoint loader nodes that
    have no inputs or no ckpt_name, along with the nodes of other classes:
    the name reported is the ckpt_name of the first loader node that has
    one, and "N/A" when there is none. *)
Theorem model_name_of_first_with_ckpt (before : dict) :
  (forall entry, In entry before ->
                 passed_over "CheckpointLoaderSimple" "ckpt_name" (snd entry) = true) ->
  _extract_model_name (VDict before) = Returned (VStr "N/A")
  /\ forall (node_id : string) (n inputs after : dict) (ckpt_name : value),
       class_is (VDict n) "CheckpointLoaderSimple" = true ->
       dict_get "inputs" n = Some (VDict inputs) ->
       dict_get "ckpt_name" inputs = Some ckpt_name ->
       _extract_model_name (VDict (before ++ (node_id, VDict n) :: after)%list)
       = Returned ckpt_name.
Proof.
  intros Hpass. split.
  - unfold _extract_model_name. cbn [items bind].
    rewrite <- (app_nil_r before). now rewrite (model_name_loop_passed _ _ Hpass).
  - intros node_id n inputs after ckpt_name Hclass Hinputs Hckpt.
    unfold _extract_model_name. cbn [items bind].
    rewrite (model_name_loop_passed _ _ Hpass).
    cbn [model_name_loop]. rewrite Hclass.
    cbn [contains subscript bind]. unfold dict_mem. rewrite Hinputs.
    cbn [contains subscript bind]. unfold dict_mem. now rewrite Hckpt.
Qed.

Lemma prompts_loop_passed (before rest : dict) :
  (forall entry, In entry before -> no_prompt (snd entry) = true) ->
  prompts_loop (before ++ rest)%list = prompts_loop rest.
Proof.
  induction before as [| [node_id node] before IH]; intros Hpass; [reflexivity |].
  assert (Hrest : prompts_loop (before ++ rest)%list = prompts_loop rest)
    by (apply IH; intros entry Hin; apply Hpass; now right).
  pose proof (Hpass (node_id, node) (or_introl eq_refl)) as Hnode.
  cbn [snd] in Hnode. unfold no_prompt in Hnode.
  cbn [app prompts_loop].
  destruct (class_is node "CLIPTextEncodeFlux") eqn:Hclass; [| exact Hrest].
  destruct (class_is_dict _ _ Hclass) as [n ->]. cbn [negb orb] in Hnode.
  cbn [get_or bind].
  destruct (dict_get_or "inputs" (VDict []) n) as [| | | | | | inputs];
    try discriminate Hnode.
  cbn [get_or bind contains]. unfold dict_get_or, dict_mem.
  destruct (dict_get "clip_l" inputs) as [clip_l |].
  - now rewrite Hnode.
  - exact Hrest.
Qed.

(** X5. [_extract_prompts] passes over the "CLIPTextEncodeFlux" nodes whose
    clip_l is missing or the empty str: the positive prompt is the clip_l of
    the first node that has a clip_l other than "", the T5XXL prompt is the
    t5xxl input of that same node ([None] when it has none), and without
    such a node the pair is ("N/A", [None]). *)
Theorem prompts_of_first_non_empty (before : dict) :
  (forall entry, In entry before -> no_prompt (snd entry) = true) ->
  _extract_prompts (VDict before) = Returned (VStr "N/A", VNone)
  /\ forall (node_id : string) (n inputs after : dict) (clip_l : value),
       class_is (VDict n) "CLIPTextEncodeFlux" = true ->
       dict_get_or "inputs" (VDict []) n = VDict inputs ->
       dict_get "clip_l" inputs = Some clip_l ->
       eq_str clip_l EmptyString = false ->
       _extract_prompts (VDict (before ++ (node_id, VDict n) :: after)%list)
       = Returned (clip_l, dict_get_or "t5xxl" VNone inputs).
Proof.
  intros Hpass. split.
  - unfold _extract_prompts. cbn [items bind].
    rewrite <- (app_nil_r before). now rewrite (prompts_loop_passed _ _ Hpass).
  - intros node_id n inputs after clip_l Hclass Hinputs Hclip Hfull.
    unfold _extract_prompts. cbn [items bind].
    rewrite (prompts_loop_passed _ _ Hpass).
    cbn [prompts_loop]. rewrite Hclass. cbn [get_or bind]. rewrite Hinputs.
    cbn [get_or bind contains subscript]. unfold dict_get_or, dict_mem.
    rewrite Hclip, Hfull. cbn [bind].
    now destruct (dict_get "t5xxl" inputs).
Qed.

Lemma cascade_loop_passed (before rest : dict) :
  (forall entry, In entry before ->
                 passed_over "CascadeResolutions" "size_selected" (snd entry) = true) ->
  cascade_loop (before ++ rest)%list = cascade_loop rest.
Proof.
  induction before as [| [node_id node] before IH]; intros Hpass; [reflexivity |].
  assert (Hrest : cascade_loop (before ++ rest)%list = cascade_loop rest)
    by (apply IH; intros entry Hin; apply Hpass; now right).
  pose proof (Hpass (node_id, node) (or_introl eq_refl)) as Hnode.
  cbn [snd] in Hnode. unfold passed_over in Hnode.
  cbn [app cascade_loop].
  destruct (class_is node "CascadeResolutions") eqn:Hclass; [| exact Hrest].
  destruct (class_is_dict _ _ Hclass) as [n ->]. cbn [negb orb] in Hnode.
  cbn [contains subscript bind]. unfold dict_mem in *.
  destruct (dict_get "inputs" n) as [[| | | | | | inputs] |]; try discriminate Hnode;
    [| exact Hrest].
  cbn [contains bind]. unfold dict_mem.
  destruct (dict_get "size_selected" inputs); [discriminate Hnode | exact Hrest].
Qed.

Lemma image_scale_loop_passed (before rest : dict) :
  (forall entry, In entry before -> no_scale (snd entry) = true) ->
  image_scale_loop (before ++ rest)%list = image_scale_loop rest.
Proof.
  induction before as [| [node_id node] before IH]; intros Hpass; [reflexivity |].
  assert (Hrest : image_scale_loop (before ++ rest)%list = image_scale_loop rest)
    by (apply IH; intros entry Hin; apply Hpass; now right).
  pose proof (Hpass (node_id, node) (or_introl eq_refl)) as Hnode.
  cbn [snd] in Hnode. unfold no_scale in Hnode.
  cbn [app image_scale_loop].
  destruct (class_is node "ImageScale") eqn:Hclass; [| exact Hrest].
  destruct (class_is_dict _ _ Hclass) as [n ->]. cbn [negb orb] in Hnode.
  cbn [get_or bind].
  destruct (dict_get_or "inputs" (VDict []) n) as [| | | | | | inputs];
    try discriminate Hnode.
  cbn [get_or bind].
  destruct (truthy (dict_get_or "width" VNone inputs)
            && truthy (dict_get_or "height" VNone inputs))%bool;
    [discriminate Hnode | exact Hrest].
Qed.

(** X6. A "CascadeResolutions" node with a size_selected input decides the
    resolution wherever it stands in the graph: the nodes before it that
    have no size_selected are passed over, and an "ImageScale" node is only
    looked at when no such node exists, however early it comes. *)
Theorem resolution_cascade_before_scale (before after : dict) (node_id : string)
    (n inputs : dict) (size_selected : value) :
  (forall entry, In entry before ->
                 passed_over "CascadeResolutions" "size_selected" (snd entry) = true) ->
  class_is (VDict n) "CascadeResolutions" = true ->
  dict_get "inputs" n = Some (VDict inputs) ->
  dict_get "size_selected" inputs = Some size_selected ->
  _extract_resolution (VDict (before ++ (node_id, VDict n) :: after)%list)
  = Returned size_selected.
Proof.
  intros Hpass Hclass Hinputs Hsize.
  unfold _extract_resolution. cbn [items bind].
  rewrite (cascade_loop_passed _ _ Hpass).
  cbn [cascade_loop]. rewrite Hclass.
  cbn [contains subscript bind]. unfold dict_mem. rewrite Hinputs.
  cbn [contains subscript bind]. unfold dict_mem. now rewrite Hsize.
Qed.

(** X7. Without a usable "CascadeResolutions" node, the resolution is
    "{width}x{height}" of the first "ImageScale" node whose width and height
    are both true in Python's sense; a node whose width or height is missing
    or zero is passed over, and without such a node the result is [None],
    so that the report has no resolution line. *)
Theorem resolution_of_image_scale (before : dict) :
  (forall entry, In entry before ->
                 passed_over "CascadeResolutions" "size_selected" (snd entry) = true
                 /\ no_scale (snd entry) = true) ->
  _extract_resolution (VDict before) = Returned VNone
  /\ forall (node_id : string) (n inputs after : dict),
       (forall entry, In entry after ->
                      passed_over "CascadeResolutions" "size_selected" (snd entry)
                      = true) ->
       class_is (VDict n) "ImageScale" = true ->
       dict_get_or "inputs" (VDict []) n = VDict inputs ->
       truthy (dict_get_or "width" VNone inputs) = true ->
       truthy (dict_get_or "height" VNone inputs) = true ->
       _extract_resolution (VDict (before ++ (node_id, VDict n) :: after)%list)
       = Returned (VStr (py_str (dict_get_or "width" VNone inputs) ++ "x"
                         ++ py_str (dict_get_or "height" VNone inputs))).
Proof.
  intros Hpass.
  assert (Hcascade : forall entry, In entry before ->
            passed_over "CascadeResolutions" "size_selected" (snd entry) = true)
    by (intros entry Hin; now apply Hpass).
  assert (Hscale : forall entry, In entry before -> no_scale (snd entry) = true)
    by (intros entry Hin; now apply Hpass).
  split.
  - unfold _extract_resolution. cbn [items bind].
    rewrite <- (app_nil_r before).
    rewrite (cascade_loop_passed _ _ Hcascade). cbn [cascade_loop bind].
    now rewrite (image_scale_loop_passed _ _ Hscale).
  - intros node_id n inputs after Hafter Hclass Hinputs Hwidth Hheight.
    unfold _extract_resolution. cbn [items bind].
    assert (Hall : forall entry, In entry (before ++ (node_id, VDict n) :: after)%list ->
              passed_over "CascadeResolutions" "size_selected" (snd entry) = true).
    { intros entry Hin. apply in_app_or in Hin. destruct Hin as [Hin | [<- | Hin]].
      - now apply Hcascade.
      - cbn [snd]. unfold passed_over.
        now rewrite (class_is_other _ _ "CascadeResolutions" Hclass) by discriminate.
      - now apply Hafter. }
    rewrite <- (app_nil_r (before ++ (node_id, VDict n) :: after)%list) at 1.
    rewrite (cascade_loop_passed _ _ Hall). cbn [cascade_loop bind].
    rewrite (image_scale_loop_passed _ _ Hscale).
    cbn [image_scale_loop]. rewrite Hclass. cbn [get_or bind]. rewrite Hinputs.
    cbn [get_or bind]. now rewrite Hwidth, Hheight.
Qed.

(** ** The sampler of the second kind *)

Lemma xlabs_sampler_loop_skip (before rest : dict) :
  (forall entry, In entry before -> class_is (snd entry) "XlabsSampler" = false) ->
  xlabs_sampler_loop (before ++ rest)%list = xlabs_sampler_loop rest.
Proof.
  induction before as [| [node_id node] before IH]; intros Hskip; [reflexivity |].
  cbn [app xlabs_sampler_loop].
  pose proof (Hskip (node_id, node) (or_introl eq_refl)) as Hnode.
  cbn [snd] in Hnode. rewrite Hnode.
  apply IH. intros entry Hin. apply Hskip. now right.
Qed.

Lemma ksampler_loop_none (nodes_dict nodes : dict) :
  (forall entry, In entry nodes -> class_is (snd entry) "KSampler" = false) ->
  ksampler_loop nodes_dict nodes = Returned None.
Proof.
  intros Hskip. rewrite <- (app_nil_r nodes).
  now rewrite (ksampler_loop_skip _ _ _ Hskip).
Qed.

(** X8. In a graph without a KSampler node the sampler record comes from
    the first "XlabsSampler" node: noise_seed is shown as Seed and
    denoise_strength as Denoise, next to steps, true_gs,
    timestep_to_start_cfg and image_to_image_strength, each "N/A" when
    missing.  With neither kind of sampler the record is [None] and the
    report has no sampler section. *)
Theorem xlabs_sampler_without_ksampler (before : dict) :
  (forall entry, In entry before ->
                 class_is (snd entry) "KSampler" = false
                 /\ class_is (snd entry) "XlabsSampler" = false) ->
  (_extract_sampler_info (VDict before) = Returned None
   /\ appends (sampler_section None) (Returned tt) [])
  /\ forall (node_id : string) (n inputs after : dict),
       (forall entry, In entry after -> class_is (snd entry) "KSampler" = false) ->
       class_is (VDict n) "XlabsSampler" = true ->
       dict_get_or "inputs" (VDict []) n = VDict inputs ->
       exists sampler_info,
         _extract_sampler_info (VDict (before ++ (node_id, VDict n) :: after)%list)
         = Returned (Some sampler_info)
         /\ appends (sampler_section (Some sampler_info)) (Returned tt)
              ((newline ++ "--- Sampler Details ---")%string :: xlabs_lines inputs).
Proof.
  intros Hnone.
  assert (Hk : forall entry, In entry before -> class_is (snd entry) "KSampler" = false)
    by (intros entry Hin; now apply Hnone).
  assert (Hx : forall entry, In entry before ->
                             class_is (snd entry) "XlabsSampler" = false)
    by (intros entry Hin; now apply Hnone).
  split; [split |].
  - unfold _extract_sampler_info. cbn [items bind].
    rewrite (ksampler_loop_none _ _ Hk). cbn [bind].
    rewrite <- (app_nil_r before). now rewrite (xlabs_sampler_loop_skip _ _ Hx).
  - apply (appends_sret tt).
  - intros node_id n inputs after Hafter Hclass Hinputs.
    eexists. split.
    + unfold _extract_sampler_info. cbn [items bind].
      rewrite ksampler_loop_none.
      2: { intros entry Hin. apply in_app_or in Hin.
           destruct Hin as [Hin | [<- | Hin]]; [now apply Hk | | now apply Hafter].
           cbn [snd]. now apply (class_is_other _ "XlabsSampler"). }
      cbn [bind]. rewrite (xlabs_sampler_loop_skip _ _ Hx).
      cbn [xlabs_sampler_loop]. rewrite Hclass. cbn [get_or bind]. rewrite Hinputs.
      cbn [get_or bind]. reflexivity.
    + apply sampler_section_lines.
Qed.

(** ** Graphs in the shape of the data model *)

Lemma node_ok_inputs (n : dict) :
  node_ok (VDict n) = true ->
  dict_get "inputs" n = None
  \/ exists inputs, dict_get "inputs" n = Some (VDict inputs).
Proof.
  cbn [node_ok]. destruct (dict_get "inputs" n) as [[| | | | | | inputs] |];
    try discriminate; eauto.
Qed.

Lemma node_ok_get_or_inputs (n : dict) :
  node_ok (VDict n) = true ->
  exists inputs, dict_get_or "inputs" (VDict []) n = VDict inputs.
Proof.
  intros Hok. unfold dict_get_or.
  destruct (node_ok_inputs n Hok) as [-> | [inputs ->]]; eauto.
Qed.

Lemma dict_get_In (k : string) (v : value) (d : dict) :
  dict_get k d = Some v -> exists k', In (k', v) d.
Proof.
  induction d as [| [k0 v0] d IH]; [discriminate |]. cbn [dict_get].
  destruct (String.eqb k0 k).
  - intros H; inversion H; subst. exists k0. now left.
  - intros H. destruct (IH H) as [k' Hin]. exists k'. now right.
Qed.

(** The step every loop takes at a node of its class: the node is a dict
    and its inputs are one. *)
Ltac at_node_ok Hok node_id node :=
  let Hnode := fresh "Hnode" in
  let n := fresh "n" in
  let inputs := fresh "inputs" in
  let Hinputs := fresh "Hinputs" in
  pose proof (Hok (node_id, node) (or_introl eq_refl)) as Hnode;
  cbn [snd] in Hnode;
  destruct node as [| | | | | | n]; try discriminate Hnode;
  destruct (node_ok_get_or_inputs n Hnode) as [inputs Hinputs];
  cbn [get_or bind]; rewrite Hinputs; cbn [get_or bind items contains subscript].

Lemma model_name_loop_returns (nodes : dict) :
  (forall entry, In entry nodes -> node_ok (snd entry) = true) ->
  exists model_name, model_name_loop nodes = Returned model_name.
Proof.
  induction nodes as [| [node_id node] nodes IH]; intros Hok; [eexists; reflexivity |].
  assert (Hrest : exists model_name, model_name_loop nodes = Returned model_name)
    by (apply IH; intros entry Hin; apply Hok; now right).
  cbn [model_name_loop]. destruct (class_is node "CheckpointLoaderSimple"); trivial.
  pose proof (Hok (node_id, node) (or_introl eq_refl)) as Hnode. cbn [snd] in Hnode.
  destruct node as [| | | | | | n]; try discriminate Hnode.
  cbn [contains subscript bind]. unfold dict_mem.
  destruct (node_ok_inputs n Hnode) as [-> | [inputs ->]]; trivial.
  cbn [contains subscript bind]. unfold dict_mem.
  destruct (dict_get "ckpt_name" inputs); eauto.
Qed.

Lemma loras_loop_returns (nodes : dict) :
  (forall entry, In entry nodes -> node_ok (snd entry) = true) ->
  exists loras, loras_loop nodes = Returned loras.
Proof.
  induction nodes as [| [node_id node] nodes IH]; intros Hok; [eexists; reflexivity |].
  cbn [loras_loop]. destruct (class_is node "Power Lora Loader (rgthree)").
  - at_node_ok Hok node_id node. eauto.
  - apply IH. intros entry Hin. apply Hok. now right.
Qed.

Lemma cascade_loop_returns (nodes : dict) :
  (forall entry, In entry nodes -> node_ok (snd entry) = true) ->
  exists found, cascade_loop nodes = Returned found.
Proof.
  induction nodes as [| [node_id node] nodes IH]; intros Hok; [eexists; reflexivity |].
  assert (Hrest : exists found, cascade_loop nodes = Returned found)
    by (apply IH; intros entry Hin; apply Hok; now right).
  cbn [cascade_loop]. destruct (class_is node "CascadeResolutions"); trivial.
  pose proof (Hok (node_id, node) (or_introl eq_refl)) as Hnode. cbn [snd] in Hnode.
  destruct node as [| | | | | | n]; try discriminate Hnode.
  cbn [contains subscript bind]. unfold dict_mem.
  destruct (node_ok_inputs n Hnode) as [-> | [inputs ->]]; trivial.
  cbn [contains subscript bind]. unfold dict_mem.
  destruct (dict_get "size_selected" inputs); cbn [bind]; eauto.
Qed.

Lemma image_scale_loop_returns (nodes : dict) :
  (forall entry, In entry nodes -> node_ok (snd entry) = true) ->
  exists found, image_scale_loop nodes = Returned found.
Proof.
  induction nodes as [| [node_id node] nodes IH]; intros Hok; [eexists; reflexivity |].
  assert (Hrest : exists found, image_scale_loop nodes = Returned found)
    by (apply IH; intros entry Hin; apply Hok; now right).
  cbn [image_scale_loop]. destruct (class_is node "ImageScale"); trivial.
  at_node_ok Hok node_id node.
  destruct (truthy _ && truthy _)%bool; eauto.
Qed.

Lemma prompts_loop_returns (nodes : dict) :
  (forall entry, In entry nodes -> node_ok (snd entry) = true) ->
  exists prompts, prompts_loop nodes = Returned prompts.
Proof.
  induction nodes as [| [node_id node] nodes IH]; intros Hok; [eexists; reflexivity |].
  assert (Hrest : exists prompts, prompts_loop nodes = Returned prompts)
    by (apply IH; intros entry Hin; apply Hok; now right).
  cbn [prompts_loop]. destruct (class_is node "CLIPTextEncodeFlux"); trivial.
  at_node_ok Hok node_id node.
  destruct (eq_str _ EmptyString); trivial.
  unfold dict_mem. destruct (dict_get "clip_l" inputs); trivial. cbn [bind].
  destruct (dict_get "t5xxl" inputs); cbn [bind]; eauto.
Qed.

Lemma sampler_seed_returns (nodes_dict inputs : dict) (n : dict) :
  (forall entry, In entry nodes_dict -> node_ok (snd entry) = true) ->
  node_ok (VDict n) = true ->
  dict_get_or "inputs" (VDict []) n = VDict inputs ->
  exists seed, sampler_seed nodes_dict (VDict inputs) = Returned seed.
Proof.
  intros Hok Hnode Hinputs. unfold sampler_seed. cbn [get_or bind].
  destruct (dict_get_or "seed" VNone inputs) as [| | | | | link |] eqn:Hseed; eauto.
  destruct link as [| seed_node_id link]; eauto.
  assert (Hkey : is_list seed_node_id = false /\ is_dict seed_node_id = false).
  { cbn [node_ok] in Hnode. unfold dict_get_or in Hinputs, Hseed.
    destruct (dict_get "inputs" n) as [v |].
    - subst v. destruct (dict_get "seed" inputs) as [v |]; [| discriminate Hseed].
      subst v. destruct seed_node_id; try discriminate Hnode; now split.
    - inversion Hinputs; subst inputs. discriminate Hseed. }
  destruct Hkey as [Hl Hd].
  destruct seed_node_id as [| | | | s | |]; try discriminate;
    cbn [get_by_value bind truthy]; eauto.
  unfold dict_get_or at 1 2 3.
  destruct (dict_get s nodes_dict) as [seed_node |] eqn:Hfound;
    [| cbn [truthy]; eauto].
  destruct (dict_get_In _ _ _ Hfound) as [k Hin].
  pose proof (Hok _ Hin) as Hseed_node. cbn [snd] in Hseed_node.
  destruct seed_node as [| | | | | | sn]; try discriminate Hseed_node.
  destruct (truthy (VDict sn)); eauto. cbn [get_or bind].
  destruct (eq_str _ "Seed Everywhere"); eauto.
  destruct (node_ok_get_or_inputs sn Hseed_node) as [seed_inputs ->].
  cbn [get_or bind]. eauto.
Qed.

Lemma ksampler_loop_returns (nodes_dict nodes : dict) :
  (forall entry, In entry nodes_dict -> node_ok (snd entry) = true) ->
  (forall entry, In entry nodes -> node_ok (snd entry) = true) ->
  exists found, ksampler_loop nodes_dict nodes = Returned found.
Proof.
  intros Hall.
  induction nodes as [| [node_id node] nodes IH]; intros Hok; [eexists; reflexivity |].
  cbn [ksampler_loop]. destruct (class_is node "KSampler").
  - pose proof (Hok (node_id, node) (or_introl eq_refl)) as Hnode. cbn [snd] in Hnode.
    destruct node as [| | | | | | n]; try discriminate Hnode.
    destruct (node_ok_get_or_inputs n Hnode) as [inputs Hinputs].
    cbn [get_or bind]. rewrite Hinputs.
    destruct (sampler_seed_returns nodes_dict inputs n Hall Hnode Hinputs) as [seed ->].
    cbn [get_or bind]. eauto.
  - apply IH. intros entry Hin. apply Hok. now right.
Qed.

Lemma xlabs_sampler_loop_returns (nodes : dict) :
  (forall entry, In entry nodes -> node_ok (snd entry) = true) ->
  exists found, xlabs_sampler_loop nodes = Returned found.
Proof.
  induction nodes as [| [node_id node] nodes IH]; intros Hok; [eexists; reflexivity |].
  cbn [xlabs_sampler_loop]. destruct (class_is node "XlabsSampler").
  - at_node_ok Hok node_id node. eauto.
  - apply IH. intros entry Hin. apply Hok. now right.
Qed.

Lemma controlnet_loop_returns (nodes : dict) :
  (forall entry, In entry nodes -> node_ok (snd entry) = true) ->
  forall controlnet_info,
  exists info, controlnet_loop nodes controlnet_info = Returned info.
Proof.
  induction nodes as [| [node_id node] nodes IH]; intros Hok controlnet_info;
    [eexists; reflexivity |].
  assert (Hrest : forall acc, exists info, controlnet_loop nodes acc = Returned info)
    by (apply IH; intros entry Hin; apply Hok; now right).
  cbn [controlnet_loop].
  destruct (class_is node "LoadFluxControlNet");
    [| destruct (class_is node "ApplyFluxControlNet");
       [| destruct (class_is node "CannyEdgePreprocessor")]];
    trivial; at_node_ok Hok node_id node; apply Hrest.
Qed.

Lemma ipadapter_loop_returns (nodes : dict) :
  (forall entry, In entry nodes -> node_ok (snd entry) = true) ->
  forall ipadapter_info,
  exists info, ipadapter_loop nodes ipadapter_info = Returned info.
Proof.
  induction nodes as [| [node_id node] nodes IH]; intros Hok ipadapter_info;
    [eexists; reflexivity |].
  assert (Hrest : forall acc, exists info, ipadapter_loop nodes acc = Returned info)
    by (apply IH; intros entry Hin; apply Hok; now right).
  cbn [ipadapter_loop].
  destruct (class_is node "LoadFluxIPAdapter");
    [| destruct (class_is node "ApplyFluxIPAdapter")];
    trivial; at_node_ok Hok node_id node; apply Hrest.
Qed.

Lemma completes_sret {A : Type} (a : A) : completes (sret (S := list string) a).
Proof. intros l. unfold sret. eauto. Qed.

Lemma completes_lift {A : Type} (a : A) :
  completes (lift (S := list string) (Returned a)).
Proof. intros l. unfold lift. eauto. Qed.

Lemma completes_append_line (line : string) : completes (append_line line).
Proof. intros l. unfold append_line. eauto. Qed.

Lemma completes_sbind {A B : Type} (m : lines_m A) (k : A -> lines_m B) :
  completes m -> (forall a, completes (k a)) -> completes (sbind m k).
Proof.
  intros Hm Hk l. unfold sbind.
  destruct (Hm l) as (a & l' & ->). apply Hk.
Qed.

Lemma completes_for_each {A : Type} (body : A -> lines_m unit) (l : list A) :
  (forall a, completes (body a)) -> completes (for_each l body).
Proof.
  intros Hbody. induction l as [| a l IH]; cbn [for_each].
  - apply completes_sret.
  - apply completes_sbind; [apply Hbody | intros _; exact IH].
Qed.

Lemma completes_appends {A : Type} (m : lines_m A) (a : A) (produced : list string) :
  appends m (Returned a) produced -> completes m.
Proof. intros Happ l. rewrite Happ. eauto. Qed.

Lemma completes_component_section (component : string * dict) :
  completes (component_section component).
Proof.
  unfold component_section. destruct (nonempty (snd component)).
  - apply completes_sbind; [apply completes_append_line |].
    intros _. apply completes_for_each. intros entry. apply completes_append_line.
  - apply completes_sret.
Qed.

Lemma extractors_return (nodes : dict) :
  (forall entry, In entry nodes -> node_ok (snd entry) = true) ->
  (exists model_name, _extract_model_name (VDict nodes) = Returned model_name)
  /\ (exists loras, _extract_loras (VDict nodes) = Returned loras)
  /\ (exists resolution, _extract_resolution (VDict nodes) = Returned resolution)
  /\ (exists prompts, _extract_prompts (VDict nodes) = Returned prompts)
  /\ (exists sampler_info, _extract_sampler_info (VDict nodes) = Returned sampler_info)
  /\ (exists components,
         _extract_additional_components (VDict nodes) = Returned components).
Proof.
  intros Hok. repeat split.
  - apply (model_name_loop_returns nodes Hok).
  - apply (loras_loop_returns nodes Hok).
  - unfold _extract_resolution. cbn [items bind].
    destruct (cascade_loop_returns nodes Hok) as [[size |] ->]; cbn [bind]; eauto.
    destruct (image_scale_loop_returns nodes Hok) as [[resolution |] ->]; cbn [bind];
      eauto.
  - apply (prompts_loop_returns nodes Hok).
  - unfold _extract_sampler_info. cbn [items bind].
    destruct (ksampler_loop_returns nodes nodes Hok Hok) as [[info |] ->]; cbn [bind];
      eauto.
    apply (xlabs_sampler_loop_returns nodes Hok).
  - unfold _extract_additional_components. cbn [items bind].
    destruct (controlnet_loop_returns nodes Hok []) as [controlnet_info ->].
    cbn [bind].
    destruct (ipadapter_loop_returns nodes Hok []) as [ipadapter_info ->].
    cbn [bind]. eauto.
Qed.

(** X9. A graph in the shape of the data model is reported without an
    error: when every node is a dict whose inputs, if any, are a dict, and
    no seed link names its target by a list or a dict, the [try] block of
    [_parse_and_format] runs to its end, and the report is the header line
    followed by the lines the block produced, with no error line. *)
Theorem well_formed_graph_no_error (nodes : dict) :
  (forall entry, In entry nodes -> node_ok (snd entry) = true) ->
  exists produced,
    appends (_parse_and_format_try (VDict nodes)) (Returned tt) produced
    /\ _parse_and_format (VDict nodes)
       = join newline ("--- Workflow Metadata Report ---" :: produced).
Proof.
  intros Hok.
  destruct (extractors_return nodes Hok)
    as ([model_name Hm] & [loras Hl] & [resolution Hr] & [prompts Hp]
        & [sampler_info Hs] & [components Hc]).
  assert (Hruns : completes (_parse_and_format_try (VDict nodes))).
  { unfold _parse_and_format_try. rewrite Hm, Hl, Hr, Hp, Hs, Hc.
    repeat first
      [ apply completes_sbind; [| intros ?]
      | apply completes_lift
      | apply completes_append_line
      | apply completes_sret
      | apply (completes_appends _ _ _ (lora_section_lines _))
      | apply completes_for_each; intros ?
      | apply completes_component_section
      | match goal with
        | |- completes (if ?b then _ else _) => destruct b
        | |- completes (sampler_section ?i) =>
            destruct i as [?info |];
            [ apply (completes_appends _ _ _ (sampler_section_lines _))
            | apply (completes_sret tt) ]
        end ]. }
  destruct (parse_and_format_try_appends (VDict nodes)) as (r & produced & Happ).
  destruct (Hruns []) as ([] & lines' & Hrun).
  rewrite Happ in Hrun. inversion Hrun; subst r.
  exists produced. split; [exact Happ |].
  unfold _parse_and_format. now rewrite Happ.
Qed.

(** ** The additional components *)




Lemma controlnet_loop_no_component (nodes : dict) (controlnet_info : dict) :
  (forall entry, In entry nodes -> no_component (snd entry) = true) ->
  controlnet_loop nodes controlnet_info = Returned controlnet_info.
Proof.
  induction nodes as [| [node_id node] nodes IH]; intros Hnone; [reflexivity |].
  pose proof (Hnone (node_id, node) (or_introl eq_refl)) as Hnode.
  cbn [snd] in Hnode. unfold no_component in Hnode.
  apply negb_true_iff in Hnode. repeat (apply orb_false_iff in Hnode as [Hnode ?]).
  cbn [controlnet_loop].
  repeat match goal with H : class_is node _ = false |- _ => rewrite H; clear H end.
  apply IH. intros entry Hin. apply Hnone. now right.
Qed.

Lemma ipadapter_loop_no_component (nodes : dict) (ipadapter_info : dict) :
  (forall entry, In entry nodes -> no_component (snd entry) = true) ->
  ipadapter_loop nodes ipadapter_info = Returned ipadapter_info.
Proof.
  induction nodes as [| [node_id node] nodes IH]; intros Hnone; [reflexivity |].
  pose proof (Hnone (node_id, node) (or_introl eq_refl)) as Hnode.
  cbn [snd] in Hnode. unfold no_component in Hnode.
  apply negb_true_iff in Hnode. repeat (apply orb_false_iff in Hnode as [Hnode ?]).
  cbn [ipadapter_loop].
  repeat match goal with H : class_is node _ = false |- _ => rewrite H; clear H end.
  apply IH. intros entry Hin. apply Hnone. now right.
Qed.

(** X11. A graph without a node of the five component classes has no
    additional component, whatever else its nodes hold (their inputs are not
    even looked at), so the report ends without a component section. *)
Theorem no_component_nodes_no_section (nodes : dict) :
  (forall entry, In entry nodes -> no_component (snd entry) = true) ->
  _extract_additional_components (VDict nodes) = Returned [].
Proof.
  intros Hnone.
  unfold _extract_additional_components. cbn [items bind].
  rewrite (controlnet_loop_no_component _ _ Hnone). cbn [bind nonempty].
  now rewrite (ipadapter_loop_no_component _ _ Hnone).
Qed.

(** ** A list of nodes *)

(** X23. A graph given as a list of nodes is found and then cannot be
    formatted.  [_get_nodes_dict] accepts a list under nodes, at the top
    level or inside a workflow dict (the layout of a saved workflow), but
    [_parse_and_format] starts by calling [items] on it: for a list that is
    not empty the report is the header followed by the error line of the
    [AttributeError], and nothing else. *)
Theorem node_list_report_is_error (metadata : dict) (node : value)
    (others : list value) :
  dict_get "prompt" metadata = None ->
  (dict_get "workflow" metadata = None
   /\ dict_get "nodes" metadata = Some (VList (node :: others)))
  \/ (exists workflow,
        dict_get "workflow" metadata = Some (VDict workflow)
        /\ dict_get "nodes" workflow = Some (VList (node :: others))) ->
  report_metadata (VDict metadata)
  = (Returned ("--- Workflow Metadata Report ---" ++ newline ++ newline
               ++ "Error during metadata parsing: "
               ++ exn_str (AttributeError TList "items")),
     [Stage_get_nodes_dict; Stage_parse_and_format]).
Proof.
  intros Hprompt Hnodes.
  assert (Hfound : _get_nodes_dict (VDict metadata) = VList (node :: others)).
  { unfold _get_nodes_dict, _get_nodes_dict_try.
    cbn [contains subscript]. unfold dict_mem. rewrite Hprompt. cbn [bind].
    destruct Hnodes as [[Hworkflow Hlist] | (workflow & Hworkflow & Hlist)].
    - rewrite Hworkflow. cbn [bind]. rewrite Hlist. reflexivity.
    - rewrite Hworkflow. cbn [bind]. unfold nodes_or_self. now rewrite Hlist. }
  unfold report_metadata. rewrite Hfound.
  destruct metadata as [| entry metadata].
  - destruct Hnodes as [[_ H] | (w & H & _)]; discriminate H.
  - reflexivity.
Qed.

(** ** The direct listing *)

Lemma drop_last_app_char (s : string) (c : ascii) :
  drop_last (s ++ String c EmptyString) = s.
Proof.
  induction s as [| a s IH]; [reflexivity |].
  cbn [append drop_last]. rewrite IH.
  now destruct s.
Qed.

(** X24. In the direct listing, a list of more than five elements is shown
    by its first five, in the notation of [repr], followed by ", ... ]": the
    closing bracket of the shortened list is cut off and replaced. *)
Theorem long_list_entry (key : string) (l : list value) :
  (5 < List.length l)%nat ->
  format_direct_entry (key, VList l)
  = title (replace_char "_" " " key) ++ ": ["
    ++ join ", " (map py_repr (firstn 5 l)) ++ ", ... ]".
Proof.
  intros Hlong. unfold format_direct_entry.
  assert (Hcmp : (5 <? Z.of_nat (List.length l)) = true) by (apply Z.ltb_lt; lia).
  rewrite Hcmp.
  change (py_str (VList (firstn 5 l)))
    with (String "[" (join ", " (map py_repr (firstn 5 l)) ++ "]")).
  change (String "[" (join ", " (map py_repr (firstn 5 l)) ++ "]"))
    with (String "[" (join ", " (map py_repr (firstn 5 l))) ++ "]").
  now rewrite drop_last_app_char.
Qed.

(** ** A graph with nothing to report *)

(** X25. When no node of the graph is of a class the report knows, every
    section that depends on a node is left out and the report has four
    parts: the header, "Model: N/A", the positive prompt "N/A" and the
    negative prompt "(Empty)".  What the nodes hold besides their class is
    not looked at. *)
Theorem unrecognised_graph_report (nodes : dict) :
  (forall entry, In entry nodes -> unrecognised (snd entry) = true) ->
  _parse_and_format (VDict nodes)
  = join newline
      ["--- Workflow Metadata Report ---"; "Model: N/A";
       newline ++ "Positive Prompt:" ++ newline ++ "  N/A";
       newline ++ "Negative Prompt:" ++ newline ++ "  (Empty)"].
Proof.
  intros Hnone.
  assert (Hclass : forall entry, In entry nodes ->
            class_is (snd entry) "CheckpointLoaderSimple" = false
            /\ class_is (snd entry) "Power Lora Loader (rgthree)" = false
            /\ class_is (snd entry) "CascadeResolutions" = false
            /\ class_is (snd entry) "ImageScale" = false
            /\ class_is (snd entry) "CLIPTextEncodeFlux" = false
            /\ class_is (snd entry) "KSampler" = false
            /\ class_is (snd entry) "XlabsSampler" = false
            /\ no_component (snd entry) = true).
  { intros entry Hin. specialize (Hnone entry Hin). unfold unrecognised in Hnone.
    apply andb_prop in Hnone. destruct Hnone as [Hknown Hcomp].
    apply negb_true_iff in Hknown.
    repeat (apply orb_false_iff in Hknown as [Hknown ?]). tauto. }
  assert (Hmodel : _extract_model_name (VDict nodes) = Returned (VStr "N/A")).
  { unfold _extract_model_name. cbn [items bind]. rewrite <- (app_nil_r nodes).
    rewrite model_name_loop_passed; [reflexivity |].
    intros entry Hin. unfold passed_over.
    destruct (Hclass entry Hin) as (-> & _). reflexivity. }
  assert (Hloras : _extract_loras (VDict nodes) = Returned []).
  { unfold _extract_loras. cbn [items bind]. rewrite <- (app_nil_r nodes).
    rewrite loras_loop_skip; [reflexivity |].
    intros entry Hin. now destruct (Hclass entry Hin) as (_ & -> & _). }
  assert (Hresolution : _extract_resolution (VDict nodes) = Returned VNone).
  { unfold _extract_resolution. cbn [items bind]. rewrite <- (app_nil_r nodes).
    rewrite cascade_loop_passed.
    2: { intros entry Hin. unfold passed_over.
         destruct (Hclass entry Hin) as (_ & _ & -> & _). reflexivity. }
    cbn [cascade_loop bind]. rewrite image_scale_loop_passed; [reflexivity |].
    intros entry Hin. unfold no_scale.
    destruct (Hclass entry Hin) as (_ & _ & _ & -> & _). reflexivity. }
  assert (Hprompts : _extract_prompts (VDict nodes) = Returned (VStr "N/A", VNone)).
  { unfold _extract_prompts. cbn [items bind]. rewrite <- (app_nil_r nodes).
    rewrite prompts_loop_passed; [reflexivity |].
    intros entry Hin. unfold no_prompt.
    destruct (Hclass entry Hin) as (_ & _ & _ & _ & -> & _). reflexivity. }
  assert (Hsampler : _extract_sampler_info (VDict nodes) = Returned None).
  { unfold _extract_sampler_info. cbn [items bind].
    rewrite ksampler_loop_none
      by (intros entry Hin; now destruct (Hclass entry Hin) as (_ & _ & _ & _ & _ & -> & _)).
    cbn [bind]. rewrite <- (app_nil_r nodes).
    rewrite xlabs_sampler_loop_skip; [reflexivity |].
    intros entry Hin. now destruct (Hclass entry Hin) as (_ & _ & _ & _ & _ & _ & -> & _). }
  assert (Hcomponents : _extract_additional_components (VDict nodes) = Returned []).
  { unfold _extract_additional_components. cbn [items bind].
    rewrite controlnet_loop_no_component
      by (intros entry Hin; now destruct (Hclass entry Hin) as (_ & _ & _ & _ & _ & _ & _ & ->)).
    cbn [bind nonempty].
    rewrite ipadapter_loop_no_component
      by (intros entry Hin; now destruct (Hclass entry Hin) as (_ & _ & _ & _ & _ & _ & _ & ->)).
    reflexivity. }
  unfold _parse_and_format, _parse_and_format_try.
  rewrite Hmodel, Hloras, Hresolution, Hprompts, Hsampler, Hcomponents.
  reflexivity.
Qed.

End ReporterGraphProperties.

(** * Further properties of the loader *)

Section LoaderFurtherProperties.

Context {rt : Runtime} {im : Imaging} {host : Host}.

(** ** What is taken from the embedded metadata *)

Lemma dict_get_set_inv (k k' : string) (v x : value) (d : dict) :
  dict_get k (dict_set k' x d) = Some v -> k = k' \/ dict_get k d = Some v.
Proof.
  destruct (string_dec k k') as [-> | Hneq]; [now left |].
  rewrite dict_get_set_other by exact Hneq. now right.
Qed.

Lemma parse_png_loop_keys (raw_metadata : dict) :
  forall (metadata : dict) (k : string) (v : value),
    dict_get k (parse_png_loop raw_metadata metadata) = Some v ->
    k = "prompt" \/ k = "workflow" \/ k = "parameters" \/ dict_get k metadata = Some v.
Proof.
  induction raw_metadata as [| [key raw] rest IH]; intros metadata k v Hget.
  - now repeat right.
  - cbn [parse_png_loop] in Hget.
    destruct (String.eqb key "prompt") eqn:Hp; cbn [orb] in Hget.
    { apply String.eqb_eq in Hp. subst key.
      destruct (IH _ _ _ Hget) as [H | [H | [H | H]]]; auto.
      apply dict_get_set_inv in H. destruct H as [H | H]; auto 6. }
    destruct (String.eqb key "workflow") eqn:Hw.
    { apply String.eqb_eq in Hw. subst key.
      destruct (IH _ _ _ Hget) as [H | [H | [H | H]]]; auto.
      apply dict_get_set_inv in H. destruct H as [H | H]; auto 6. }
    destruct (String.eqb key "parameters").
    { destruct (IH _ _ _ Hget) as [H | [H | [H | H]]]; auto.
      apply dict_get_set_inv in H. destruct H as [H | H]; auto 6. }
    now apply IH.
Qed.

(** X12. The metadata [_parse_png_metadata] builds is never empty and holds
    nothing but what it is meant to hold: it is a dict whose keys are among
    prompt, workflow and parameters, or else it is the one-key sentinel
    [{"info": "No workflow metadata found"}].  No other key of the image
    (dpi, gamma, ...) gets into it. *)
Theorem parsed_metadata_keys (raw_metadata : dict) :
  exists metadata,
    _parse_png_metadata raw_metadata = VDict metadata
    /\ metadata <> []
    /\ (metadata = [("info", VStr "No workflow metadata found")]
        \/ forall k v, dict_get k metadata = Some v ->
                       k = "prompt" \/ k = "workflow" \/ k = "parameters").
Proof.
  unfold _parse_png_metadata.
  destruct (parse_png_loop raw_metadata []) as [| entry metadata] eqn:Hloop;
    cbn [nonempty negb].
  - eexists. repeat split; [discriminate | now left].
  - eexists. repeat split; [discriminate | right].
    intros k v Hget. rewrite <- Hloop in Hget.
    destruct (parse_png_loop_keys _ _ _ _ Hget) as [H | [H | [H | H]]]; auto.
    discriminate H.
Qed.

Lemma dict_get_absent (k : string) (d : dict) :
  ~ In k (map fst d) -> dict_get k d = None.
Proof.
  induction d as [| [k' v] d IH]; intros Hnot; [reflexivity |].
  cbn [dict_get]. destruct (String.eqb k' k) eqn:Hk.
  - apply String.eqb_eq in Hk. exfalso. apply Hnot. now left.
  - apply IH. intros Hin. apply Hnot. now right.
Qed.

Lemma parse_png_loop_prompt (raw_metadata : dict) (k : string) :
  k = "prompt" \/ k = "workflow" ->
  NoDup (map fst raw_metadata) ->
  forall metadata,
    dict_get k (parse_png_loop raw_metadata metadata)
    = match dict_get k raw_metadata with
      | Some raw => Some (parsed_embedded raw)
      | None => dict_get k metadata
      end.
Proof.
  intros Hk. induction raw_metadata as [| [key raw] rest IH]; intros Hnodup metadata;
    [reflexivity |].
  cbn [map fst] in Hnodup. inversion Hnodup as [| ? ? Hnotin Hnodup']; subst.
  cbn [parse_png_loop dict_get].
  destruct (String.eqb key k) eqn:Hkey.
  - apply String.eqb_eq in Hkey. subst key.
    assert (Hcase : (String.eqb k "prompt" || String.eqb k "workflow")%bool = true)
      by (destruct Hk as [-> | ->]; reflexivity).
    rewrite Hcase, (IH Hnodup'), (dict_get_absent _ _ Hnotin).
    rewrite dict_get_set_same. unfold parsed_embedded. reflexivity.
  - assert (Hneq : k <> key)
      by (intros ->; now rewrite String.eqb_refl in Hkey).
    destruct (String.eqb key "prompt" || String.eqb key "workflow")%bool;
      [| destruct (String.eqb key "parameters") eqn:Hpar];
      rewrite (IH Hnodup'); trivial;
      destruct (dict_get k rest); trivial.
    + now apply dict_get_set_other.
    + apply dict_get_set_other. apply String.eqb_eq in Hpar. congruence.
Qed.

Lemma parse_png_loop_parameters (raw_metadata : dict) :
  NoDup (map fst raw_metadata) ->
  forall metadata,
    dict_get "parameters" (parse_png_loop raw_metadata metadata)
    = match dict_get "parameters" raw_metadata with
      | Some raw => Some raw
      | None => dict_get "parameters" metadata
      end.
Proof.
  induction raw_metadata as [| [key raw] rest IH]; intros Hnodup metadata;
    [reflexivity |].
  cbn [map fst] in Hnodup. inversion Hnodup as [| ? ? Hnotin Hnodup']; subst.
  cbn [parse_png_loop dict_get].
  destruct (String.eqb key "parameters") eqn:Hkey.
  - apply String.eqb_eq in Hkey. subst key. cbn [String.eqb Ascii.eqb Bool.eqb orb].
    rewrite (IH Hnodup'), (dict_get_absent _ _ Hnotin).
    apply dict_get_set_same.
  - destruct (String.eqb key "prompt" || String.eqb key "workflow")%bool eqn:Hpw;
      rewrite (IH Hnodup'); trivial.
    destruct (dict_get "parameters" rest); trivial.
    apply dict_get_set_other. intros <-.
    now rewrite String.eqb_refl in Hkey.
Qed.

(** X13. What the image holds under prompt or workflow reaches the metadata
    decoded when it is a str that json can decode, and as it is otherwise (a
    str that json rejects, or an object); what it holds under parameters is
    copied as it is. *)
Theorem embedded_values_decoded_or_kept (raw_metadata : dict) (k : string)
    (raw : value) :
  NoDup (map fst raw_metadata) ->
  dict_get k raw_metadata = Some raw ->
  k = "prompt" \/ k = "workflow" \/ k = "parameters" ->
  exists metadata,
    _parse_png_metadata raw_metadata = VDict metadata
    /\ dict_get k metadata
       = Some (if String.eqb k "parameters" then raw else parsed_embedded raw).
Proof.
  intros Hnodup Hraw Hk.
  assert (Hget : dict_get k (parse_png_loop raw_metadata [])
                 = Some (if String.eqb k "parameters" then raw else parsed_embedded raw)).
  { destruct Hk as [-> | [-> | ->]].
    - rewrite parse_png_loop_prompt by auto. now rewrite Hraw.
    - rewrite parse_png_loop_prompt by auto. now rewrite Hraw.
    - rewrite parse_png_loop_parameters by auto. now rewrite Hraw. }
  unfold _parse_png_metadata.
  destruct (parse_png_loop raw_metadata []) as [| entry metadata];
    [discriminate Hget |].
  cbn [nonempty negb]. eauto.
Qed.

(** ** The parallel JSON file *)

Lemma parse_png_loop_nonempty (raw_metadata : dict) :
  forall metadata,
    nonempty metadata = true -> nonempty (parse_png_loop raw_metadata metadata) = true.
Proof.
  assert (Hset : forall k v d, nonempty (dict_set k v d) = true).
  { intros k v [| [k' v'] d]; cbn; [reflexivity |]. now destruct (String.eqb k' k). }
  induction raw_metadata as [| [key raw] rest IH]; intros metadata Hne; [exact Hne |].
  cbn [parse_png_loop].
  destruct (String.eqb key "prompt" || String.eqb key "workflow")%bool;
    [| destruct (String.eqb key "parameters")]; apply IH; auto.
Qed.

Lemma parse_png_loop_found (raw_metadata : dict) :
  (dict_mem "prompt" raw_metadata || dict_mem "workflow" raw_metadata
   || dict_mem "parameters" raw_metadata)%bool = true ->
  forall metadata, nonempty (parse_png_loop raw_metadata metadata) = true.
Proof.
  assert (Hset : forall k v d, nonempty (dict_set k v d) = true).
  { intros k v [| [k' v'] d]; cbn; [reflexivity |]. now destruct (String.eqb k' k). }
  unfold dict_mem.
  induction raw_metadata as [| [key raw] rest IH]; intros Hfound metadata;
    [discriminate Hfound |].
  cbn [dict_get parse_png_loop] in *.
  destruct (String.eqb key "prompt"); cbn [orb];
    [apply parse_png_loop_nonempty, Hset |].
  destruct (String.eqb key "workflow"); cbn [orb];
    [apply parse_png_loop_nonempty, Hset |].
  destruct (String.eqb key "parameters");
    [apply parse_png_loop_nonempty, Hset |].
  now apply IH.
Qed.

(** X14. Metadata found in the image shuts the parallel file out: when the
    image holds one of the keys prompt, workflow, parameters, the loader
    returns what it parsed from the image, with the image path added, and
    does not even ask whether a ".json" file exists; opening the image is
    its one access to the file system. *)
Theorem embedded_metadata_shuts_sidecar_out (fs : filesystem) (image_path : string)
    (img : image) (first : rgb) (others : list rgb) (events : list event) :
  image_open fs image_path = Returned img ->
  decode_all (frames img) = Returned (first :: others) ->
  (dict_mem "prompt" (info img) || dict_mem "workflow" (info img)
   || dict_mem "parameters" (info img))%bool = true ->
  exists output_image,
    _process_image_file fs image_path events
    = (Returned (output_image,
                 add_image_path image_path (_parse_png_metadata (info img))),
       (events ++ [Ev_image_open image_path])%list).
Proof.
  intros Hopen Hdec Hfound.
  destruct (process_decoded_image fs image_path img first others events Hopen Hdec)
    as (metadata & events' & Hside & Hproc).
  assert (Hkeep : sidecar_fallback fs image_path (_parse_png_metadata (info img))
                    (events ++ [Ev_image_open image_path])%list
                  = (Returned (_parse_png_metadata (info img)),
                     (events ++ [Ev_image_open image_path])%list)).
  { unfold sidecar_fallback, _parse_png_metadata.
    pose proof (parse_png_loop_found _ Hfound []) as Hne. rewrite Hne.
    cbn [negb].
    destruct (parse_png_loop (info img) []) as [| entry parsed] eqn:Hloop;
      [discriminate Hne |].
    cbn [truthy negb orb]. unfold dict_get_or.
    destruct (dict_get "info" (entry :: parsed)) as [v |] eqn:Hinfo; [| reflexivity].
    rewrite <- Hloop in Hinfo.
    destruct (parse_png_loop_keys _ _ _ _ Hinfo) as [H | [H | [H | H]]];
      discriminate H. }
  rewrite Hkeep in Hside. inversion Hside; subst metadata events'.
  eexists. exact Hproc.
Qed.

(** X15. A parallel file that is there but cannot be read as JSON changes
    nothing: the exception is swallowed and the metadata is the sentinel
    with the image path, as if the file were not there. *)
Theorem unreadable_sidecar_ignored (fs : filesystem) (image_path : string)
    (img : image) (first : rgb) (others : list rgb) (events : list event) (e : exn) :
  image_open fs image_path = Returned img ->
  decode_all (frames img) = Returned (first :: others) ->
  dict_mem "prompt" (info img) = false ->
  dict_mem "workflow" (info img) = false ->
  dict_mem "parameters" (info img) = false ->
  path_exists fs (splitext_root image_path ++ ".json") = true ->
  json_load_file fs (splitext_root image_path ++ ".json") = Raised e ->
  exists output_image,
    _process_image_file fs image_path events
    = (Returned (output_image,
                 VDict [("info", VStr "No workflow metadata found");
                        ("image_path", VStr image_path);
                        ("image_filename", VStr (basename image_path))]),
       (events ++ [Ev_image_open image_path;
                   Ev_exists (splitext_root image_path ++ ".json");
                   Ev_json_load (splitext_root image_path ++ ".json")])%list).
Proof.
  intros Hopen Hdec Hp Hw Ha Hexists Hload.
  destruct (process_decoded_image fs image_path img first others events Hopen Hdec)
    as (metadata & events' & Hside & Hproc).
  unfold _parse_png_metadata in Hside, Hproc.
  rewrite (parse_png_loop_no_keys _ _ Hp Hw Ha) in Hside. cbn [nonempty negb] in Hside.
  unfold sidecar_fallback in Hside. cbn [truthy negb orb] in Hside.
  unfold sbind at 1, log at 1 in Hside. rewrite Hexists in Hside.
  unfold sbind at 1, log at 1 in Hside. rewrite Hload in Hside.
  unfold sret in Hside. inversion Hside; subst metadata events'.
  rewrite Hproc. cbn [add_image_path dict_set String.eqb Ascii.eqb Bool.eqb].
  rewrite <- !app_assoc. cbn [app]. eauto.
Qed.

(** X16. A parallel file holding a JSON object replaces the metadata whole:
    the sentinel is gone, the dict returned is the object of the file with
    image_path and image_filename set to the path of the image and its base
    name (over what the file may hold under these keys) and every other key
    as in the file. *)
Theorem sidecar_object_replaces (fs : filesystem) (image_path : string)
    (img : image) (first : rgb) (others : list rgb) (events : list event)
    (sidecar : dict) :
  image_open fs image_path = Returned img ->
  decode_all (frames img) = Returned (first :: others) ->
  dict_mem "prompt" (info img) = false ->
  dict_mem "workflow" (info img) = false ->
  dict_mem "parameters" (info img) = false ->
  path_exists fs (splitext_root image_path ++ ".json") = true ->
  json_load_file fs (splitext_root image_path ++ ".json") = Returned (VDict sidecar) ->
  exists output_image metadata events',
    _process_image_file fs image_path events
    = (Returned (output_image, VDict metadata), events')
    /\ dict_get "image_path" metadata = Some (VStr image_path)
    /\ dict_get "image_filename" metadata = Some (VStr (basename image_path))
    /\ forall k, k <> "image_path" -> k <> "image_filename" ->
                 dict_get k metadata = dict_get k sidecar.
Proof.
  intros Hopen Hdec Hp Hw Ha Hexists Hload.
  destruct (process_decoded_image fs image_path img first others events Hopen Hdec)
    as (metadata & events' & Hside & Hproc).
  unfold _parse_png_metadata in Hside.
  rewrite (parse_png_loop_no_keys _ _ Hp Hw Ha) in Hside. cbn [nonempty negb] in Hside.
  unfold sidecar_fallback in Hside. cbn [truthy negb orb] in Hside.
  unfold sbind at 1, log at 1 in Hside. rewrite Hexists in Hside.
  unfold sbind at 1, log at 1 in Hside. rewrite Hload in Hside.
  unfold sret in Hside. inversion Hside; subst metadata events'.
  rewrite Hproc. cbn [add_image_path].
  eexists _, _, _. split; [reflexivity |]. repeat split.
  - rewrite dict_get_set_other by discriminate. apply dict_get_set_same.
  - apply dict_get_set_same.
  - intros k Hpath Hname. now rewrite !dict_get_set_other by assumption.
Qed.

(** ** From the loader to the reporter *)

(** X17. What the loader returns when it fails is read by the reporter as
    plain metadata: the report of the error dict is the header
    "--- Image Metadata ---" and the line "Error: " with the message. *)
Theorem error_output_report (error_message : string) :
  report_metadata (snd (_create_error_output error_message))
  = (Returned ("--- Image Metadata ---" ++ newline ++ "Error: " ++ error_message),
     [Stage_get_nodes_dict; Stage_format_direct_image_metadata]).
Proof. reflexivity. Qed.

(** X18. For an image without workflow metadata and without a parallel
    file, loader and reporter together give a report of three lines under
    the header "--- Image Metadata ---": the sentinel text, the path and the
    file name. *)
Theorem plain_image_report (fs : filesystem) (image_path : string) (img : image)
    (first : rgb) (others : list rgb) (events : list event) :
  image_open fs image_path = Returned img ->
  decode_all (frames img) = Returned (first :: others) ->
  dict_mem "prompt" (info img) = false ->
  dict_mem "workflow" (info img) = false ->
  dict_mem "parameters" (info img) = false ->
  path_exists fs (splitext_root image_path ++ ".json") = false ->
  exists output_image metadata events',
    _process_image_file fs image_path events = (Returned (output_image, metadata), events')
    /\ report_metadata metadata
       = (Returned (join newline
                      ["--- Image Metadata ---";
                       "Info: No workflow metadata found";
                       "Image Path: " ++ image_path;
                       "Image Filename: " ++ basename image_path]),
          [Stage_get_nodes_dict; Stage_format_direct_image_metadata]).
Proof.
  intros Hopen Hdec Hp Hw Ha Habsent.
  destruct (process_decoded_image fs image_path img first others events Hopen Hdec)
    as (metadata & events' & Hside & Hproc).
  destruct (sidecar_fallback_absent fs image_path (_parse_png_metadata (info img))
              (events ++ [Ev_image_open image_path])%list Habsent) as (events'' & Hside').
  rewrite Hside' in Hside. inversion Hside; subst metadata events''.
  eexists _, _, _. split; [exact Hproc |].
  unfold _parse_png_metadata. rewrite (parse_png_loop_no_keys _ _ Hp Hw Ha).
  reflexivity.
Qed.

(** ** The shape of what is returned *)

Lemma process_result_shape (fs : filesystem) (image_path : string)
    (events events' : list event) (output_image : tensor) (metadata : value) :
  _process_image_file fs image_path events = (Returned (output_image, metadata), events') ->
  (output_image = Zeros [1; 3; 64; 64]%nat
   /\ exists error_message, metadata = VDict [("error", VStr error_message)])
  \/ (exists first rest,
        output_image = Batch (first :: rest)
        /\ In (Ev_image_open image_path) events'
        /\ forall d, metadata = VDict d ->
                     dict_get "image_path" d = Some (VStr image_path)
                     /\ dict_get "image_filename" d = Some (VStr (basename image_path))).
Proof.
  unfold _process_image_file, _process_image_file_try.
  unfold sbind at 1, log at 1. unfold sbind at 1, lift at 1.
  destruct (image_open fs image_path) as [img | e].
  2: { intros H; inversion H; subst. left. eauto. }
  unfold sbind at 1, lift at 1.
  destruct (frames_loop (frames img) [] None None) as [[| first others] | e].
  1, 3: intros H; inversion H; subst; left; eauto.
  unfold sbind at 1.
  destruct (sidecar_fallback fs image_path (_parse_png_metadata (info img))
              (events ++ [Ev_image_open image_path])%list)
    as [[loaded | e] events''] eqn:Hside.
  2: { destruct (sidecar_fallback_returns fs image_path (_parse_png_metadata (info img))
                   (events ++ [Ev_image_open image_path])%list)
         as (m & ev & Hret & _). congruence. }
  unfold sret. intros H; inversion H; subst. right.
  assert (Hopened : In (Ev_image_open image_path) events').
  { revert Hside. unfold sidecar_fallback.
    destruct (_ || _)%bool.
    - unfold sbind at 1, log at 1. destruct (path_exists fs _).
      + unfold sbind at 1, log at 1. destruct (json_load_file fs _);
          unfold sret; intros H'; inversion H'; subst;
          rewrite <- !app_assoc; apply in_or_app; right; now left.
      + unfold sret; intros H'; inversion H'; subst.
        rewrite <- !app_assoc; apply in_or_app; right; now left.
    - unfold sret; intros H'; inversion H'; subst. apply in_or_app; right; now left. }
  assert (Hbatch : exists f r, select_output img first others = Batch (f :: r)).
  { unfold select_output. destruct others; [eauto |].
    destruct (negb (format_excluded (format img))); eauto. }
  destruct Hbatch as (f & r & ->). exists f, r. repeat split; trivial.
  - destruct loaded; try discriminate. cbn [add_image_path] in H0.
    inversion H0; subst. rewrite dict_get_set_other by discriminate.
    apply dict_get_set_same.
  - destruct loaded; try discriminate. cbn [add_image_path] in H0.
    inversion H0; subst. apply dict_get_set_same.
Qed.

(** X19. Whatever the loader returns is one of two things.  Either the
    placeholder [torch.zeros((1, 3, 64, 64))] with a dict that holds the key
    error and nothing else; or a batch of at least one frame of an image the
    call opened, and then metadata that is a dict names that image:
    image_path is its path and image_filename the base name of the path. *)
Theorem loader_result_shape (fs : filesystem) (source_type : string)
    (image_file : option string) (events events' : list event)
    (output_image : tensor) (metadata : value) :
  load_image_with_metadata fs source_type image_file events
  = (Returned (output_image, metadata), events') ->
  (output_image = Zeros [1; 3; 64; 64]%nat
   /\ exists error_message, metadata = VDict [("error", VStr error_message)])
  \/ (exists image_path first rest,
        output_image = Batch (first :: rest)
        /\ In (Ev_image_open image_path) events'
        /\ forall d, metadata = VDict d ->
                     dict_get "image_path" d = Some (VStr image_path)
                     /\ dict_get "image_filename" d = Some (VStr (basename image_path))).
Proof.
  unfold load_image_with_metadata.
  destruct (String.eqb source_type "direct_input").
  - unfold sbind at 1.
    destruct (scan_walk fs _ events) as [[png_files | e] events1]; [| discriminate].
    destruct (negb (nonempty png_files)).
    + intros H; inversion H; subst. left. eauto.
    + destruct (sort_newest_first png_files) as [| [most_recent_file t] rest];
        [discriminate |].
      intros H. destruct (process_result_shape _ _ _ _ _ _ H) as [Hl | (f & r & Hr)];
        [now left | right; eauto].
  - destruct image_file as [image_file |].
    + intros H. destruct (process_result_shape _ _ _ _ _ _ H) as [Hl | (f & r & Hr)];
        [now left | right; eauto].
    + intros H; inversion H; subst. left. eauto.
Qed.

(** ** When the loader raises *)

Lemma process_image_file_returns (fs : filesystem) (image_path : string)
    (events : list event) :
  exists result events', _process_image_file fs image_path events = (Returned result, events').
Proof.
  unfold _process_image_file.
  destruct (_process_image_file_try fs image_path events) as [[result | e] events'];
    eauto.
Qed.

Lemma scan_files_raised (fs : filesystem) (root : string) (files : list string)
    (events events' : list event) (e : exn) :
  scan_files fs root files events = (Raised e, events') ->
  exists file, In file files /\ endswith (lower file) ".png" = true
               /\ getmtime fs (path_join root file) = Raised e.
Proof.
  revert events events'. induction files as [| file rest IH]; intros events events';
    [discriminate |].
  cbn [scan_files]. destruct (endswith (lower file) ".png") eqn:Hpng.
  - unfold sbind at 1, log at 1. unfold sbind at 1, lift at 1.
    destruct (getmtime fs (path_join root file)) as [mtime | e'] eqn:Hstat.
    + unfold sbind at 1.
      destruct (scan_files fs root rest _) as [[found | e'] events''] eqn:Hrest.
      * discriminate.
      * intros H; inversion H; subst.
        destruct (IH _ _ Hrest) as (f & Hin & Hf). exists f. split; [now right | exact Hf].
    + intros H; inversion H; subst. exists file. repeat split; trivial. now left.
  - intros H. destruct (IH _ _ H) as (f & Hin & Hf). exists f. split; [now right | exact Hf].
Qed.

Lemma scan_walk_raised (fs : filesystem)
    (walk : list (string * list string * list string))
    (events events' : list event) (e : exn) :
  scan_walk fs walk events = (Raised e, events') ->
  exists path, In path (png_candidates walk) /\ getmtime fs path = Raised e.
Proof.
  revert events events'.
  induction walk as [| [[root dirs] files] rest IH]; intros events events';
    [discriminate |].
  cbn [scan_walk png_candidates flat_map fst snd]. unfold sbind at 1.
  destruct (scan_files fs root files events) as [[here | e'] events1] eqn:Hhere.
  - unfold sbind at 1.
    destruct (scan_walk fs rest events1) as [[below | e'] events2] eqn:Hbelow;
      [discriminate |].
    intros H; inversion H; subst.
    destruct (IH _ _ Hbelow) as (path & Hin & Hstat).
    exists path. split; [apply in_or_app; now right | exact Hstat].
  - intros H; inversion H; subst.
    destruct (scan_files_raised _ _ _ _ _ _ Hhere) as (file & Hin & Hpng & Hstat).
    exists (path_join root file). split; [| exact Hstat].
    apply in_or_app. left. apply in_map. apply filter_In. now split.
Qed.

Lemma sort_newest_first_nonempty (png_files : list (string * Z)) :
  nonempty png_files = true -> nonempty (sort_newest_first png_files) = true.
Proof.
  intros Hne.
  destruct (sort_newest_first_head png_files) as (x & rest & -> & _).
  - destruct png_files; [discriminate | discriminate].
  - reflexivity.
Qed.

(** X20. The loader raises in one case only: in "direct_input" mode, when
    [os.path.getmtime] raises for one of the *.png files of the output tree,
    and the exception that leaves [load_image_with_metadata] is that one.
    In every other case the call returns. *)
Theorem load_raises_only_from_getmtime (fs : filesystem) (source_type : string)
    (image_file : option string) (events events' : list event) (e : exn) :
  load_image_with_metadata fs source_type image_file events = (Raised e, events') ->
  source_type = "direct_input"
  /\ exists path,
       In path (png_candidates (os_walk get_output_directory (output_tree fs)))
       /\ getmtime fs path = Raised e.
Proof.
  unfold load_image_with_metadata.
  destruct (String.eqb source_type "direct_input") eqn:Hmode.
  - apply String.eqb_eq in Hmode. intros H. split; [exact Hmode |].
    revert H. unfold sbind at 1.
    destruct (scan_walk fs _ events) as [[png_files | e'] events1] eqn:Hscan.
    + destruct (nonempty png_files) eqn:Hne; cbn [negb]; [| discriminate].
      pose proof (sort_newest_first_nonempty _ Hne) as Hsorted.
      destruct (sort_newest_first png_files) as [| [most_recent_file t] rest];
        [discriminate Hsorted |].
      intros H.
      destruct (process_image_file_returns fs most_recent_file events1)
        as (result & ev & Hret). congruence.
    + intros H; inversion H; subst. exact (scan_walk_raised _ _ _ _ _ Hscan).
  - destruct image_file as [image_file |]; [| discriminate].
    intros H.
    destruct (process_image_file_returns fs (get_annotated_filepath image_file) events)
      as (result & ev & Hret). congruence.
Qed.

(** ** Files of equal time *)

Lemma sort_newest_first_cons_max (x : string * Z) (png_files : list (string * Z)) :
  (forall y, In y png_files -> snd y <= snd x) ->
  sort_newest_first (x :: png_files) = x :: sort_newest_first png_files.
Proof.
  intros Hmax.
  change (sort_newest_first (x :: png_files))
    with (insert_newest_first x (sort_newest_first png_files)).
  destruct png_files as [| y l]; [reflexivity |].
  destruct (sort_newest_first_head (y :: l)) as (best & rest & Hsort & Hin & _);
    [discriminate |].
  rewrite Hsort. cbn [insert_newest_first].
  specialize (Hmax best Hin). apply Z.leb_le in Hmax. now rewrite Hmax.
Qed.

Lemma sort_newest_first_first_max (before after : list (string * Z)) (x : string * Z) :
  (forall y, In y before -> snd y < snd x) ->
  (forall y, In y after -> snd y <= snd x) ->
  exists rest, sort_newest_first (before ++ x :: after)%list = x :: rest.
Proof.
  intros Hbefore Hafter. induction before as [| b before IH].
  - cbn [app]. rewrite (sort_newest_first_cons_max _ _ Hafter). eauto.
  - destruct IH as [rest Hsort]; [intros y Hy; apply Hbefore; now right |].
    cbn [app].
    change (sort_newest_first (b :: (before ++ x :: after)%list))
      with (insert_newest_first b (sort_newest_first (before ++ x :: after)%list)).
    rewrite Hsort. cbn [insert_newest_first].
    assert (Hlt : snd b < snd x) by (apply Hbefore; now left).
    apply Z.leb_gt in Hlt. rewrite Hlt. eauto.
Qed.

(** X21. Among several files of the same, greatest modification time the
    one the walk lists first is taken: when every file listed before
    [newest] is older and no file listed after it is newer, "direct_input"
    processes [newest]. *)
Theorem newest_tie_goes_to_first_listed (fs : filesystem) (image_file : option string)
    (mtime : string -> Z) (before after : list string) (newest : string)
    (events : list event) :
  png_candidates (os_walk get_output_directory (output_tree fs))
  = (before ++ newest :: after)%list ->
  (forall p, In p (before ++ newest :: after)%list -> getmtime fs p = Returned (mtime p)) ->
  (forall p, In p before -> mtime p < mtime newest) ->
  (forall p, In p after -> mtime p <= mtime newest) ->
  load_image_with_metadata fs "direct_input" image_file events
  = _process_image_file fs newest
      (events ++ map Ev_getmtime (before ++ newest :: after))%list.
Proof.
  intros Hcands Htimed Hbefore Hafter.
  unfold load_image_with_metadata. cbn [String.eqb Ascii.eqb Bool.eqb].
  unfold sbind at 1.
  rewrite (scan_walk_timed fs mtime) by (rewrite Hcands; exact Htimed).
  rewrite Hcands.
  destruct (sort_newest_first_first_max
              (map (fun p => (p, mtime p)) before)
              (map (fun p => (p, mtime p)) after) (newest, mtime newest))
    as [rest Hsort].
  - intros y Hy. apply in_map_iff in Hy. destruct Hy as (p & <- & Hp). now apply Hbefore.
  - intros y Hy. apply in_map_iff in Hy. destruct Hy as (p & <- & Hp). now apply Hafter.
  - rewrite map_app. cbn [map]. rewrite Hsort.
    destruct before; reflexivity.
Qed.

(** ** When IS_CHANGED raises *)

(** X22. [IS_CHANGED] raises in one case only: in "file" mode with a file
    named, when reading that file raises something other than
    [FileNotFoundError]; the exception is passed on as it is.  No other
    source type, and no missing file name, makes it raise. *)
Theorem is_changed_raises_only_from_read (fs : filesystem) (source_type : string)
    (image_file : option string) (e : exn) :
  IS_CHANGED fs source_type image_file = Raised e ->
  source_type = "file"
  /\ exists name,
       image_file = Some name
       /\ read_bytes fs (get_annotated_filepath name) = Raised e
       /\ forall path, e <> FileNotFoundError path.
Proof.
  unfold IS_CHANGED.
  destruct (String.eqb source_type "direct_input"); [discriminate |].
  destruct (String.eqb source_type "file") eqn:Hmode; [| discriminate].
  apply String.eqb_eq in Hmode.
  destruct image_file as [name |]; [| discriminate].
  destruct (read_bytes fs (get_annotated_filepath name)) as [content | e'] eqn:Hread;
    [discriminate |].
  destruct e'; try discriminate; intros H; inversion H; subst;
    (split; [reflexivity |]); exists name; repeat split; trivial; discriminate.
Qed.

End LoaderFurtherProperties.

(** * The statements on the sample inputs *)

#[local] Existing Instance sample_runtime.
#[local] Existing Instance sample_imaging.
#[local] Existing Instance sample_host.

(** C10 on the empty dict. *)
Lemma degenerate_metadata_empty_dict :
  (truthy (VDict []) = false \/ is_dict (VDict []) = false)
  /\ report_metadata (VDict []) = (Returned no_metadata_message, []).
Proof.
  split.
  - left. reflexivity.
  - apply (degenerate_metadata_fixed_message (VDict [])). left. reflexivity.
Defined.


(** C9 on a graph with two loader nodes: the entries are those of the first
    node that are switched on. *)
Lemma two_loaders_first_only :
  _extract_loras (VDict two_loaders_graph)
  = Returned [{| name := VStr "a.safetensors"; strength := VFloat "0.8" |}].
Proof.
  refine (proj1 (first_lora_loader_entries [] (tl two_loaders_graph) "8"
                   [("class_type", VStr "Power Lora Loader (rgthree)");
                    ("inputs", VDict [("lora_1", VDict [("on", VBool true);
                                                        ("lora", VStr "a.safetensors");
                                                        ("strength", VFloat "0.8")]);
                                      ("lora_2", VDict [("on", VBool false);
                                                        ("lora", VStr "b.safetensors");
                                                        ("strength", VInt 1)]);
                                      ("model", VList [VStr "7"; VInt 0])])]
                   [("lora_1", VDict [("on", VBool true);
                                      ("lora", VStr "a.safetensors");
                                      ("strength", VFloat "0.8")]);
                    ("lora_2", VDict [("on", VBool false);
                                      ("lora", VStr "b.safetensors");
                                      ("strength", VInt 1)]);
                    ("model", VList [VStr "7"; VInt 0])]
                   _ eq_refl)).
  split.
  - intros entry [].
  - reflexivity.
Defined.

(** C9 as the specification words it, with [on == true], does not hold: a
    LoRA whose [on] is the text "yes" yields an entry. *)
Lemma lora_on_text_yields_entry :
  ~ (forall (before after : dict) (node_id : string) (n inputs : dict),
        first_of_class "Power Lora Loader (rgthree)" before (VDict n) ->
        dict_get_or "inputs" (VDict []) n = VDict inputs ->
        _extract_loras (VDict (before ++ (node_id, VDict n) :: after)%list)
        = Returned (map lora_of_input (filter lora_input_on_true inputs))).
Proof.
  intros Hclaim.
  specialize (Hclaim [] [] "8"
                [("class_type", VStr "Power Lora Loader (rgthree)");
                 ("inputs", VDict [("lora_1", VDict [("on", VStr "yes");
                                                     ("lora", VStr "a.safetensors");
                                                     ("strength", VInt 1)])])]
                [("lora_1", VDict [("on", VStr "yes");
                                   ("lora", VStr "a.safetensors");
                                   ("strength", VInt 1)])]).
  assert (Hfirst : first_of_class "Power Lora Loader (rgthree)" []
                     (VDict [("class_type", VStr "Power Lora Loader (rgthree)");
                             ("inputs", VDict [("lora_1", VDict [("on", VStr "yes");
                                                                 ("lora", VStr "a.safetensors");
                                                                 ("strength", VInt 1)])])])).
  { split; [intros entry [] | reflexivity]. }
  specialize (Hclaim Hfirst eq_refl). vm_compute in Hclaim. discriminate Hclaim.
Qed.

(** C4 on an output directory with three images: the newest one, in the
    sub-directory, is the one processed. *)
Lemma three_outputs_newest :
  load_image_with_metadata three_outputs_fs "direct_input" None []
  = _process_image_file three_outputs_fs "/out/batch/new.PNG"
      [Ev_getmtime "/out/old.png"; Ev_getmtime "/out/batch/new.PNG";
       Ev_getmtime "/out/batch/mid.png"].
Proof.
  pose (mtime := fun path =>
                   match getmtime three_outputs_fs path with
                   | Returned t => t
                   | Raised _ => 0
                   end).
  assert (Htimed : forall p,
             In p (png_candidates (os_walk get_output_directory
                                     (output_tree three_outputs_fs))) ->
             getmtime three_outputs_fs p = Returned (mtime p)).
  { intros p [<- | [<- | [<- | []]]]; reflexivity. }
  assert (Hdistinct : NoDup (map mtime (png_candidates
                                          (os_walk get_output_directory
                                             (output_tree three_outputs_fs))))).
  { vm_compute. repeat constructor; cbn; intuition discriminate. }
  destruct (proj2 (most_recent_png_selected three_outputs_fs None mtime Htimed Hdistinct))
    as (newest & Hin & Hmax & Hload & _).
  { discriminate. }
  destruct Hin as [<- | [<- | [<- | []]]].
  - exfalso.
    assert (H : mtime "/out/batch/new.PNG" < mtime "/out/old.png").
    { apply Hmax; [right; left; reflexivity | discriminate]. }
    vm_compute in H. discriminate H.
  - exact (Hload []).
  - exfalso.
    assert (H : mtime "/out/batch/new.PNG" < mtime "/out/batch/mid.png").
    { apply Hmax; [right; left; reflexivity | discriminate]. }
    vm_compute in H. discriminate H.
Defined.

(** C5 on an image whose only embedded key is dpi. *)
Lemma plain_image_metadata :
  exists output_image events',
    _process_image_file (one_image_fs [("dpi", VInt 72)] [(8, 8)] None) "/in/a.png" []
    = (Returned (output_image,
                 VDict [("info", VStr "No workflow metadata found");
                        ("image_path", VStr "/in/a.png");
                        ("image_filename", VStr "a.png")]),
       events').
Proof.
  exact (no_metadata_no_sidecar (one_image_fs [("dpi", VInt 72)] [(8, 8)] None)
           "/in/a.png" (sample_image [("dpi", VInt 72)] [(8, 8)]) (8, 8) [] []
           eq_refl eq_refl eq_refl eq_refl eq_refl eq_refl).
Defined.

(** C6 on two frames of which the second is one pixel wider: the batch is
    the first frame. *)
Lemma second_frame_wider_dropped :
  exists metadata events',
    _process_image_file (one_image_fs [] [(8, 8); (9, 8)] None) "/in/a.png" []
    = (Returned (Batch [(8, 8)], metadata), events').
Proof.
  destruct (batch_frames_uniform (one_image_fs [] [(8, 8); (9, 8)] None)
              "/in/a.png" (sample_image [] [(8, 8); (9, 8)]) (8, 8) [(9, 8)] []
              eq_refl eq_refl)
    as (kept & metadata & events' & Hproc & _ & _ & _ & Htwo).
  exists metadata, events'.
  assert (Hkept : kept = [(8, 8)]).
  { apply (Htwo (9, 8) eq_refl). cbn. discriminate. }
  rewrite Hkept in Hproc. exact Hproc.
Defined.

(** C1 on an image whose parallel file holds the JSON list [1]: the loader
    returns the image, and as metadata that list. *)
Lemma sidecar_list_returned :
  load_image_with_metadata (one_image_fs [] [(8, 8)] (Some (VList [VInt 1])))
    "file" (Some "a.png") []
  = (Returned (Batch [(8, 8)], VList [VInt 1]),
     [Ev_image_open "/in/a.png"; Ev_exists "/in/a.json"; Ev_json_load "/in/a.json"]).
Proof.
  destruct (proj2 (loader_metadata_mapping_or_sidecar
                     (one_image_fs [] [(8, 8)] (Some (VList [VInt 1]))))
              "/in/a.png" (sample_image [] [(8, 8)]) (8, 8) [] [] (VList [VInt 1])
              eq_refl eq_refl eq_refl eq_refl eq_refl eq_refl eq_refl eq_refl)
    as (output_image & Hproc & Hload).
  assert (Himage : output_image = Batch (im := sample_imaging) [(8, 8)]).
  { assert (Hrun : _process_image_file
                     (one_image_fs [] [(8, 8)] (Some (VList [VInt 1]))) "/in/a.png" []
                   = (Returned (Batch (im := sample_imaging) [(8, 8)], VList [VInt 1]),
                      [Ev_image_open "/in/a.png"; Ev_exists "/in/a.json";
                       Ev_json_load "/in/a.json"]))
      by reflexivity.
    rewrite Hrun in Hproc. now inversion Hproc. }
  rewrite <- Himage. exact (Hload "file" "a.png" eq_refl eq_refl).
Defined.

(** C1 as the specification words it does not hold: the call above returns
    normally, and its metadata is a list. *)
Lemma sidecar_list_not_mapping :
  ~ (forall (fs : filesystem) (source_type : string) (image_file : option string)
            (events events' : list event) (result : tensor * value),
        load_image_with_metadata fs source_type image_file events
        = (Returned result, events') ->
        is_dict (snd result) = true).
Proof.
  intros Hclaim.
  specialize (Hclaim (one_image_fs [] [(8, 8)] (Some (VList [VInt 1])))
                "file" (Some "a.png") []
                [Ev_image_open "/in/a.png"; Ev_exists "/in/a.json";
                 Ev_json_load "/in/a.json"]
                (Batch [(8, 8)], VList [VInt 1]) eq_refl).
  discriminate Hclaim.
Qed.

(** C7 on three files: one that is there gives the digest of its bytes, in
    hexadecimal; one that is not there gives NaN; one that may not be read
    makes [IS_CHANGED] raise the [PermissionError]. *)
Lemma file_digest_signal :
  IS_CHANGED (one_image_fs [] [(8, 8)] None) "file" (Some "a.png")
  = Returned (HexDigest "89504e47")
  /\ IS_CHANGED (one_image_fs [] [(8, 8)] None) "file" (Some "gone.png") = Returned NaN
  /\ IS_CHANGED (one_image_fs [] [(8, 8)] None) "file" (Some "locked.png")
     = Raised (PermissionError "/in/locked.png").
Proof.
  split; [| split].
  - exact (proj1 (proj2 (is_changed_signal (one_image_fs [] [(8, 8)] None) "a.png"))
             [Byte.x89; Byte.x50; Byte.x4e; Byte.x47] eq_refl).
  - exact (proj1 (proj2 (proj2 (is_changed_signal (one_image_fs [] [(8, 8)] None)
                                  "gone.png")))
             "/in/gone.png" eq_refl).
  - refine (proj2 (proj2 (proj2 (is_changed_signal (one_image_fs [] [(8, 8)] None)
                                   "locked.png")))
              (PermissionError "/in/locked.png") eq_refl _).
    intros path. discriminate.
Defined.

(** C7 as the specification words it does not hold: a file that cannot be
    opened for want of permission makes [IS_CHANGED] raise. *)
Lemma permission_denied_raises :
  ~ (forall (fs : filesystem) (image_file : string) (e : exn),
        read_bytes fs (get_annotated_filepath image_file) = Raised e ->
        IS_CHANGED fs "file" (Some image_file) = Returned NaN).
Proof.
  intros Hclaim.
  specialize (Hclaim (one_image_fs [] [(8, 8)] None) "locked.png"
                (PermissionError "/in/locked.png") eq_refl).
  discriminate Hclaim.
Qed.

(** C2 fails on an output directory whose entry "latest.png" is a dangling
    symbolic link: [os.walk] lists it, [os.path.getmtime] raises
    [FileNotFoundError] outside any [try], and the exception reaches the caller
    of [load_image_with_metadata] in place of the placeholder and the error
    dict. *)
Theorem dangling_link_load_raises :
  load_image_with_metadata dangling_link_fs "direct_input" None []
  = (Raised (FileNotFoundError "/out/latest.png"), [Ev_getmtime "/out/latest.png"]).
Proof. reflexivity. Qed.

(** * The further properties on the sample inputs *)

(** X2 on a prompt that is not JSON: the graph under nodes is found as if
    the prompt were not there. *)
Lemma bad_prompt_skipped :
  _get_nodes_dict (VDict bad_prompt_metadata)
  = _get_nodes_dict (VDict (dict_remove "prompt" bad_prompt_metadata)).
Proof.
  exact (unusable_prompt_is_skipped bad_prompt_metadata (VStr "not json")
           eq_refl eq_refl).
Defined.

(** X3 on a prompt too deep to decode: the graph under workflow is not
    looked at. *)
Lemma deep_prompt_ends_search :
  _get_nodes_dict (rt := recursion_runtime) (VDict deep_prompt_metadata) = VNone.
Proof.
  exact (proj1 (prompt_failure_ends_search (rt := recursion_runtime)
                  deep_prompt_metadata "[[[[[[[[ ... ]]]]]]]]"
                  (OtherException "RecursionError"
                     "maximum recursion depth exceeded while decoding a JSON array")
                  eq_refl eq_refl eq_refl)).
Defined.

(** X4 on two checkpoint loaders of which the first has no ckpt_name. *)
Lemma second_checkpoint_named :
  _extract_model_name (VDict two_checkpoints_graph) = Returned (VStr "foo.safetensors").
Proof.
  refine (proj2 (model_name_of_first_with_ckpt [hd ("", VNone) two_checkpoints_graph] _)
            "2" [("class_type", VStr "CheckpointLoaderSimple");
                 ("inputs", VDict [("ckpt_name", VStr "foo.safetensors")])]
            [("ckpt_name", VStr "foo.safetensors")] [] (VStr "foo.safetensors")
            eq_refl eq_refl eq_refl).
  intros entry [<- | []]. reflexivity.
Defined.

(** X5 on two encoders of which the first has an empty clip_l. *)
Lemma second_encoder_prompts :
  _extract_prompts (VDict two_encoders_graph)
  = Returned (VStr "a cat", VStr "a photo of a cat").
Proof.
  refine (proj2 (prompts_of_first_non_empty [hd ("", VNone) two_encoders_graph] _)
            "7" [("class_type", VStr "CLIPTextEncodeFlux");
                 ("inputs", VDict [("clip_l", VStr "a cat");
                                   ("t5xxl", VStr "a photo of a cat")])]
            [("clip_l", VStr "a cat"); ("t5xxl", VStr "a photo of a cat")] []
            (VStr "a cat") eq_refl eq_refl eq_refl eq_refl).
  intros entry [<- | []]. reflexivity.
Defined.

(** X6 on an "ImageScale" node standing before the "CascadeResolutions"
    node. *)
Lemma cascade_wins_over_earlier_scale :
  _extract_resolution (VDict scale_then_cascade_graph) = Returned (VStr "1024x1024").
Proof.
  refine (resolution_cascade_before_scale [hd ("", VNone) scale_then_cascade_graph] []
            "2" [("class_type", VStr "CascadeResolutions");
                 ("inputs", VDict [("size_selected", VStr "1024x1024")])]
            [("size_selected", VStr "1024x1024")] (VStr "1024x1024")
            _ eq_refl eq_refl eq_refl).
  intros entry [<- | []]. reflexivity.
Defined.

(** X7 on two "ImageScale" nodes of which the first has a width of zero. *)
Lemma zero_width_scale_passed_over :
  _extract_resolution (VDict two_scales_graph) = Returned (VStr "768x512").
Proof.
  refine (proj2 (resolution_of_image_scale [hd ("", VNone) two_scales_graph] _)
            "2" [("class_type", VStr "ImageScale");
                 ("inputs", VDict [("width", VInt 768); ("height", VInt 512)])]
            [("width", VInt 768); ("height", VInt 512)] []
            _ eq_refl eq_refl eq_refl eq_refl).
  - intros entry [<- | []]. split; reflexivity.
  - intros entry [].
Defined.

(** X8 on a graph whose only sampler is an "XlabsSampler". *)
Lemma xlabs_sampler_reported :
  exists sampler_info,
    _extract_sampler_info (VDict xlabs_graph) = Returned (Some sampler_info)
    /\ appends (sampler_section (Some sampler_info)) (Returned tt)
         [newline ++ "--- Sampler Details ---"; "Seed: 7"; "Steps: 25"; "True Gs: 3.5";
          "Timestep To Start Cfg: N/A"; "Image To Image Strength: N/A";
          "Denoise: N/A"].
Proof.
  refine (proj2 (xlabs_sampler_without_ksampler [] _)
            "4" [("class_type", VStr "XlabsSampler");
                 ("inputs", VDict [("noise_seed", VInt 7); ("steps", VInt 25);
                                   ("true_gs", VFloat "3.5")])]
            [("noise_seed", VInt 7); ("steps", VInt 25); ("true_gs", VFloat "3.5")] []
            _ eq_refl eq_refl).
  - intros entry [].
  - intros entry [].
Defined.

(** X9 on the graph of the seed example. *)
Lemma seed_graph_no_error :
  exists produced,
    appends (_parse_and_format_try (VDict seed_link_graph)) (Returned tt) produced
    /\ _parse_and_format (VDict seed_link_graph)
       = join newline ("--- Workflow Metadata Report ---" :: produced).
Proof.
  apply (well_formed_graph_no_error seed_link_graph).
  intros entry [<- | [<- | []]]; reflexivity.
Defined.


(** X11 on the graph of the seed example, which has no component node. *)
Lemma seed_graph_no_component :
  _extract_additional_components (VDict seed_link_graph) = Returned [].
Proof.
  apply (no_component_nodes_no_section seed_link_graph).
  intros entry [<- | [<- | []]]; reflexivity.
Defined.

(** X13 on an image whose prompt is the text "[1]": the metadata holds the
    list. *)
Lemma prompt_text_decoded :
  exists metadata,
    _parse_png_metadata [("dpi", VInt 72); ("prompt", VStr "[1]")] = VDict metadata
    /\ dict_get "prompt" metadata = Some (VList [VInt 1]).
Proof.
  refine (embedded_values_decoded_or_kept
            [("dpi", VInt 72); ("prompt", VStr "[1]")] "prompt" (VStr "[1]")
            _ eq_refl (or_introl eq_refl)).
  repeat constructor; cbn; intuition discriminate.
Defined.

(** X14 on an image with a prompt and a parallel file: the file is not
    asked for. *)
Lemma prompt_image_ignores_sidecar :
  exists output_image,
    _process_image_file
      (one_image_fs [("prompt", VStr "{}")] [(8, 8)] (Some (VDict [("x", VInt 1)])))
      "/in/a.png" []
    = (Returned (output_image,
                 VDict [("prompt", VDict []); ("image_path", VStr "/in/a.png");
                        ("image_filename", VStr "a.png")]),
       [Ev_image_open "/in/a.png"]).
Proof.
  exact (embedded_metadata_shuts_sidecar_out
           (one_image_fs [("prompt", VStr "{}")] [(8, 8)] (Some (VDict [("x", VInt 1)])))
           "/in/a.png" (sample_image [("prompt", VStr "{}")] [(8, 8)]) (8, 8) [] []
           eq_refl eq_refl eq_refl).
Defined.

(** X15 on a parallel file that is not JSON. *)
Lemma broken_sidecar_ignored :
  exists output_image,
    _process_image_file broken_sidecar_fs "/in/a.png" []
    = (Returned (output_image,
                 VDict [("info", VStr "No workflow metadata found");
                        ("image_path", VStr "/in/a.png");
                        ("image_filename", VStr "a.png")]),
       [Ev_image_open "/in/a.png"; Ev_exists "/in/a.json"; Ev_json_load "/in/a.json"]).
Proof.
  exact (unreadable_sidecar_ignored broken_sidecar_fs "/in/a.png"
           (sample_image [] [(8, 8)]) (8, 8) [] []
           (JSONDecodeError "Expecting value")
           eq_refl eq_refl eq_refl eq_refl eq_refl eq_refl eq_refl).
Defined.

(** X16 on a parallel file that holds an object with a prompt and a path of
    its own. *)
Lemma sidecar_object_taken :
  exists output_image metadata events',
    _process_image_file
      (one_image_fs [] [(8, 8)]
         (Some (VDict [("prompt", VDict []); ("image_path", VStr "elsewhere")])))
      "/in/a.png" []
    = (Returned (output_image, VDict metadata), events')
    /\ dict_get "image_path" metadata = Some (VStr "/in/a.png")
    /\ dict_get "image_filename" metadata = Some (VStr "a.png")
    /\ forall k, k <> "image_path" -> k <> "image_filename" ->
                 dict_get k metadata
                 = dict_get k [("prompt", VDict []); ("image_path", VStr "elsewhere")].
Proof.
  exact (sidecar_object_replaces
           (one_image_fs [] [(8, 8)]
              (Some (VDict [("prompt", VDict []); ("image_path", VStr "elsewhere")])))
           "/in/a.png" (sample_image [] [(8, 8)]) (8, 8) [] []
           [("prompt", VDict []); ("image_path", VStr "elsewhere")]
           eq_refl eq_refl eq_refl eq_refl eq_refl eq_refl eq_refl).
Defined.

(** X18 on an image without metadata: the report of what the loader
    returns. *)
Lemma plain_image_reported :
  exists output_image metadata events',
    _process_image_file (one_image_fs [] [(8, 8)] None) "/in/a.png" []
    = (Returned (output_image, metadata), events')
    /\ report_metadata metadata
       = (Returned (join newline
                      ["--- Image Metadata ---"; "Info: No workflow metadata found";
                       "Image Path: /in/a.png"; "Image Filename: a.png"]),
          [Stage_get_nodes_dict; Stage_format_direct_image_metadata]).
Proof.
  exact (plain_image_report (one_image_fs [] [(8, 8)] None) "/in/a.png"
           (sample_image [] [(8, 8)]) (8, 8) [] []
           eq_refl eq_refl eq_refl eq_refl eq_refl eq_refl).
Defined.

(** X19 on an image that loads: the metadata names the image the call
    opened. *)
Lemma loaded_image_names_itself :
  exists image_path,
    In (Ev_image_open image_path) [Ev_image_open "/in/a.png"; Ev_exists "/in/a.json"]
    /\ dict_get "image_path"
         [("info", VStr "No workflow metadata found");
          ("image_path", VStr "/in/a.png"); ("image_filename", VStr "a.png")]
       = Some (VStr image_path).
Proof.
  assert (Hload : load_image_with_metadata (one_image_fs [] [(8, 8)] None) "file"
                    (Some "a.png") []
                  = (Returned (Batch (im := sample_imaging) [(8, 8)],
                               VDict [("info", VStr "No workflow metadata found");
                                      ("image_path", VStr "/in/a.png");
                                      ("image_filename", VStr "a.png")]),
                     [Ev_image_open "/in/a.png"; Ev_exists "/in/a.json"]))
    by reflexivity.
  destruct (loader_result_shape _ _ _ _ _ _ _ Hload)
    as [[Hzeros _] | (image_path & first & rest & _ & Hopened & Hnames)].
  - discriminate Hzeros.
  - exists image_path. split; [exact Hopened |]. exact (proj1 (Hnames _ eq_refl)).
Defined.

(** X20 on the output directory with a dangling link. *)
Lemma dangling_link_is_the_cause :
  "direct_input" = "direct_input"
  /\ exists path,
       In path (png_candidates (os_walk get_output_directory
                                  (output_tree dangling_link_fs)))
       /\ getmtime dangling_link_fs path = Raised (FileNotFoundError "/out/latest.png").
Proof.
  exact (load_raises_only_from_getmtime dangling_link_fs "direct_input" None []
           [Ev_getmtime "/out/latest.png"] (FileNotFoundError "/out/latest.png") eq_refl).
Defined.

(** X21 on three outputs of which the last two have the same time: the
    first of the two is processed. *)
Lemma tie_goes_to_b :
  load_image_with_metadata tied_outputs_fs "direct_input" None []
  = _process_image_file tied_outputs_fs "/out/b.png"
      [Ev_getmtime "/out/a.png"; Ev_getmtime "/out/b.png"; Ev_getmtime "/out/c.png"].
Proof.
  refine (newest_tie_goes_to_first_listed tied_outputs_fs None
            (fun path => match getmtime tied_outputs_fs path with
                         | Returned t => t
                         | Raised _ => 0
                         end)
            ["/out/a.png"] ["/out/c.png"] "/out/b.png" [] eq_refl _ _ _).
  - intros p [<- | [<- | [<- | []]]]; reflexivity.
  - intros p [<- | []]. reflexivity.
  - intros p [<- | []]. discriminate.
Defined.

(** X22 on a file that may not be read. *)
Lemma locked_file_is_the_cause :
  "file" = "file"
  /\ exists name,
       Some "locked.png" = Some name
       /\ read_bytes (one_image_fs [] [(8, 8)] None) (get_annotated_filepath name)
          = Raised (PermissionError "/in/locked.png")
       /\ forall path, PermissionError "/in/locked.png" <> FileNotFoundError path.
Proof.
  exact (is_changed_raises_only_from_read (one_image_fs [] [(8, 8)] None) "file"
           (Some "locked.png") (PermissionError "/in/locked.png") eq_refl).
Defined.

(** X23 on metadata in the layout of a saved workflow. *)
Lemma saved_workflow_report :
  report_metadata (VDict saved_workflow_metadata)
  = (Returned ("--- Workflow Metadata Report ---" ++ newline ++ newline
               ++ "Error during metadata parsing: 'list' object has no attribute 'items'"),
     [Stage_get_nodes_dict; Stage_parse_and_format]).
Proof.
  refine (node_list_report_is_error saved_workflow_metadata
            (VDict [("id", VInt 1); ("type", VStr "KSampler")]) [] eq_refl _).
  right. eexists. split; reflexivity.
Defined.

(** X24 on a list of six numbers. *)
Lemma six_numbers_entry :
  format_direct_entry
    ("image_size", VList [VInt 1; VInt 2; VInt 3; VInt 4; VInt 5; VInt 6])
  = "Image Size: [1, 2, 3, 4, 5, ... ]".
Proof.
  refine (long_list_entry "image_size"
            [VInt 1; VInt 2; VInt 3; VInt 4; VInt 5; VInt 6] _).
  cbn. repeat constructor.
Defined.

(** X25 on a graph of one node of an unknown class. *)
Lemma unknown_node_report :
  _parse_and_format (VDict unknown_node_graph)
  = join newline
      ["--- Workflow Metadata Report ---"; "Model: N/A";
       newline ++ "Positive Prompt:" ++ newline ++ "  N/A";
       newline ++ "Negative Prompt:" ++ newline ++ "  (Empty)"].
Proof.
  apply (unrecognised_graph_report unknown_node_graph).
  intros entry [<- | []]. reflexivity.
Defined.
